(** * lazyests: the request cache, the request pipeline and the login handoff

    A shallow embedding of [src/lazyests/cache.py], [src/lazyests/client.py]
    and [src/lazyests/response.py].

    Conventions of the embedding.
    - A Python [str] is a Rocq [string]: a sequence of 8-bit characters.  On
      ASCII text this is Python's [str] and also its UTF-8 encoding.
    - [time.time()] readings, TTLs and sleeps are exact rationals ([Qc]).
    - A JSON value is a [JSONValue]; a float is the rational it denotes (no
      NaN, no infinity), a dictionary is the list of its items in insertion
      order.
    - [hashlib.sha256] and [json.dumps] are implemented; the text of a float
      ([float.__repr__]) and the other standard library functions the code
      calls ([json.loads], [urlencode], [urljoin], [urlparse], [re.search],
      [str]) are the fields of a record [PyLib], over which the methods and
      the theorems are parametrised.  [Ref.lib] is an instance that runs.
    - The browser, the clock and the SQLite engine are an environment [Env]
      that answers every external call: the call made at tick [n] gets the
      [n]-th answer; browser and clock calls are appended to the trace.
    - A method of [Client] is a function from the state (client and world)
      to an outcome (a result, an exception, or out of fuel for the polling
      loop) and a state.  The lock of the cache is not modelled: methods run
      one at a time. *)

From Stdlib Require Import ZArith QArith Qcanon String Ascii List Lia Bool DecimalString.
From stdpp Require Import gmap strings list fin_maps numbers.

Import ListNotations.
Set Warnings "-register-all".
Local Open Scope string_scope.
Local Open Scope Z_scope.

(* ===================================================================== *)
(** * Part I: definitions                                                 *)
(* ===================================================================== *)

(** ** Numbers *)

(** [float(z)] for an integer [z]. *)
Definition float_of_Z (z : Z) : Qc := Q2Qc (inject_Z z).

(** The float written [n/d]. *)
Definition float_frac (n : Z) (d : positive) : Qc := Q2Qc (Qmake n d).

(** [int(q)]: truncation towards zero. *)
Definition int_of_float (q : Qc) : Z := Z.quot (Qnum q) (Zpos (Qden q)).

(** ** Python string operations used by the sources *)

Module PyStr.

(** [c.upper()] on one ASCII character. *)
Definition upper_ascii (c : ascii) : ascii :=
  let n := nat_of_ascii c in
  if ((97 <=? n)%nat && (n <=? 122)%nat)%bool then ascii_of_nat (n - 32) else c.

(** [c.lower()] on one ASCII character. *)
Definition lower_ascii (c : ascii) : ascii :=
  let n := nat_of_ascii c in
  if ((65 <=? n)%nat && (n <=? 90)%nat)%bool then ascii_of_nat (n + 32) else c.

(** [s.upper()] *)
Fixpoint upper (s : string) : string :=
  match s with
  | EmptyString => EmptyString
  | String c r => String (upper_ascii c) (upper r)
  end.

(** [s.lower()] *)
Fixpoint lower (s : string) : string :=
  match s with
  | EmptyString => EmptyString
  | String c r => String (lower_ascii c) (lower r)
  end.

(** [s.startswith(p)] *)
Fixpoint startswith (p s : string) : bool :=
  match p, s with
  | EmptyString, _ => true
  | String a p', String b s' => if Ascii.eqb a b then startswith p' s' else false
  | String _ _, EmptyString => false
  end.

(** [p in s] for two strings *)
Fixpoint contains (p s : string) : bool :=
  if startswith p s then true
  else match s with
       | EmptyString => false
       | String _ s' => contains p s'
       end.

(** [s.lstrip("/")] *)
Fixpoint lstrip_slash (s : string) : string :=
  match s with
  | String c r => if Ascii.eqb c "/" then lstrip_slash r else s
  | EmptyString => EmptyString
  end.

Definition rev (s : string) : string :=
  string_of_list_ascii (List.rev (list_ascii_of_string s)).

(** [s.rstrip("/")] *)
Definition rstrip_slash (s : string) : string := rev (lstrip_slash (rev s)).

(** Truthiness of a string: [if s]. *)
Definition truthy (s : string) : bool :=
  match s with EmptyString => false | _ => true end.

End PyStr.

(** ** SHA-256 (FIPS 180-4), as [hashlib.sha256(b).hexdigest()] *)

Module Sha256.

Definition mask32 : Z := 0xffffffff.
Definition w32 (x : Z) : Z := Z.land x mask32.
Definition add32 (x y : Z) : Z := w32 (x + y).
Definition rotr (n x : Z) : Z :=
  Z.lor (Z.shiftr x n) (w32 (Z.shiftl x (32 - n))).
Definition not32 (x : Z) : Z := Z.lxor x mask32.

Definition Ch (x y z : Z) : Z := Z.lxor (Z.land x y) (Z.land (not32 x) z).
Definition Maj (x y z : Z) : Z :=
  Z.lxor (Z.lxor (Z.land x y) (Z.land x z)) (Z.land y z).
Definition bsig0 (x : Z) : Z := Z.lxor (Z.lxor (rotr 2 x) (rotr 13 x)) (rotr 22 x).
Definition bsig1 (x : Z) : Z := Z.lxor (Z.lxor (rotr 6 x) (rotr 11 x)) (rotr 25 x).
Definition ssig0 (x : Z) : Z := Z.lxor (Z.lxor (rotr 7 x) (rotr 18 x)) (Z.shiftr x 3).
Definition ssig1 (x : Z) : Z := Z.lxor (Z.lxor (rotr 17 x) (rotr 19 x)) (Z.shiftr x 10).

(** The constants are the first 32 bits of the fractional parts of the cube
    roots ([K]) and of the square roots ([H0]) of the first primes; they are
    computed here rather than tabulated. *)
Definition is_prime (n : nat) : bool :=
  forallb (fun d => negb (Nat.eqb (n mod d) 0)) (seq 2 (n - 2)).

Definition primes (count : nat) : list Z :=
  List.map Z.of_nat (firstn count (List.filter is_prime (seq 2 400))).

(** The integer cube root of [n], one bit at a time from bit [bits - 1] down. *)
Fixpoint cbrt_bits (bits : nat) (n r : Z) : Z :=
  match bits with
  | O => r
  | S b =>
      let c := r + Z.shiftl 1 (Z.of_nat b) in
      cbrt_bits b n (if c * c * c <=? n then c else r)
  end.

Definition frac_cbrt32 (p : Z) : Z := w32 (cbrt_bits 40 (Z.shiftl p 96) 0).
Definition frac_sqrt32 (p : Z) : Z := w32 (Z.sqrt (Z.shiftl p 64)).

Definition K : list Z := Eval vm_compute in List.map frac_cbrt32 (primes 64).
Definition H0 : list Z := Eval vm_compute in List.map frac_sqrt32 (primes 8).

(** Padding: the byte 0x80, zeros up to 56 modulo 64, the bit length on
    eight bytes, most significant first. *)
Definition be_bytes (n : nat) (x : Z) : list Z :=
  List.map (fun i => Z.land (Z.shiftr x (8 * Z.of_nat i)) 0xff) (List.rev (seq 0 n)).

Definition pad (msg : list Z) : list Z :=
  let len := Z.of_nat (length msg) in
  let zeros := Z.to_nat ((55 - len) mod 64) in
  msg ++ [0x80] ++ repeat 0 zeros ++ be_bytes 8 (8 * len).

Definition be_word (bs : list Z) : Z :=
  fold_left (fun acc b => Z.lor (Z.shiftl acc 8) b) bs 0.

(** Cut a list into chunks of [n] elements; [fuel] bounds the number of chunks. *)
Fixpoint chunks {A} (fuel n : nat) (l : list A) : list (list A) :=
  match fuel with
  | O => []
  | S fuel' =>
      match l with
      | [] => []
      | _ => firstn n l :: chunks fuel' n (skipn n l)
      end
  end.

Definition words_of_block (blk : list Z) : list Z :=
  List.map be_word (chunks 16 4 blk).

(** Message schedule, kept most recent word first. *)
Fixpoint extend (n : nat) (wrev : list Z) : list Z :=
  match n with
  | O => wrev
  | S n' =>
      let g i := nth i wrev 0 in
      let wt := add32 (add32 (add32 (ssig1 (g 1%nat)) (g 6%nat)) (ssig0 (g 14%nat))) (g 15%nat) in
      extend n' (wt :: wrev)
  end.

Definition schedule (blk : list Z) : list Z :=
  List.rev (extend 48 (List.rev (words_of_block blk))).

Record regs := Regs { ra : Z; rb : Z; rc : Z; rd : Z; re : Z; rf : Z; rg : Z; rh : Z }.

Definition round (r : regs) (kw : Z * Z) : regs :=
  let '(k, w) := kw in
  let t1 := add32 (add32 (add32 (add32 (rh r) (bsig1 (re r))) (Ch (re r) (rf r) (rg r))) k) w in
  let t2 := add32 (bsig0 (ra r)) (Maj (ra r) (rb r) (rc r)) in
  Regs (add32 t1 t2) (ra r) (rb r) (rc r) (add32 (rd r) t1) (re r) (rf r) (rg r).

Definition regs_of (h : list Z) : regs :=
  let g i := nth i h 0 in
  Regs (g 0%nat) (g 1%nat) (g 2%nat) (g 3%nat) (g 4%nat) (g 5%nat) (g 6%nat) (g 7%nat).

Definition list_of (r : regs) : list Z :=
  [ra r; rb r; rc r; rd r; re r; rf r; rg r; rh r].

Definition compress (h : list Z) (blk : list Z) : list Z :=
  let r := fold_left round (combine K (schedule blk)) (regs_of h) in
  List.map (fun p => add32 (fst p) (snd p)) (combine h (list_of r)).

Definition digest_words (msg : list Z) : list Z :=
  let p := pad msg in
  fold_left compress (chunks (length p) 64 p) H0.

Definition hex_digit (n : Z) : ascii :=
  if n <? 10 then ascii_of_nat (Z.to_nat (48 + n)) else ascii_of_nat (Z.to_nat (87 + n)).

Definition hex_word (x : Z) : list ascii :=
  List.map (fun i => hex_digit (Z.land (Z.shiftr x (4 * Z.of_nat i)) 0xf)) (List.rev (seq 0 8)).

Definition bytes_of_string (s : string) : list Z :=
  List.map (fun c => Z.of_nat (nat_of_ascii c)) (list_ascii_of_string s).

(** [hashlib.sha256(s.encode("utf-8")).hexdigest()] *)
Definition hexdigest (s : string) : string :=
  string_of_list_ascii (List.concat (List.map hex_word (digest_words (bytes_of_string s)))).

End Sha256.

(** ** JSON values ([schemas.py]) *)

(** [JSONValue = str | int | float | bool | None | dict[str, JSONValue] | list[JSONValue]].
    A [dict] keeps its insertion order: it is a list of items. *)
Inductive JSONValue : Type :=
| VNone
| VBool (b : bool)
| VInt (z : Z)
| VFloat (q : Qc)
| VStr (s : string)
| VList (l : list JSONValue)
| VDict (d : list (string * JSONValue)).

(** [JSONDict], [QueryParams], [Headers], [FetchResponseData]: dictionaries
    with string keys. *)
Definition JSONDict : Type := list (string * JSONValue).

Module PyDict.

(** [k in d] *)
Definition mem (k : string) (d : JSONDict) : bool :=
  existsb (fun kv => String.eqb k (fst kv)) d.

(** [d.get(k)] *)
Fixpoint get (k : string) (d : JSONDict) : option JSONValue :=
  match d with
  | [] => None
  | (k', v) :: r => if String.eqb k k' then Some v else get k r
  end.

(** [d.get(k, dflt)] *)
Definition get_default (k : string) (dflt : JSONValue) (d : JSONDict) : JSONValue :=
  match get k d with Some v => v | None => dflt end.

(** [d.pop(k, None)] *)
Definition pop (k : string) (d : JSONDict) : JSONDict :=
  List.filter (fun kv => negb (String.eqb k (fst kv))) d.

(** [d[k] = v] on a dictionary: replace in place or append. *)
Fixpoint dict_set (k : string) (v : JSONValue) (d : JSONDict) : JSONDict :=
  match d with
  | [] => [(k, v)]
  | (k', v') :: r => if String.eqb k k' then (k, v) :: r else (k', v') :: dict_set k v r
  end.

(** [d.keys()] *)
Definition keys (d : JSONDict) : list string := List.map fst d.

(** Truthiness of an optional dictionary: [if d] is false for [None] and
    for the empty dictionary. *)
Definition truthy (d : option JSONDict) : bool :=
  match d with
  | Some (_ :: _) => true
  | _ => false
  end.

End PyDict.

(** ** [json.dumps] *)

Module Json.

(** The double quote character. *)
Definition dquote : ascii := ascii_of_nat 34.

Definition hex4 (n : Z) : string :=
  string_of_list_ascii
    (List.map (fun i => Sha256.hex_digit (Z.land (Z.shiftr n (4 * Z.of_nat i)) 0xf))
              (List.rev (seq 0 4))).

(** One character of a string literal, [ensure_ascii=True]. *)
Definition escape_char (c : ascii) : string :=
  let n := Z.of_nat (nat_of_ascii c) in
  if n =? 34 then String "\" (String dquote EmptyString)
  else if n =? 92 then "\\"
  else if n =? 10 then "\n"
  else if n =? 13 then "\r"
  else if n =? 9 then "\t"
  else if n =? 8 then "\b"
  else if n =? 12 then "\f"
  else if (n <? 32) || (126 <? n) then "\u" ++ hex4 n
  else String c EmptyString.

Fixpoint escape (s : string) : string :=
  match s with
  | EmptyString => EmptyString
  | String c r => escape_char c ++ escape r
  end.

Definition quote (s : string) : string :=
  String dquote (escape s ++ String dquote EmptyString).

Definition join (sep : string) (l : list string) : string :=
  match l with
  | [] => ""
  | x :: r => fold_left (fun acc y => acc ++ sep ++ y) r x
  end.

(** [str(z)] for an integer. *)
Definition str_int (z : Z) : string := NilZero.string_of_int (Z.to_int z).

(** Insertion of one rendered item into a list sorted by key. *)
Fixpoint insert_item (it : string * string) (l : list (string * string)) :=
  match l with
  | [] => [it]
  | x :: r => if String.leb (fst x) (fst it) then x :: insert_item it r else it :: l
  end.

Definition sort_items (l : list (string * string)) : list (string * string) :=
  fold_left (fun acc it => insert_item it acc) l [].

Section Dumps.
(** [float.__repr__] *)
Variable float_repr : Qc -> string.
Variable sort_keys : bool.

(** [json.dumps(v, sort_keys=sort_keys)] with the default separators. *)
Fixpoint dumps (v : JSONValue) : string :=
  match v with
  | VNone => "null"
  | VBool true => "true"
  | VBool false => "false"
  | VInt z => str_int z
  | VFloat q => float_repr q
  | VStr s => quote s
  | VList l => "[" ++ join ", " (List.map dumps l) ++ "]"
  | VDict d =>
      let items := List.map (fun kv => (fst kv, dumps (snd kv))) d in
      let items := if sort_keys then sort_items items else items in
      "{" ++ join ", " (List.map (fun it => quote (fst it) ++ ": " ++ snd it) items) ++ "}"
  end.
End Dumps.

End Json.

(** ** The Python library functions the sources call *)

(** Exception classes that occur in the sources or can reach them. *)
Inductive exn_class :=
| BrowserInitError | RuntimeError | TimeoutError | TypeError | AttributeError
| ValueError | ReError | SqliteError | OtherException | KeyboardInterrupt.

(** An exception: its class and its message. *)
Record exn := Exn { exn_kind : exn_class; exn_msg : string }.

(** [isinstance(e, Exception)]: what [except Exception] catches.
    [KeyboardInterrupt] derives from [BaseException] only. *)
Definition is_Exception (e : exn) : bool :=
  match exn_kind e with
  | KeyboardInterrupt => false
  | _ => true
  end.

Record PyLib := {
  (** [float.__repr__] *)
  float_repr : Qc -> string;
  (** [json.loads]; [None] stands for [json.JSONDecodeError] *)
  json_loads : string -> option JSONValue;
  (** [urllib.parse.urlencode(d, doseq=b)] *)
  urlencode : bool -> JSONDict -> string;
  (** [urllib.parse.urljoin] *)
  urljoin : string -> string -> string;
  (** [urlparse(u)]: the [scheme] and [netloc] of the result, or the
      exception it raises *)
  urlparse : string -> exn + (string * string);
  (** [re.search(pattern, s)]: whether there is a match, or the exception
      raised (an invalid pattern) *)
  re_search : string -> string -> exn + bool;
  (** [str(v)], as rendered inside an f-string *)
  py_str : JSONValue -> string;
}.

(** [json.dumps(v)] and [json.dumps(v, sort_keys=True)] *)
Definition json_dumps (L : PyLib) (sort_keys : bool) (v : JSONValue) : string :=
  Json.dumps (float_repr L) sort_keys v.

(** ** [cache.py]: the fingerprint *)

Module RequestCache.

Section Fingerprint.
Variable L : PyLib.

(** [json.dumps(d, sort_keys=True) if d else ""] *)
Definition normalize (d : option JSONDict) : string :=
  match d with
  | Some ((_ :: _) as items) => json_dumps L true (VDict items)
  | _ => ""
  end.

(** The string that is hashed:
    [f"{method.upper()}|{url}|{params_str}|{data_str}|{json_str}"] *)
Definition raw_key (method url : string) (params data json_data : option JSONDict) : string :=
  PyStr.upper method ++ "|" ++ url ++ "|" ++ normalize params ++ "|"
    ++ normalize data ++ "|" ++ normalize json_data.

(** [RequestCache.generate_key] *)
Definition generate_key (method url : string) (params data json_data : option JSONDict) : string :=
  Sha256.hexdigest (raw_key method url params data json_data).
End Fingerprint.

(** *** The table [cache]

    [CREATE TABLE cache (key TEXT PRIMARY KEY, value TEXT NOT NULL,
    expires_at REAL NOT NULL)]: one row per key. *)
Record row := Row { value : string; expires_at : Qc }.

(** [REQUIRED_KEYS] *)
Definition REQUIRED_KEYS : list string :=
  ["status"; "statusText"; "url"; "headers"; "text"; "redirected"; "type"].

(** [REQUIRED_KEYS.issubset(d.keys())] *)
Definition has_required_keys (d : JSONDict) : bool :=
  forallb (fun k => PyDict.mem k d) REQUIRED_KEYS.

(** [RequestCache._validate_data] *)
Definition _validate_data (data : JSONValue) : option JSONValue :=
  match data with
  | VDict d => if has_required_keys d then Some data else None
  | _ => None
  end.

Section Store.
Variable L : PyLib.

(** [RequestCache.get].  [now] is the reading of [time.time()];
    [select_err] and [delete_err] tell whether the [SELECT] and the
    [DELETE] statement raise [sqlite3.Error]. *)
Definition get (now : Qc) (select_err delete_err : bool) (key : string)
    (conn : gmap string row) : option JSONValue * gmap string row :=
  if select_err then (None, conn)
  else
    match conn !! key with
    | Some r =>
        if decide (now < expires_at r)%Qc then
          match json_loads L (value r) with
          | Some data => (_validate_data data, conn)
          | None => (None, conn)
          end
        else if delete_err then (None, conn)
             else (None, delete key conn)
    | None => (None, conn)
    end.

(** [RequestCache.set].  [insert_err] tells whether the
    [INSERT OR REPLACE] raises [sqlite3.Error]. *)
Definition set (now : Qc) (insert_err : bool) (key : string) (v : JSONValue)
    (ttl : Qc) (conn : gmap string row) : gmap string row :=
  let expires_at := (now + ttl)%Qc in
  let value_json := json_dumps L false v in
  if insert_err then conn
  else <[key := Row value_json expires_at]> conn.
End Store.

(** [RequestCache.clear_expired]: [DELETE FROM cache WHERE expires_at < now] *)
Definition clear_expired (now : Qc) (delete_err : bool)
    (conn : gmap string row) : gmap string row :=
  if delete_err then conn
  else filter (fun kr => ¬ (expires_at (snd kr) < now)%Qc) conn.

(** [RequestCache.clear_all]: [DELETE FROM cache] *)
Definition clear_all (delete_err : bool) (conn : gmap string row) : gmap string row :=
  if delete_err then conn else ∅.

End RequestCache.

(** ** [response.py] *)

Module Response.

(** [{k.lower(): v for k, v in h.items()}] *)
Definition lower_keys (h : JSONDict) : JSONDict :=
  fold_left (fun acc kv => PyDict.dict_set (PyStr.lower (fst kv)) (snd kv) acc) h [].

Record t := Build {
  _raw_data : JSONValue;
  status_code : JSONValue;
  url : JSONValue;
  headers : JSONDict;
  _text : JSONValue;
}.

(** [Response.__init__]: [raw_data.get("headers", {}).items()] raises
    [AttributeError] when the value under ["headers"] is not a dictionary. *)
Definition init (raw_data : JSONValue) : exn + t :=
  match raw_data with
  | VDict d =>
      match PyDict.get_default "headers" (VDict []) d with
      | VDict h =>
          inr (Build raw_data
                 (PyDict.get_default "status" (VInt 0) d)
                 (PyDict.get_default "url" (VStr "") d)
                 (lower_keys h)
                 (PyDict.get_default "text" (VStr "") d))
      | _ => inl (Exn AttributeError "object has no attribute 'items'")
      end
  | _ => inl (Exn AttributeError "object has no attribute 'get'")
  end.

(** [Response.raw_data] *)
Definition raw_data (r : t) : JSONValue := _raw_data r.

(** [Response.ok]: [200 <= self.status_code < 300]; a [TypeError] of the
    comparison is caught and gives [False]. *)
Definition ok (r : t) : bool :=
  match status_code r with
  | VInt z => (200 <=? z) && (z <? 300)
  | VFloat q => bool_decide (float_of_Z 200 <= q)%Qc && bool_decide (q < float_of_Z 300)%Qc
  | VBool b => (200 <=? Z.b2z b) && (Z.b2z b <? 300)
  | VNone | VStr _ | VList _ | VDict _ => false
  end.

End Response.

(** ** The environment: browser, clock, SQLite engine *)

(** The external calls of [client.py], as recorded in the trace. *)
Inductive call :=
| CallLaunch (headless : bool) (user_agent : option string)
| CallQuit
| CallGet (url : string)
| CallUrl
| CallUserAgent
| CallCookies
| CallSetCookies (cookies : list JSONDict)
| CallRefresh
| CallWaitLoadStart
| CallWaitDocLoaded
| CallRunCdp (safe_url safe_options : string) (timeout_ms : Z)
| CallTime
| CallSleep (seconds : Qc).

(** The answer to the call made at tick [n]. *)
Record Env := {
  (** [ChromiumPage(options)] or [page_factory(options)]: [None] when the
      browser starts, else the exception raised *)
  env_launch : nat -> option exn;
  (** [page.quit()] *)
  env_quit : nat -> option exn;
  (** [page.get(url)] *)
  env_get : nat -> option exn;
  (** [page.url] *)
  env_url : nat -> exn + string;
  (** [page.user_agent] *)
  env_user_agent : nat -> exn + string;
  (** [page.cookies(all_info=True)] *)
  env_cookies : nat -> exn + list JSONDict;
  (** [page.set.cookies(cs)] *)
  env_set_cookies : nat -> option exn;
  (** [page.refresh()], [page.wait.load_start()], [page.wait.doc_loaded()] *)
  env_refresh : nat -> option exn;
  env_wait_load_start : nat -> option exn;
  env_wait_doc_loaded : nat -> option exn;
  (** [page.run_cdp("Runtime.evaluate", ...)]: the dictionary [cdp_res] *)
  env_run_cdp : nat -> exn + JSONDict;
  (** [time.time()] *)
  env_time : nat -> Qc;
  (** [time.sleep(s)]: may be interrupted *)
  env_sleep : nat -> option exn;
  (** whether the SQLite statement raises [sqlite3.Error]; statements are
      not recorded in the trace, a cache method reserves a tick for each
      statement it may execute *)
  env_sqlite_err : nat -> bool;
}.

(** ** [client.py]: the state of a [Client] *)

(** A started browser: the options it was launched with. *)
Record ChromiumPage := { page_headless : bool; page_user_agent : option string }.

Record Client := {
  base_url : option string;
  headless : bool;
  auto_navigate_for_cors : bool;
  cache : gmap string RequestCache.row;
  _page : option ChromiumPage;
  _user_agent : option string;
}.

Definition set_page (p : option ChromiumPage) (c : Client) : Client :=
  {| base_url := base_url c; headless := headless c;
     auto_navigate_for_cors := auto_navigate_for_cors c; cache := cache c;
     _page := p; _user_agent := _user_agent c |}.

Definition set_headless (h : bool) (c : Client) : Client :=
  {| base_url := base_url c; headless := h;
     auto_navigate_for_cors := auto_navigate_for_cors c; cache := cache c;
     _page := _page c; _user_agent := _user_agent c |}.

Definition set_user_agent (ua : option string) (c : Client) : Client :=
  {| base_url := base_url c; headless := headless c;
     auto_navigate_for_cors := auto_navigate_for_cors c; cache := cache c;
     _page := _page c; _user_agent := ua |}.

Definition set_cache (t : gmap string RequestCache.row) (c : Client) : Client :=
  {| base_url := base_url c; headless := headless c;
     auto_navigate_for_cors := auto_navigate_for_cors c; cache := t;
     _page := _page c; _user_agent := _user_agent c |}.

(** The world outside the client: how many external calls were made, and
    which. *)
Record World := { tick : nat; trace : list call }.

Definition state : Type := Client * World.

(** ** The monad of client methods: state and exceptions *)

Inductive outcome (A : Type) :=
| Return (a : A)
| Raise (e : exn)
| Diverge.   (* the loop ran out of fuel *)
Arguments Return {A} a.
Arguments Raise {A} e.
Arguments Diverge {A}.

Definition M (A : Type) : Type := state -> outcome A * state.

Definition ret {A} (a : A) : M A := fun s => (Return a, s).
Definition raise {A} (e : exn) : M A := fun s => (Raise e, s).
Definition diverge {A} : M A := fun s => (Diverge, s).

Definition bind {A B} (m : M A) (k : A -> M B) : M B :=
  fun s =>
    match m s with
    | (Return a, s') => k a s'
    | (Raise e, s') => (Raise e, s')
    | (Diverge, s') => (Diverge, s')
    end.

Declare Scope client_scope.
Delimit Scope client_scope with client.
Notation "x <- m ;; k" := (bind m (fun x => k))
  (at level 100, m at next level, right associativity) : client_scope.
Notation "m ;;; k" := (bind m (fun _ => k))
  (at level 100, right associativity) : client_scope.
Local Open Scope client_scope.

(** [try: m  except Exception as e: h e] *)
Definition try_except {A} (m : M A) (h : exn -> M A) : M A :=
  fun s =>
    match m s with
    | (Raise e, s') => if is_Exception e then h e s' else (Raise e, s')
    | r => r
    end.

(** [try: body  finally: fin], where [fin] reads a variable that [body]
    assigns just before it leaves normally ([None] otherwise). *)
Definition try_finally {A} (body : M (option A)) (fin : option A -> M unit) : M unit :=
  fun s =>
    match body s with
    | (Return v, s') => fin v s'
    | (Raise e, s') =>
        match fin None s' with
        | (Return _, s'') => (Raise e, s'')
        | r => r
        end
    | (Diverge, s') => (Diverge, s')
    end.

Definition lift {A} (r : exn + A) : M A :=
  match r with
  | inl e => raise e
  | inr a => ret a
  end.

Definition get_client : M Client := fun s => (Return (fst s), s).
Definition modify_client (f : Client -> Client) : M unit :=
  fun s => (Return tt, (f (fst s), snd s)).

Definition step (c : call) (w : World) : World :=
  {| tick := S (tick w); trace := trace w ++ [c] |}.

(** An external call: recorded, and answered by the environment. *)
Definition ask {A} (c : call) (answer : nat -> A) : M A :=
  fun s => (Return (answer (tick (snd s))), (fst s, step c (snd s))).

Definition ask_exn {A} (c : call) (answer : nat -> exn + A) : M A :=
  r <- ask c answer ;; lift r.

Definition ask_unit (c : call) (answer : nat -> option exn) : M unit :=
  r <- ask c answer ;;
  match r with
  | Some e => raise e
  | None => ret tt
  end.

(** The SQLite statements of one cache method: [n] ticks are reserved. *)
Definition reserve {A} (n : nat) (answer : nat -> A) : M A :=
  fun s => (Return (answer (tick (snd s))),
            (fst s, {| tick := n + tick (snd s); trace := trace (snd s) |})).

(** [cache_ttl: int | float | timedelta] *)
Inductive cache_ttl_t :=
| TtlInt (z : Z)
| TtlFloat (q : Qc)
| TtlDelta (days seconds microseconds : Z).

(** [timedelta.total_seconds()] *)
Definition total_seconds (days seconds microseconds : Z) : Qc :=
  float_frac ((days * 86400 + seconds) * 10 ^ 6 + microseconds) (10 ^ 6).

(** The normalisation of [request]:
    [cache_ttl.total_seconds()] or [float(cache_ttl)]. *)
Definition ttl_seconds (t : cache_ttl_t) : Qc :=
  match t with
  | TtlDelta d s us => total_seconds d s us
  | TtlInt z => float_of_Z z
  | TtlFloat q => q
  end.

(** Truthiness of an optional string: [if s]. *)
Definition truthy_str (s : option string) : bool :=
  match s with
  | Some x => PyStr.truthy x
  | None => false
  end.

(** [type(v)] as rendered inside an f-string. *)
Definition type_name (v : option JSONValue) : string :=
  match v with
  | None | Some VNone => "<class 'NoneType'>"
  | Some (VBool _) => "<class 'bool'>"
  | Some (VInt _) => "<class 'int'>"
  | Some (VFloat _) => "<class 'float'>"
  | Some (VStr _) => "<class 'str'>"
  | Some (VList _) => "<class 'list'>"
  | Some (VDict _) => "<class 'dict'>"
  end.

(** ** [client.py]: the methods of [Client] *)

Module ClientMethods.

(** The keys of [Client._validate_fetch_response]. *)
Definition required_keys : list string :=
  ["status"; "statusText"; "url"; "headers"; "text"; "redirected"; "type"].

(** [Client._validate_fetch_response] *)
Definition _validate_fetch_response (data : JSONValue) : option JSONValue :=
  match data with
  | VDict d => if forallb (fun k => PyDict.mem k d) required_keys then Some data else None
  | _ => None
  end.

(** Truthiness of the result of a validation: [if data]. *)
Definition truthy_data (o : option JSONValue) : bool :=
  match o with
  | Some (VDict (_ :: _)) => true
  | Some (VList (_ :: _)) => true
  | Some (VStr s) => PyStr.truthy s
  | Some (VBool b) => b
  | Some (VInt z) => negb (z =? 0)
  | Some (VFloat q) => negb (bool_decide (q = float_of_Z 0))
  | _ => false
  end.

(** [Client._resolve_url] *)
Definition _resolve_url (L : PyLib) (cl : Client) (endpoint : string) : string :=
  if PyStr.startswith "http://" endpoint || PyStr.startswith "https://" endpoint
  then endpoint
  else match base_url cl with
       | Some b => if PyStr.truthy b
                   then urljoin L (b ++ "/") (PyStr.lstrip_slash endpoint)
                   else endpoint
       | None => endpoint
       end.

(** The URL that [request] fetches: the resolved endpoint with the query
    string of [params] appended. *)
Definition final_url (L : PyLib) (cl : Client) (endpoint : string)
    (params : option JSONDict) : string :=
  let full_url := _resolve_url L cl endpoint in
  match params with
  | Some ((_ :: _) as p) =>
      let query_string := urlencode L false p in
      let joiner := if PyStr.contains "?" full_url then "&" else "?" in
      full_url ++ joiner ++ query_string
  | _ => full_url
  end.

(** The fetch options that [request] builds. *)
Definition add_content_type (ct : string) (h : JSONDict) : JSONDict :=
  if PyDict.mem "Content-Type" h then h else (h ++ [("Content-Type", VStr ct)])%list.

Definition build_options (L : PyLib) (method : string)
    (data json_data headers : option JSONDict) : JSONDict :=
  let h := match headers with Some ((_ :: _) as h) => h | _ => [] end in
  match json_data, data with
  | Some j, _ =>
      [("method", VStr (PyStr.upper method));
       ("headers", VDict (add_content_type "application/json" h));
       ("body", VStr (json_dumps L false (VDict j)))]
  | None, Some d =>
      [("method", VStr (PyStr.upper method));
       ("headers", VDict (add_content_type "application/x-www-form-urlencoded" h));
       ("body", VStr (urlencode L true d))]
  | None, None =>
      [("method", VStr (PyStr.upper method)); ("headers", VDict h)]
  end.

(** ["AbortError" in err_msg] *)
Definition abort_in (err_msg : JSONValue) : exn + bool :=
  match err_msg with
  | VStr s => inr (PyStr.contains "AbortError" s)
  | VList l => inr (existsb (fun x => match x with
                                      | VStr s => String.eqb s "AbortError"
                                      | _ => false
                                      end) l)
  | VDict d => inr (PyDict.mem "AbortError" d)
  | _ => inl (Exn TypeError "argument is not iterable")
  end.

(** The cookie attributes kept by [wait_for_login]. *)
Definition allowed_keys : list string :=
  ["name"; "value"; "domain"; "path"; "expires"; "size"; "httpOnly";
   "secure"; "sameSite"; "priority"].

(** [v <= 0] *)
Definition le_zero (v : JSONValue) : exn + bool :=
  match v with
  | VInt z => inr (z <=? 0)
  | VFloat q => inr (bool_decide (q <= float_of_Z 0)%Qc)
  | VBool b => inr (negb b)
  | _ => inl (Exn TypeError "'<=' not supported")
  end.

(** The body of the loop [for c in captured_cookies]. *)
Definition sanitize_cookie (c : JSONDict) : exn + JSONDict :=
  let clean_cookie :=
    List.filter (fun kv => existsb (String.eqb (fst kv)) allowed_keys) c in
  match le_zero (PyDict.get_default "expires" (VInt 0) clean_cookie) with
  | inl e => inl e
  | inr true => inr (PyDict.pop "expires" clean_cookie)
  | inr false => inr clean_cookie
  end.

(** The loop that builds [sanitized_cookies]. *)
Fixpoint sanitize_cookies (captured : list JSONDict) : exn + list JSONDict :=
  match captured with
  | [] => inr []
  | c :: r =>
      match sanitize_cookie c with
      | inl e => inl e
      | inr c' =>
          match sanitize_cookies r with
          | inl e => inl e
          | inr r' => inr (c' :: r')
          end
      end
  end.

Section Methods.
Variable L : PyLib.
Variable E : Env.

(** [time.time()] and [time.sleep(s)] *)
Definition time_time : M Qc := ask CallTime (env_time E).
Definition time_sleep (s : Qc) : M unit := ask_unit (CallSleep s) (env_sleep E).

(** [Client._init_browser] *)
Definition _init_browser : M unit :=
  cl <- get_client ;;
  let ua := if truthy_str (_user_agent cl) then _user_agent cl else None in
  r <- ask (CallLaunch (headless cl) ua) (env_launch E) ;;
  match r with
  | None => modify_client (set_page (Some {| page_headless := headless cl;
                                             page_user_agent := ua |}))
  | Some e =>
      if is_Exception e
      then raise (Exn BrowserInitError ("Failed to initialize browser: " ++ exn_msg e))
      else raise e
  end.

(** The property [Client.page] *)
Definition page : M ChromiumPage :=
  cl <- get_client ;;
  match _page cl with
  | Some p => ret p
  | None => raise (Exn BrowserInitError "Browser has not been initialized.")
  end.

(** The property [Client.current_url] *)
Definition current_url : M string :=
  cl <- get_client ;;
  match _page cl with
  | Some _ => page ;;; ask_exn CallUrl (env_url E)
  | None => ret ""
  end.

(** [self.page.get(url)] *)
Definition page_get (url : string) : M unit :=
  page ;;; ask_unit (CallGet url) (env_get E).

(** [Client._ensure_cors_context] *)
Definition _ensure_cors_context (url : string) : M unit :=
  cl <- get_client ;;
  if negb (auto_navigate_for_cors cl) then ret tt
  else
    try_except
      (t <- lift (urlparse L url) ;;
       let target_netloc := snd t in
       cur <- current_url ;;
       c <- lift (urlparse L cur) ;;
       let current_netloc := snd c in
       if negb (PyStr.truthy target_netloc) || String.eqb target_netloc current_netloc
       then ret tt
       else
         t' <- lift (urlparse L url) ;;
         let target_scheme := if PyStr.truthy (fst t') then fst t' else "https" in
         let target_origin := target_scheme ++ "://" ++ target_netloc in
         page_get target_origin)
      (fun _ => ret tt).

(** [self.cache.get(key)] *)
Definition cache_get (key : string) : M (option JSONValue) :=
  now <- time_time ;;
  select_err <- reserve 1 (env_sqlite_err E) ;;
  delete_err <- reserve 1 (env_sqlite_err E) ;;
  cl <- get_client ;;
  let r := RequestCache.get L now select_err delete_err key (cache cl) in
  modify_client (set_cache (snd r)) ;;;
  ret (fst r).

(** [self.cache.set(key, value, ttl)] *)
Definition cache_set (key : string) (v : JSONValue) (ttl : Qc) : M unit :=
  now <- time_time ;;
  insert_err <- reserve 1 (env_sqlite_err E) ;;
  modify_client (fun cl =>
    set_cache (RequestCache.set L now insert_err key v ttl (cache cl)) cl).

(** [Client._exec_fetch] *)
Definition _exec_fetch (url : string) (options : JSONDict) (timeout : Qc)
    : M Response.t :=
  let safe_url := json_dumps L false (VStr url) in
  let safe_options := json_dumps L false (VDict options) in
  let timeout_ms := int_of_float (timeout * float_of_Z 1000)%Qc in
  page ;;;
  cdp_res <- ask_exn (CallRunCdp safe_url safe_options timeout_ms) (env_run_cdp E) ;;
  match PyDict.get "exceptionDetails" cdp_res with
  | Some details =>
      raise (Exn RuntimeError ("JS Execution Error: " ++ py_str L details))
  | None =>
      match PyDict.get_default "result" (VDict []) cdp_res with
      | VDict res =>
          match PyDict.get "value" res with
          | Some (VDict result_value) =>
              match PyDict.get "error" result_value with
              | Some err_msg =>
                  a <- lift (abort_in err_msg) ;;
                  if (a : bool)
                  then raise (Exn TimeoutError
                                ("Request timed out after " ++ float_repr L timeout
                                   ++ " seconds"))
                  else raise (Exn RuntimeError ("Fetch failed: " ++ py_str L err_msg))
              | None =>
                  let response_data := _validate_fetch_response (VDict result_value) in
                  match response_data with
                  | Some d =>
                      if truthy_data response_data
                      then lift (Response.init d)
                      else raise (Exn RuntimeError
                             ("Invalid fetch response structure. Keys found: "
                                ++ py_str L (VList (List.map VStr (PyDict.keys result_value)))))
                  | None =>
                      raise (Exn RuntimeError
                             ("Invalid fetch response structure. Keys found: "
                                ++ py_str L (VList (List.map VStr (PyDict.keys result_value)))))
                  end
              end
          | other =>
              raise (Exn RuntimeError ("Unexpected JS result type: " ++ type_name other))
          end
      | _ => raise (Exn AttributeError "object has no attribute 'get'")
      end
  end.

(** [Client.request] *)
Definition request (method endpoint : string)
    (params data json_data headers : option JSONDict)
    (timeout : Qc) (cache_ttl : option cache_ttl_t) : M Response.t :=
  cl <- get_client ;;
  let full_url := final_url L cl endpoint params in
  _ensure_cors_context full_url ;;;
  let cache_key :=
    match cache_ttl with
    | Some _ => RequestCache.generate_key L method full_url None data json_data
    | None => ""
    end in
  cached_data <- match cache_ttl with
                 | Some _ => cache_get cache_key
                 | None => ret None
                 end ;;
  let fetch : M Response.t :=
    let options := build_options L method data json_data headers in
    response <- _exec_fetch full_url options timeout ;;
    match cache_ttl with
    | Some ttl =>
        if Response.ok response
        then cache_set cache_key (Response.raw_data response) (ttl_seconds ttl) ;;;
             ret response
        else ret response
    | None => ret response
    end in
  match cached_data with
  | Some d => if truthy_data cached_data then lift (Response.init d) else fetch
  | None => fetch
  end.

(** [Client._restart_browser] *)
Definition _restart_browser (headless : bool) : M unit :=
  cl <- get_client ;;
  match _page cl with
  | Some _ =>
      try_except (ask_unit CallQuit (env_quit E)) (fun _ => ret tt) ;;;
      modify_client (set_page None)
  | None => ret tt
  end ;;;
  time_sleep (float_of_Z 2) ;;;
  modify_client (set_headless headless) ;;;
  _init_browser.

(** One poll of the loop of [wait_for_login], without the sleep that
    follows it: the inner [try] with its handler.  The result is the value
    of [captured_cookies]. *)
Definition poll_once (success_pattern : string) : M (option (list JSONDict)) :=
  try_except
    (page ;;;
     current <- ask_exn CallUrl (env_url E) ;;
     found <- lift (re_search L success_pattern current) ;;
     if (found : bool) then
       try_except
         (page ;;;
          ua <- ask_exn CallUserAgent (env_user_agent E) ;;
          modify_client (set_user_agent (Some ua)))
         (fun _ => ret tt) ;;;
       time_sleep (float_of_Z 3) ;;;
       page ;;;
       cookies <- ask_exn CallCookies (env_cookies E) ;;
       ret (Some cookies)
     else ret None)
    (fun _ => ret None).

(** The polling loop of [wait_for_login]; the result is the value of
    [captured_cookies] when the loop is left. *)
Fixpoint poll (fuel : nat) (success_pattern : string) (timeout : Z)
    (start_time : Qc) : M (option (list JSONDict)) :=
  match fuel with
  | O => diverge
  | S fuel' =>
      now <- time_time ;;
      if bool_decide (float_of_Z timeout < now - start_time)%Qc
      then ret None
      else
        captured <- poll_once success_pattern ;;
        match captured with
        | Some cookies => ret (Some cookies)
        | None => time_sleep (float_of_Z 1) ;;; poll fuel' success_pattern timeout start_time
        end
  end.

(** [f"{u.scheme}://{u.netloc}"] when both parts are non-empty. *)
Definition origin_of (url : string) : M (option string) :=
  u <- lift (urlparse L url) ;;
  if PyStr.truthy (fst u) && PyStr.truthy (snd u)
  then ret (Some (fst u ++ "://" ++ snd u))
  else ret None.

(** The cookie restoration inside the [finally] block. *)
Definition restore_cookies (captured_cookies : list JSONDict)
    (start_url : option string) (original_url : string) : M unit :=
  t1 <- match start_url with
        | Some s => if PyStr.truthy s then origin_of s else ret None
        | None => ret None
        end ;;
  t2 <- (if negb (truthy_str t1) && PyStr.truthy original_url
            && PyStr.contains "://" original_url
         then o <- origin_of original_url ;;
              ret (match o with Some _ => o | None => t1 end)
         else ret t1) ;;
  cl <- get_client ;;
  let t3 := if negb (truthy_str t2) && truthy_str (base_url cl)
            then base_url cl else t2 in
  match t3 with
  | Some target => if PyStr.truthy target then page_get target else ret tt
  | None => ret tt
  end ;;;
  sanitized_cookies <- lift (sanitize_cookies captured_cookies) ;;
  page ;;;
  ask_unit (CallSetCookies sanitized_cookies) (env_set_cookies E) ;;;
  try_except
    (page ;;; ask_unit CallRefresh (env_refresh E) ;;;
     page ;;; ask_unit CallWaitLoadStart (env_wait_load_start E) ;;;
     page ;;; ask_unit CallWaitDocLoaded (env_wait_doc_loaded E))
    (fun _ => ret tt).

(** The [finally] block of [wait_for_login]. *)
Definition resume_headless (start_url : option string) (original_url : string)
    (captured_cookies : option (list JSONDict)) : M unit :=
  _restart_browser true ;;;
  match captured_cookies with
  | Some ((_ :: _) as cs) =>
      try_except (restore_cookies cs start_url original_url) (fun _ => ret tt)
  | _ => ret tt
  end.

(** [Client.wait_for_login] *)
Definition wait_for_login (fuel : nat) (success_pattern : string) (timeout : Z)
    (start_url : option string) : M unit :=
  original_url <- current_url ;;
  _restart_browser false ;;;
  try_finally
    (let target_url := if truthy_str start_url
                       then match start_url with Some s => s | None => "" end
                       else original_url in
     (if PyStr.truthy target_url && negb (String.eqb target_url "about:blank")
      then page_get target_url else ret tt) ;;;
     start_time <- time_time ;;
     poll fuel success_pattern timeout start_time)
    (resume_headless start_url original_url).
End Methods.

End ClientMethods.

(** ** A reference instance of the library

    It runs the model on concrete requests.  Its functions follow the
    Python ones on the inputs used below: JSON texts without floats,
    URLs of the form [scheme://netloc/path], relative paths without dot
    segments, and patterns without metacharacters. *)

Module Ref.

Definition is_ws (c : ascii) : bool :=
  let n := nat_of_ascii c in
  (n =? 32)%nat || (n =? 9)%nat || (n =? 10)%nat || (n =? 13)%nat.

Fixpoint skip_ws (s : list ascii) : list ascii :=
  match s with
  | c :: r => if is_ws c then skip_ws r else s
  | [] => []
  end.

Definition digit_val (c : ascii) : option Z :=
  let n := Z.of_nat (nat_of_ascii c) in
  if (48 <=? n) && (n <=? 57) then Some (n - 48) else None.

Definition hex_val (c : ascii) : option Z :=
  let n := Z.of_nat (nat_of_ascii c) in
  if (48 <=? n) && (n <=? 57) then Some (n - 48)
  else if (97 <=? n) && (n <=? 102) then Some (n - 87)
  else if (65 <=? n) && (n <=? 70) then Some (n - 55)
  else None.

(** The characters of a string literal after its opening quote. *)
Fixpoint parse_chars (s : list ascii) (acc : list ascii) : option (string * list ascii) :=
  match s with
  | [] => None
  | c :: r =>
      if Ascii.eqb c Json.dquote then Some (string_of_list_ascii (List.rev acc), r)
      else if Ascii.eqb c "\" then
        match r with
        | e :: r' =>
            if Ascii.eqb e "u" then
              match r' with
              | a :: b :: x :: y :: r'' =>
                  match hex_val a, hex_val b, hex_val x, hex_val y with
                  | Some 0, Some 0, Some h, Some l =>
                      parse_chars r'' (ascii_of_nat (Z.to_nat (16 * h + l)) :: acc)
                  | _, _, _, _ => None
                  end
              | _ => None
              end
            else
              let unescaped :=
                if Ascii.eqb e "n" then Some (ascii_of_nat 10)
                else if Ascii.eqb e "r" then Some (ascii_of_nat 13)
                else if Ascii.eqb e "t" then Some (ascii_of_nat 9)
                else if Ascii.eqb e "b" then Some (ascii_of_nat 8)
                else if Ascii.eqb e "f" then Some (ascii_of_nat 12)
                else if Ascii.eqb e Json.dquote || Ascii.eqb e "\" || Ascii.eqb e "/" then Some e
                else None in
              match unescaped with
              | Some u => parse_chars r' (u :: acc)
              | None => None
              end
        | [] => None
        end
      else parse_chars r (c :: acc)
  end.

Fixpoint parse_digits (s : list ascii) (acc : Z) : Z * list ascii :=
  match s with
  | c :: r =>
      match digit_val c with
      | Some d => parse_digits r (10 * acc + d)
      | None => (acc, s)
      end
  | [] => (acc, [])
  end.

(** An integer literal; a fraction or an exponent is refused. *)
Definition parse_int (s : list ascii) : option (JSONValue * list ascii) :=
  let '(neg, s') := match s with
                    | c :: r => if Ascii.eqb c "-" then (true, r) else (false, s)
                    | [] => (false, s)
                    end in
  match s' with
  | c :: _ =>
      match digit_val c with
      | Some _ =>
          let '(n, rest) := parse_digits s' 0 in
          match rest with
          | d :: _ =>
              if Ascii.eqb d "." || Ascii.eqb d "e" || Ascii.eqb d "E" then None
              else Some (VInt (if neg then - n else n), rest)
          | [] => Some (VInt (if neg then - n else n), rest)
          end
      | None => None
      end
  | [] => None
  end.

Fixpoint parse_value (fuel : nat) (s : list ascii) : option (JSONValue * list ascii) :=
  match fuel with
  | O => None
  | S fuel' =>
      match skip_ws s with
      | [] => None
      | c :: r =>
          if Ascii.eqb c Json.dquote then
            match parse_chars r [] with
            | Some (str, rest) => Some (VStr str, rest)
            | None => None
            end
          else if Ascii.eqb c "[" then
            match skip_ws r with
            | d :: r' => if Ascii.eqb d "]" then Some (VList [], r')
                         else parse_elems fuel' r []
            | [] => None
            end
          else if Ascii.eqb c "{" then
            match skip_ws r with
            | d :: r' => if Ascii.eqb d "}" then Some (VDict [], r')
                         else parse_members fuel' r []
            | [] => None
            end
          else if PyStr.startswith "null" (string_of_list_ascii (c :: r))
          then Some (VNone, skipn 3 r)
          else if PyStr.startswith "true" (string_of_list_ascii (c :: r))
          then Some (VBool true, skipn 3 r)
          else if PyStr.startswith "false" (string_of_list_ascii (c :: r))
          then Some (VBool false, skipn 4 r)
          else parse_int (c :: r)
      end
  end
with parse_elems (fuel : nat) (s : list ascii) (acc : list JSONValue)
    : option (JSONValue * list ascii) :=
  match fuel with
  | O => None
  | S fuel' =>
      match parse_value fuel' s with
      | Some (v, rest) =>
          match skip_ws rest with
          | d :: r' =>
              if Ascii.eqb d "," then parse_elems fuel' r' (v :: acc)
              else if Ascii.eqb d "]" then Some (VList (List.rev (v :: acc)), r')
              else None
          | [] => None
          end
      | None => None
      end
  end
with parse_members (fuel : nat) (s : list ascii) (acc : JSONDict)
    : option (JSONValue * list ascii) :=
  match fuel with
  | O => None
  | S fuel' =>
      match skip_ws s with
      | q :: r =>
          if Ascii.eqb q Json.dquote then
            match parse_chars r [] with
            | Some (k, rest) =>
                match skip_ws rest with
                | d :: r' =>
                    if Ascii.eqb d ":" then
                      match parse_value fuel' r' with
                      | Some (v, rest') =>
                          match skip_ws rest' with
                          | e :: r'' =>
                              if Ascii.eqb e ","
                              then parse_members fuel' r'' (PyDict.dict_set k v acc)
                              else if Ascii.eqb e "}"
                              then Some (VDict (PyDict.dict_set k v acc), r'')
                              else None
                          | [] => None
                          end
                      | None => None
                      end
                    else None
                | [] => None
                end
            | None => None
            end
          else None
      | [] => None
      end
  end.

(** [json.loads] on texts without floats. *)
Definition loads (s : string) : option JSONValue :=
  let cs := list_ascii_of_string s in
  match parse_value (2 * length cs + 2) cs with
  | Some (v, rest) => match skip_ws rest with [] => Some v | _ => None end
  | None => None
  end.

(** [repr] of a float that is a decimal fraction: [0.5], [30.0]. *)
Definition float_repr (q : Qc) : string :=
  let n := Qnum q in
  let d := Zpos (Qden q) in
  match List.find (fun k => (10 ^ Z.of_nat k) mod d =? 0) (seq 1 20) with
  | Some k =>
      let scaled := Z.abs n * 10 ^ Z.of_nat k / d in
      let ip := scaled / 10 ^ Z.of_nat k in
      let fp := scaled mod 10 ^ Z.of_nat k in
      let fs := Json.str_int fp in
      let zeros := string_of_list_ascii (repeat "0"%char (k - String.length fs)) in
      (if n <? 0 then "-" else "") ++ Json.str_int ip ++ "." ++ zeros ++ fs
  | None => Json.str_int n ++ "/" ++ Json.str_int d
  end.

(** [str(v)]: a string is itself, other values as in JSON. *)
Definition py_str (v : JSONValue) : string :=
  match v with
  | VStr s => s
  | VBool true => "True"
  | VBool false => "False"
  | VNone => "None"
  | _ => Json.dumps float_repr false v
  end.

(** [quote_plus] *)
Definition quote_char (c : ascii) : string :=
  let n := Z.of_nat (nat_of_ascii c) in
  if ((48 <=? n) && (n <=? 57)) || ((65 <=? n) && (n <=? 90))
     || ((97 <=? n) && (n <=? 122))
     || (n =? 95) || (n =? 46) || (n =? 45) || (n =? 126)
  then String c EmptyString
  else if n =? 32 then "+"
  else "%" ++ PyStr.upper (string_of_list_ascii
                             [Sha256.hex_digit (n / 16); Sha256.hex_digit (n mod 16)]).

Fixpoint quote_plus (s : string) : string :=
  match s with
  | EmptyString => EmptyString
  | String c r => quote_char c ++ quote_plus r
  end.

(** [urlencode(d, doseq=b)] *)
Definition urlencode (doseq : bool) (d : JSONDict) : string :=
  let pair k v := quote_plus k ++ "=" ++ quote_plus (py_str v) in
  Json.join "&"
    (List.concat
       (List.map (fun kv =>
                    match snd kv with
                    | VList l => if doseq then List.map (pair (fst kv)) l
                                 else [pair (fst kv) (snd kv)]
                    | v => [pair (fst kv) v]
                    end) d)).

(** [urljoin(base, rel)] for a base that ends in [/] and a plain relative path. *)
Definition urljoin (base rel : string) : string := base ++ rel.

Fixpoint split_at (stop : ascii -> bool) (s : string) : string * string :=
  match s with
  | EmptyString => (EmptyString, EmptyString)
  | String c r =>
      if stop c then (EmptyString, s)
      else let '(a, b) := split_at stop r in (String c a, b)
  end.

Definition scheme_char (c : ascii) : bool :=
  let n := Z.of_nat (nat_of_ascii c) in
  ((48 <=? n) && (n <=? 57)) || ((65 <=? n) && (n <=? 90))
  || ((97 <=? n) && (n <=? 122)) || (n =? 43) || (n =? 45) || (n =? 46).

Fixpoint all_chars (f : ascii -> bool) (s : string) : bool :=
  match s with
  | EmptyString => true
  | String c r => f c && all_chars f r
  end.

(** [urlparse(u)]: the scheme and the netloc. *)
Definition urlparse (u : string) : exn + (string * string) :=
  let '(pre, post) := split_at (fun c => Ascii.eqb c ":") u in
  let '(scheme, rest) :=
    match post with
    | String _ after =>
        if PyStr.truthy pre && all_chars scheme_char pre
        then (PyStr.lower pre, after) else (EmptyString, u)
    | EmptyString => (EmptyString, u)
    end in
  if PyStr.startswith "//" rest
  then
    let body := substring 2 (String.length rest - 2) rest in
    let '(netloc, _) :=
      split_at (fun c => Ascii.eqb c "/" || Ascii.eqb c "?" || Ascii.eqb c "#") body in
    inr (scheme, netloc)
  else inr (scheme, EmptyString).

(** [re.search] for a pattern without metacharacters. *)
Definition re_search (pattern s : string) : exn + bool :=
  inr (PyStr.contains pattern s).

Definition lib : PyLib :=
  Build_PyLib float_repr loads urlencode urljoin urlparse re_search py_str.

End Ref.

(** The inputs of the fingerprint that a caller of [request] chooses:
    method, url, form body, json body. *)
Definition request_id : Type := string * string * option JSONDict * option JSONDict.

(** Two requests that differ in exactly one component, the component being
    compared as [generate_key] sees it: the method in upper case, a body in
    its normalised serialisation. *)
Inductive single_change (L : PyLib) : request_id -> request_id -> Prop :=
| change_method m m' u f j :
    PyStr.upper m <> PyStr.upper m' ->
    single_change L (m, u, f, j) (m', u, f, j)
| change_url m u u' f j :
    u <> u' ->
    single_change L (m, u, f, j) (m, u', f, j)
| change_data m u f f' j :
    RequestCache.normalize L f <> RequestCache.normalize L f' ->
    single_change L (m, u, f, j) (m, u, f', j)
| change_json m u f j j' :
    RequestCache.normalize L j <> RequestCache.normalize L j' ->
    single_change L (m, u, f, j) (m, u, f, j').

Definition raw_of (L : PyLib) (params : option JSONDict) (r : request_id) : string :=
  let '(m, u, f, j) := r in RequestCache.raw_key L m u params f j.

Definition key_of (L : PyLib) (params : option JSONDict) (r : request_id) : string :=
  let '(m, u, f, j) := r in RequestCache.generate_key L m u params f j.

(** Two strings do not collide under SHA-256. *)
Definition no_collision (a b : string) : Prop :=
  a <> b -> Sha256.hexdigest a <> Sha256.hexdigest b.

(** ** Sample data: the records of [tests/test_cache.py] *)

Module Sample.

Definition ok_record : JSONValue :=
  VDict [("status", VInt 200); ("statusText", VStr "OK");
         ("url", VStr "http://example.com");
         ("headers", VDict [("Content-Type", VStr "application/json")]);
         ("text", VStr "{}"); ("redirected", VBool false); ("type", VStr "basic")].

(** The record of [test_validate_data_invalid_missing_key]: no [statusText]. *)
Definition partial_record : JSONValue :=
  VDict [("status", VInt 200);
         ("url", VStr "http://example.com");
         ("headers", VDict [("Content-Type", VStr "application/json")]);
         ("text", VStr "{}"); ("redirected", VBool false); ("type", VStr "basic")].

Definition key : string :=
  RequestCache.generate_key Ref.lib "GET" "http://example.com" None None None.

(** A clock that advances by one second at every external call. *)
Definition clock (n : nat) : Qc := float_of_Z (Z.of_nat n).

(** An environment in which the browser always starts and every call
    succeeds: the page is at [url], holds [cookies], and a fetch returns
    [cdp_res]. *)
Definition env (url : nat -> exn + string) (cookies : exn + list JSONDict)
    (cdp_res : exn + JSONDict) : Env :=
  {| env_launch := fun _ => None;
     env_quit := fun _ => None;
     env_get := fun _ => None;
     env_url := url;
     env_user_agent := fun _ => inr "Mozilla/5.0";
     env_cookies := fun _ => cookies;
     env_set_cookies := fun _ => None;
     env_refresh := fun _ => None;
     env_wait_load_start := fun _ => None;
     env_wait_doc_loaded := fun _ => None;
     env_run_cdp := fun _ => cdp_res;
     env_time := clock;
     env_sleep := fun _ => None;
     env_sqlite_err := fun _ => false |}.

(** The page stays at one address. *)
Definition at_url (u : string) (n : nat) : exn + string := inr u.

(** The first reading of [page.url] succeeds, every later one raises. *)
Definition busy_after_first (u : string) (n : nat) : exn + string :=
  match n with
  | O => inr u
  | S _ => inl (Exn OtherException "The page is busy.")
  end.

Definition no_fetch : exn + JSONDict := inl (Exn OtherException "no fetch expected").

(** A client as [Client.__init__] leaves it: headless, browser started. *)
Definition client (conn : gmap string RequestCache.row) : Client :=
  {| base_url := Some "https://example.com";
     headless := true;
     auto_navigate_for_cors := false;
     cache := conn;
     _page := Some {| page_headless := true; page_user_agent := None |};
     _user_agent := None |}.

Definition world : World := {| tick := 0; trace := [] |}.

(** A captured cookie with an attribute outside the allowed set and
    [expires = 0]. *)
Definition session_cookie : JSONDict :=
  [("name", VStr "sid"); ("value", VStr "abc"); ("domain", VStr "example.com");
   ("path", VStr "/"); ("expires", VInt 0); ("session", VBool true)].

(** A persistent cookie: [expires] is a positive float. *)
Definition persistent_cookie : JSONDict :=
  [("name", VStr "pref"); ("value", VStr "dark"); ("domain", VStr "example.com");
   ("expires", VFloat (float_frac 3471379201 2)); ("sameParty", VBool false)].

Definition cdp_partial : JSONDict := [("result", VDict [("value", partial_record)])].
Definition cdp_exception : JSONDict :=
  [("exceptionDetails", VDict [("text", VStr "Uncaught")])].
Definition cdp_abort : JSONDict :=
  [("result", VDict [("value", VDict [("error", VStr "AbortError: The user aborted a request.")])])].
Definition cdp_status (z : Z) : JSONDict :=
  [("result", VDict [("value",
      VDict [("status", VInt z); ("statusText", VStr "");
             ("url", VStr "http://example.com");
             ("headers", VDict []);
             ("text", VStr ""); ("redirected", VBool false); ("type", VStr "basic")])])].

End Sample.

(** ** What a restored cookie is, relative to the captured one *)

(** [c'] is [c] sanitised: it has allowed attributes only, it agrees with
    [c] on every allowed attribute other than [expires], and it has an
    [expires] exactly when that of [c] is positive, with the same value. *)
Definition sanitized (c c' : JSONDict) : Prop :=
  (forall k, PyDict.mem k c' = true -> In k ClientMethods.allowed_keys)
  /\ (forall k, In k ClientMethods.allowed_keys -> k <> "expires" ->
       PyDict.get k c' = PyDict.get k c)
  /\ (forall v, PyDict.get "expires" c' = Some v ->
       PyDict.get "expires" c = Some v /\ ClientMethods.le_zero v = inr false)
  /\ (forall v, PyDict.get "expires" c = Some v -> ClientMethods.le_zero v = inr true ->
       PyDict.mem "expires" c' = false /\ PyDict.get "expires" c' = None)
  /\ (forall v, PyDict.get "expires" c = Some v -> ClientMethods.le_zero v = inr false ->
       PyDict.get "expires" c' = Some v).

(** The calls [page.set.cookies(restored)] of a trace. *)
Definition restored_by (restored : list JSONDict) (w : World) : Prop :=
  In (CallSetCookies restored) (trace w).

(** ** The answers of a fetch, by the failure they stand for *)

(** The dictionary that the script returned, when it returned one. *)
Definition result_value (cdp_res : JSONDict) : option JSONDict :=
  match PyDict.get "exceptionDetails" cdp_res with
  | Some _ => None
  | None =>
      match PyDict.get_default "result" (VDict []) cdp_res with
      | VDict res =>
          match PyDict.get "value" res with
          | Some (VDict rv) => Some rv
          | _ => None
          end
      | _ => None
      end
  end.

(** StructuralMismatch: the fetch returned a dictionary without an [error]
    key that lacks a required field. *)
Definition structural_mismatch (cdp_res : JSONDict) (rv : JSONDict) : Prop :=
  result_value cdp_res = Some rv
  /\ PyDict.get "error" rv = None
  /\ exists k, In k ClientMethods.required_keys /\ PyDict.mem k rv = false.

(** ExecutionFailure, script side: the evaluation reported an exception. *)
Definition script_error (cdp_res : JSONDict) (details : JSONValue) : Prop :=
  PyDict.get "exceptionDetails" cdp_res = Some details.

(** ExecutionFailure, fetch side: [fetch] rejected, not by an abort. *)
Definition fetch_error (cdp_res : JSONDict) (err_msg : JSONValue) : Prop :=
  exists rv, result_value cdp_res = Some rv
             /\ PyDict.get "error" rv = Some err_msg
             /\ ClientMethods.abort_in err_msg = inr false.

(** TimeoutFailure: the abort controller fired. *)
Definition deadline_exceeded (cdp_res : JSONDict) : Prop :=
  exists rv err_msg, result_value cdp_res = Some rv
                     /\ PyDict.get "error" rv = Some err_msg
                     /\ ClientMethods.abort_in err_msg = inr true.

(** ** Fetches in a trace *)

(** The call is not a fetch ([Runtime.evaluate]). *)
Definition not_fetch (c : call) : Prop :=
  forall safe_url safe_options timeout_ms, c <> CallRunCdp safe_url safe_options timeout_ms.

(** The outcome of a computation that cannot fail to terminate. *)
Definition outcome_of {A} (r : exn + A) : outcome A :=
  match r with
  | inl e => Raise e
  | inr a => Return a
  end.

(** ** The modes of the session *)

(** Automated mode: the client is configured headless and holds a browser
    that was launched headless. *)
Definition automated (cl : Client) : Prop :=
  headless cl = true /\ exists p, _page cl = Some p /\ page_headless p = true.

(** Interactive mode: a browser with a window is running. *)
Definition interactive (cl : Client) : Prop :=
  exists p, _page cl = Some p /\ page_headless p = false.

(** ** Relations between the state before and after a method *)

(** A method respects a relation between the state before and after. *)
Definition respects {A} (R : relation state) (m : M A) : Prop :=
  forall s o s', m s = (o, s') -> R s s'.

(** An external call respects [R] when recording it does. *)
Definition call_ok (R : relation state) (c : call) : Prop :=
  forall cl w, R (cl, w) (cl, step c w).

(** The relations used below. *)

(** The client is unchanged. *)
Definition same_client : relation state := fun s s' => fst s' = fst s.

(** The calls made in between all satisfy [P]. *)
Definition emits (P : call -> Prop) : relation state :=
  fun s s' => exists l, trace (snd s') = (trace (snd s) ++ l)%list /\ Forall P l.

(** Ticks only go forward. *)
Definition tick_le : relation state := fun s s' => (tick (snd s) <= tick (snd s'))%nat.

(** A method that never runs out of fuel. *)
Definition total {A} (m : M A) : Prop := forall s, fst (m s) <> Diverge.

(** A call that is not [page.set.cookies]. *)
Definition not_set_cookies (c : call) : Prop := forall cs, c <> CallSetCookies cs.

(** The cookies handed to [page.set.cookies] are sanitised cookies of
    [page.cookies]. *)
Definition from_browser (E : Env) (c : call) : Prop :=
  forall restored, c = CallSetCookies restored ->
    exists captured n, env_cookies E n = inr captured /\ Forall2 sanitized captured restored.

(** ** The shape of a fingerprint *)

(** A lower-case hexadecimal digit. *)
Definition is_lower_hex (c : ascii) : bool :=
  let n := nat_of_ascii c in
  ((48 <=? n)%nat && (n <=? 57)%nat) || ((97 <=? n)%nat && (n <=? 102)%nat).

(** Every character of the string satisfies the test. *)
Fixpoint string_forall (f : ascii -> bool) (s : string) : bool :=
  match s with
  | EmptyString => true
  | String c r => f c && string_forall f r
  end.

(** ** [client.py]: the constructor and the verb methods *)

Module ClientApi.

(** The attributes that [Client.__init__] sets before it starts the
    browser.  [conn] is the table of the cache that was passed in, or of the
    database opened in the profile directory. *)
Definition new_client (base_url : option string) (headless auto_navigate_for_cors : bool)
    (conn : gmap string RequestCache.row) : Client :=
  {| base_url := if truthy_str base_url
                 then option_map PyStr.rstrip_slash base_url else None;
     headless := headless;
     auto_navigate_for_cors := auto_navigate_for_cors;
     cache := conn;
     _page := None;
     _user_agent := None |}.

(** [Client.__init__]: the new client, or the exception of [_init_browser]. *)
Definition __init__ (E : Env) (base_url : option string)
    (headless auto_navigate_for_cors : bool) (conn : gmap string RequestCache.row)
    (w : World) : outcome Client * World :=
  match ClientMethods._init_browser E
          (new_client base_url headless auto_navigate_for_cors conn, w) with
  | (Return _, s') => (Return (fst s'), snd s')
  | (Raise e, s') => (Raise e, snd s')
  | (Diverge, s') => (Diverge, snd s')
  end.

(** [Client.get]: the keyword arguments are those of [request]. *)
Definition get (L : PyLib) (E : Env) (endpoint : string)
    (params data json_data headers : option JSONDict)
    (timeout : Qc) (cache_ttl : option cache_ttl_t) : M Response.t :=
  ClientMethods.request L E "GET" endpoint params data json_data headers timeout cache_ttl.

(** [Client.post] *)
Definition post (L : PyLib) (E : Env) (endpoint : string)
    (data json params headers : option JSONDict)
    (timeout : Qc) (cache_ttl : option cache_ttl_t) : M Response.t :=
  ClientMethods.request L E "POST" endpoint params data json headers timeout cache_ttl.

End ClientApi.

(** ** Counting fetches, comparing sessions *)

Definition is_fetch (c : call) : bool :=
  match c with
  | CallRunCdp _ _ _ => true
  | _ => false
  end.

(** The number of fetches among the calls. *)
Definition count_fetch (l : list call) : nat := length (List.filter is_fetch l).

(** The browser session of the client is the same: mode, page, user agent. *)
Definition same_session : relation state :=
  fun s s' => headless (fst s') = headless (fst s)
              /\ _page (fst s') = _page (fst s)
              /\ _user_agent (fst s') = _user_agent (fst s)
              /\ base_url (fst s') = base_url (fst s)
              /\ auto_navigate_for_cors (fst s') = auto_navigate_for_cors (fst s).

(** The configuration and the cache of the client are the same. *)
Definition same_config : relation state :=
  fun s s' => cache (fst s') = cache (fst s)
              /\ base_url (fst s') = base_url (fst s)
              /\ auto_navigate_for_cors (fst s') = auto_navigate_for_cors (fst s).

(** The string ends with a slash. *)
Definition endswith_slash (s : string) : bool := PyStr.startswith "/" (PyStr.rev s).

(** A header of the raw data with its name in lower case. *)
Definition lower_item (kv : string * JSONValue) : string * JSONValue :=
  (PyStr.lower (fst kv), snd kv).

(** The trace grew by calls of which at most [n] are fetches. *)
Definition fetch_bound (n : nat) : relation state :=
  fun s s' => exists l, trace (snd s') = (trace (snd s) ++ l)%list /\ (count_fetch l <= n)%nat.

(** The string consists of slashes. *)
Definition all_slashes (s : string) : bool := string_forall (fun c => Ascii.eqb c "/") s.

(** ** The mode of the browser that the client holds *)

(** The page that the client holds, if any, was launched in the mode that
    the client records. *)
Definition mode_consistent (cl : Client) : Prop :=
  forall p, _page cl = Some p -> page_headless p = headless cl.

(** The method keeps the mode consistent. *)
Definition keeps_mode : relation state :=
  fun s s' => mode_consistent (fst s) -> mode_consistent (fst s').

(** ** The user agent across the handoff *)

(** The user agent that [_init_browser] hands to the browser. *)
Definition launch_user_agent (cl : Client) : option string :=
  if truthy_str (_user_agent cl) then _user_agent cl else None.

(** The recorded user agent is the same. *)
Definition same_user_agent : relation state :=
  fun s s' => _user_agent (fst s') = _user_agent (fst s).

(** The recorded user agent is the same, or one that [page.user_agent]
    returned. *)
Definition user_agent_from_browser (E : Env) : relation state :=
  fun s s' => _user_agent (fst s') = _user_agent (fst s)
              \/ exists n ua, env_user_agent E n = inr ua /\ _user_agent (fst s') = Some ua.

(** ** A handoff without a match *)

(** A call that neither reads nor writes the cookies or the user agent of
    the browser. *)
Definition not_session_call (c : call) : Prop :=
  c <> CallCookies /\ c <> CallUserAgent /\ forall cs, c <> CallSetCookies cs.

(** The recorded user agent is the same and the calls made in between
    leave the cookies and the user agent of the browser alone. *)
Definition session_untouched : relation state :=
  fun s s' => same_user_agent s s' /\ emits not_session_call s s'.

(** No address that the browser reports matches the pattern. *)
Definition never_matches (L : PyLib) (E : Env) (pattern : string) : Prop :=
  forall n u, env_url E n = inr u -> re_search L pattern u <> inr true.

(** ** The rows that a request touches *)

(** Only the row of [key] may differ. *)
Definition cache_frame (key : string) : relation state :=
  fun s s' => forall k, k <> key -> cache (fst s') !! k = cache (fst s) !! k.

(** Every row of the cache afterwards was there before. *)
Definition cache_shrinks : relation state :=
  fun s s' => forall k r, cache (fst s') !! k = Some r -> cache (fst s) !! k = Some r.

(* ===================================================================== *)
(** * Part II: properties                                                 *)
(* ===================================================================== *)

(** ** SHA-256: test vectors *)

Example sha256_empty :
  Sha256.hexdigest "" = "e3b0c44298fc1c149afbf4c8996fb92427ae41e4649b934ca495991b7852b855".
Proof. vm_compute. reflexivity. Qed.

Example sha256_constants :
  nth 0 Sha256.K 0 = 0x428a2f98 /\ nth 63 Sha256.K 0 = 0xc67178f2
  /\ nth 0 Sha256.H0 0 = 0x6a09e667 /\ nth 7 Sha256.H0 0 = 0x5be0cd19.
Proof. repeat split; reflexivity. Qed.

(** A message of 56 bytes: the padding spills into a second block. *)
Example sha256_two_blocks :
  Sha256.hexdigest "aaaaaaaaaaaaaaaaaaaaaaaaaaaaaaaaaaaaaaaaaaaaaaaaaaaaaaaa"
  = "b35439a4ac6f0948b6d6f9e3c6af0f5f590ce20f1bde7090ef7970686ec6738a".
Proof. vm_compute. reflexivity. Qed.

Example sha256_abc :
  Sha256.hexdigest "abc" = "ba7816bf8f01cfea414140de5dae2223b00361a396177a9cb410ff61f20015ad".
Proof. vm_compute. reflexivity. Qed.

(** ** Strings *)

Lemma upper_ascii_idem c : PyStr.upper_ascii (PyStr.upper_ascii c) = PyStr.upper_ascii c.
Proof.
  destruct c as [[] [] [] [] [] [] [] []]; vm_compute; reflexivity.
Qed.

Lemma upper_idem s : PyStr.upper (PyStr.upper s) = PyStr.upper s.
Proof.
  induction s as [|c s IH]; simpl; [reflexivity|].
  rewrite upper_ascii_idem, IH. reflexivity.
Qed.

Lemma append_nil (b : string) : ("" ++ b)%string = b.
Proof. reflexivity. Qed.

Lemma append_cons (x : ascii) (a b : string) :
  (String x a ++ b)%string = String x (a ++ b).
Proof. reflexivity. Qed.

Lemma string_app_assoc (a b c : string) : ((a ++ b) ++ c = a ++ (b ++ c))%string.
Proof.
  induction a as [|x a IH]; [reflexivity|].
  rewrite !append_cons, IH. reflexivity.
Qed.

Lemma string_app_inv_head (a b c : string) : (a ++ b = a ++ c)%string -> b = c.
Proof.
  induction a as [|x a IH]; intros H; [exact H|].
  rewrite !append_cons in H. injection H. auto.
Qed.

Lemma string_app_length (a b : string) :
  String.length (a ++ b) = (String.length a + String.length b)%nat.
Proof.
  induction a as [|x a IH]; [reflexivity|].
  rewrite append_cons. simpl. congruence.
Qed.

Lemma string_app_inv_tail (a b c : string) : (a ++ c = b ++ c)%string -> a = b.
Proof.
  revert b. induction a as [|x a IH]; intros b H.
  - destruct b as [|y b]; [reflexivity|]. exfalso.
    apply (f_equal String.length) in H. rewrite append_nil, append_cons in H.
    simpl in H. rewrite string_app_length in H. lia.
  - destruct b as [|y b].
    + exfalso. apply (f_equal String.length) in H.
      rewrite append_nil, append_cons in H. simpl in H.
      rewrite string_app_length in H. lia.
    + rewrite !append_cons in H. injection H as -> H. f_equal. auto.
Qed.

(** ** The fingerprint *)

Section FingerprintFacts.
Variable L : PyLib.

Lemma normalize_empty : RequestCache.normalize L (Some []) = RequestCache.normalize L None.
Proof. reflexivity. Qed.

Lemma raw_key_split m u p f j :
  RequestCache.raw_key L m u p f j =
  (PyStr.upper m ++ ("|" ++ (u ++ ("|" ++ (RequestCache.normalize L p ++
     ("|" ++ (RequestCache.normalize L f ++ ("|" ++ RequestCache.normalize L j))))))))%string.
Proof.
  unfold RequestCache.raw_key. repeat rewrite string_app_assoc. reflexivity.
Qed.

(** A single change of a component changes the string that is hashed. *)
Lemma single_change_raw p r r' :
  single_change L r r' -> raw_of L p r <> raw_of L p r'.
Proof.
  intros H. destruct H as [m m' u f j Hm | m u u' f j Hu | m u f f' j Hf | m u f j j' Hj];
    unfold raw_of; rewrite !raw_key_split; intros E.
  - apply string_app_inv_tail in E. contradiction.
  - apply string_app_inv_head in E. apply string_app_inv_head in E.
    apply string_app_inv_tail in E. contradiction.
  - do 6 apply string_app_inv_head in E.
    apply string_app_inv_tail in E. contradiction.
  - do 8 apply string_app_inv_head in E. contradiction.
Qed.
End FingerprintFacts.

(** C10.  [generate_key] does not depend on the case of the method, and an
    empty dictionary for [params], [data] or [json_data] gives the same
    fingerprint as [None]. *)
Theorem generate_key_method_case_and_empty
    (L : PyLib) (m u : string) (p d j : option JSONDict) :
  RequestCache.generate_key L m u p d j = RequestCache.generate_key L (PyStr.upper m) u p d j
  /\ RequestCache.generate_key L m u (Some []) d j = RequestCache.generate_key L m u None d j
  /\ RequestCache.generate_key L m u p (Some []) j = RequestCache.generate_key L m u p None j
  /\ RequestCache.generate_key L m u p d (Some []) = RequestCache.generate_key L m u p d None.
Proof.
  unfold RequestCache.generate_key, RequestCache.raw_key.
  rewrite upper_idem. repeat split; reflexivity.
Qed.

(** C2, as stated, fails: two methods that differ in case, and an empty
    form body against an absent one, have the same fingerprint. *)
Lemma generate_key_not_sensitive :
  ("get" <> "GET"
   /\ RequestCache.generate_key Ref.lib "get" "http://example.com" None None None
      = RequestCache.generate_key Ref.lib "GET" "http://example.com" None None None)
  /\ (Some ([] : JSONDict) <> None
      /\ RequestCache.generate_key Ref.lib "POST" "http://example.com" None (Some []) None
         = RequestCache.generate_key Ref.lib "POST" "http://example.com" None None None).
Proof.
  split; split; try discriminate; reflexivity.
Qed.

(** C2, amended.  [generate_key] is a function of its arguments; and when
    one of method, url, form body, json body changes (the method compared in
    upper case, a body in its normalised serialisation) and the others are
    held fixed, the fingerprint changes, unless the two hashed strings
    collide under SHA-256. *)
Theorem generate_key_deterministic_sensitive
    (L : PyLib) (params : option JSONDict) (r r' : request_id) :
  (r = r' -> key_of L params r = key_of L params r')
  /\ (single_change L r r' ->
      no_collision (raw_of L params r) (raw_of L params r') ->
      key_of L params r <> key_of L params r').
Proof.
  split.
  - intros ->. reflexivity.
  - intros Hc Hn.
    pose proof (single_change_raw L params r r' Hc) as Hraw.
    destruct r as [[[m u] f] j], r' as [[[m' u'] f'] j'].
    apply Hn. exact Hraw.
Qed.

Lemma generate_key_deterministic_sensitive_witness :
  key_of Ref.lib None ("GET", "http://example.com", None, None)
  <> key_of Ref.lib None ("GET", "http://example.com", Some [("a", VInt 1)], None).
Proof.
  apply (generate_key_deterministic_sensitive Ref.lib None
           ("GET", "http://example.com", None, None)
           ("GET", "http://example.com", Some [("a", VInt 1)], None)).
  - apply change_data. vm_compute. discriminate.
  - intros _. vm_compute. discriminate.
Defined.

(** ** The cache store *)



Section StoreFacts.
Variable L : PyLib.



(** Whatever [get] returns has passed the validation. *)
Lemma get_validated now se de key conn data :
  fst (RequestCache.get L now se de key conn) = Some data ->
  RequestCache._validate_data data = Some data.
Proof.
  unfold RequestCache.get. destruct se; [discriminate|].
  destruct (conn !! key) as [r|]; [|discriminate].
  destruct (decide (now < RequestCache.expires_at r)%Qc).
  - destruct (json_loads L (RequestCache.value r)) as [d|]; [|discriminate].
    simpl. intros H. destruct d as [| | | | |l|d]; try discriminate.
    simpl in H. destruct (RequestCache.has_required_keys d) eqn:E; [|discriminate].
    injection H as <-. simpl. rewrite E. reflexivity.
  - destruct de; discriminate.
Qed.
End StoreFacts.



(** C4.  A stored value that does not decode to a dictionary with the
    seven required keys is never returned by [get], expired or not. *)
Theorem get_rejects_incomplete
    (L : PyLib) (now : Qc) (select_err delete_err : bool) (key : string)
    (conn : gmap string RequestCache.row) (r : RequestCache.row)
    (Hrow : conn !! key = Some r)
    (Hmissing : forall d, json_loads L (RequestCache.value r) = Some (VDict d) ->
                exists k, In k RequestCache.REQUIRED_KEYS /\ PyDict.mem k d = false) :
  fst (RequestCache.get L now select_err delete_err key conn) = None.
Proof.
  destruct (fst (RequestCache.get L now select_err delete_err key conn)) as [data|] eqn:G;
    [exfalso|reflexivity].
  pose proof (get_validated L _ _ _ _ _ _ G) as Hval.
  unfold RequestCache.get in G. destruct select_err; [discriminate|].
  rewrite Hrow in G.
  destruct (decide (now < RequestCache.expires_at r)%Qc); [|destruct delete_err; discriminate].
  destruct (json_loads L (RequestCache.value r)) as [d|] eqn:Hl; [|discriminate].
  simpl in G. destruct d as [| | | | |l|d]; try discriminate.
  destruct (Hmissing d eq_refl) as (k & Hin & Hk).
  simpl in G. destruct (RequestCache.has_required_keys d) eqn:E; [|discriminate].
  unfold RequestCache.has_required_keys in E.
  rewrite forallb_forall in E. specialize (E k Hin). congruence.
Qed.

Lemma get_rejects_incomplete_witness :
  fst (RequestCache.get Ref.lib (float_of_Z 1000) false false Sample.key
         (RequestCache.set Ref.lib (float_of_Z 1000) false Sample.key
            Sample.partial_record (float_of_Z 60) ∅)) = None.
Proof.
  apply (get_rejects_incomplete Ref.lib (float_of_Z 1000) false false Sample.key _
           (RequestCache.Row (json_dumps Ref.lib false Sample.partial_record)
              (float_of_Z 1000 + float_of_Z 60)%Qc)).
  - apply lookup_insert_eq.
  - intros d H. vm_compute in H. injection H as <-.
    exists "statusText". split; [right; left; reflexivity | reflexivity].
Defined.

(** C9.  With no SQLite error, [clear_expired] deletes exactly the rows with
    [expires_at < now] and keeps every other row as it is; [clear_all]
    leaves an empty table, on which every [get] returns [None]. *)
Theorem clear_expired_and_clear_all
    (now : Qc) (conn : gmap string RequestCache.row) (k : string) :
  RequestCache.clear_expired now false conn !! k =
    match conn !! k with
    | Some r => if decide (RequestCache.expires_at r < now)%Qc then None else Some r
    | None => None
    end
  /\ RequestCache.clear_all false conn = ∅
  /\ (forall (L : PyLib) (now' : Qc) (select_err delete_err : bool),
        fst (RequestCache.get L now' select_err delete_err k
               (RequestCache.clear_all false conn)) = None).
Proof.
  split; [|split].
  - unfold RequestCache.clear_expired.
    destruct (conn !! k) as [r|] eqn:Hk.
    + destruct (decide (RequestCache.expires_at r < now)%Qc) as [Hlt|Hge].
      * apply map_lookup_filter_None. right. intros r' Hr' Hkeep.
        rewrite Hk in Hr'. injection Hr' as <-. simpl in Hkeep. contradiction.
      * apply map_lookup_filter_Some. split; [exact Hk|exact Hge].
    + apply map_lookup_filter_None. left. exact Hk.
  - reflexivity.
  - intros L now' se de. unfold RequestCache.clear_all, RequestCache.get.
    destruct se; [reflexivity|]. rewrite lookup_empty. reflexivity.
Qed.

(** ** Reasoning about client methods *)

Lemma bind_Return_inv {A B} (m : M A) (k : A -> M B) s b s' :
  bind m k s = (Return b, s') ->
  exists a s1, m s = (Return a, s1) /\ k a s1 = (Return b, s').
Proof.
  unfold bind. destruct (m s) as [[a|e|] s1]; intros H; try discriminate. eauto.
Qed.

Lemma bind_Return {A B} (m : M A) (k : A -> M B) s a s1 :
  m s = (Return a, s1) -> bind m k s = k a s1.
Proof. unfold bind. intros ->. reflexivity. Qed.

Lemma try_finally_Return_inv {A} (body : M (option A)) fin s u s' :
  try_finally body fin s = (Return u, s') ->
  exists v s1, body s = (Return v, s1) /\ fin v s1 = (Return u, s').
Proof.
  unfold try_finally. destruct (body s) as [[v|e|] s1]; intros H.
  - eauto.
  - destruct (fin None s1) as [[x|e'|] s2]; discriminate.
  - discriminate.
Qed.

Section Respects.
Context (R : relation state) `{!PreOrder R}.

Lemma respects_ret {A} (a : A) : respects R (ret a).
Proof. intros s o s' H. injection H as _ <-. reflexivity. Qed.

Lemma respects_raise {A} e : respects R (@raise A e).
Proof. intros s o s' H. injection H as _ <-. reflexivity. Qed.

Lemma respects_diverge {A} : respects R (@diverge A).
Proof. intros s o s' H. injection H as _ <-. reflexivity. Qed.

Lemma respects_lift {A} (r : exn + A) : respects R (lift r).
Proof. destruct r; [apply respects_raise | apply respects_ret]. Qed.

Lemma respects_get_client : respects R get_client.
Proof. intros s o s' H. injection H as _ <-. reflexivity. Qed.

Lemma respects_bind {A B} (m : M A) (k : A -> M B) :
  respects R m -> (forall a, respects R (k a)) -> respects R (bind m k).
Proof.
  intros Hm Hk s o s'. unfold bind.
  destruct (m s) as [[a|e|] s1] eqn:E; intros H.
  - etransitivity; [exact (Hm _ _ _ E) | exact (Hk _ _ _ _ H)].
  - injection H as _ <-. exact (Hm _ _ _ E).
  - injection H as _ <-. exact (Hm _ _ _ E).
Qed.

(** The continuation of [lift r] only runs on the value [r] carries. *)
Lemma respects_bind_lift {A B} (r : exn + A) (k : A -> M B) :
  (forall a, r = inr a -> respects R (k a)) -> respects R (bind (lift r) k).
Proof.
  intros Hk. destruct r as [e|a].
  - intros s o s' H. injection H as _ <-. reflexivity.
  - exact (Hk a eq_refl).
Qed.

Lemma respects_try_except {A} (m : M A) (h : exn -> M A) :
  respects R m -> (forall e, respects R (h e)) -> respects R (try_except m h).
Proof.
  intros Hm Hh s o s'. unfold try_except.
  destruct (m s) as [[a|e|] s1] eqn:E; intros H.
  - injection H as _ <-. exact (Hm _ _ _ E).
  - destruct (is_Exception e).
    + etransitivity; [exact (Hm _ _ _ E) | exact (Hh _ _ _ _ H)].
    + injection H as _ <-. exact (Hm _ _ _ E).
  - injection H as _ <-. exact (Hm _ _ _ E).
Qed.

Lemma respects_try_finally {A} (body : M (option A)) (fin : option A -> M unit) :
  respects R body -> (forall v, respects R (fin v)) -> respects R (try_finally body fin).
Proof.
  intros Hb Hf s o s'. unfold try_finally.
  destruct (body s) as [[v|e|] s1] eqn:E; intros H.
  - etransitivity; [exact (Hb _ _ _ E) | exact (Hf _ _ _ _ H)].
  - destruct (fin None s1) as [[x|e'|] s2] eqn:F; injection H as _ <-;
      (etransitivity; [exact (Hb _ _ _ E) | exact (Hf _ _ _ _ F)]).
  - injection H as _ <-. exact (Hb _ _ _ E).
Qed.

Lemma respects_ask {A} c (answer : nat -> A) : call_ok R c -> respects R (ask c answer).
Proof. intros Hc [cl w] o s' H. injection H as _ <-. apply Hc. Qed.

Lemma respects_ask_exn {A} c (answer : nat -> exn + A) :
  call_ok R c -> respects R (ask_exn c answer).
Proof.
  intros Hc. apply respects_bind; [apply respects_ask, Hc | intros r; apply respects_lift].
Qed.

Lemma respects_ask_unit c (answer : nat -> option exn) :
  call_ok R c -> respects R (ask_unit c answer).
Proof.
  intros Hc. apply respects_bind; [apply respects_ask, Hc |].
  intros [e|]; [apply respects_raise | apply respects_ret].
Qed.
End Respects.

#[local] Instance same_client_preorder : PreOrder same_client.
Proof.
  split; [intros s; reflexivity|].
  intros a b c H1 H2. unfold same_client in *. congruence.
Qed.

#[local] Instance emits_preorder P : PreOrder (emits P).
Proof.
  split.
  - intros s. exists []. split; [symmetry; apply app_nil_r | constructor].
  - intros a b c (l1 & E1 & F1) (l2 & E2 & F2). exists (l1 ++ l2)%list. split.
    + rewrite E2, E1. symmetry. apply app_assoc.
    + apply Forall_app. split; assumption.
Qed.

#[local] Instance tick_le_preorder : PreOrder tick_le.
Proof.
  split; [intros s; unfold tick_le; lia|].
  intros a b c H1 H2. unfold tick_le in *. lia.
Qed.

Lemma same_client_call c : call_ok same_client c.
Proof. intros cl w. reflexivity. Qed.

Lemma emits_call (P : call -> Prop) c : P c -> call_ok (emits P) c.
Proof. intros Hc cl w. exists [c]. split; [reflexivity | repeat constructor; exact Hc]. Qed.

Lemma tick_le_call c : call_ok tick_le c.
Proof. intros cl w. unfold tick_le. simpl. lia. Qed.

Ltac respects_step :=
  lazymatch goal with
  | |- respects _ (bind (lift _) _) =>
      apply respects_bind_lift; [typeclasses eauto | intros ? ?]
  | |- respects _ (bind _ _) => apply respects_bind; [typeclasses eauto | | intros ?]
  | |- respects _ (try_except _ _) => apply respects_try_except; [typeclasses eauto | | intros ?]
  | |- respects _ (try_finally _ _) => apply respects_try_finally; [typeclasses eauto | | intros ?]
  | |- respects _ (ret _) => apply respects_ret; typeclasses eauto
  | |- respects _ (raise _) => apply respects_raise; typeclasses eauto
  | |- respects _ diverge => apply respects_diverge; typeclasses eauto
  | |- respects _ (lift _) => apply respects_lift; typeclasses eauto
  | |- respects _ get_client => apply respects_get_client; typeclasses eauto
  | |- respects _ (ask _ _) => apply respects_ask
  | |- respects _ (ask_exn _ _) => apply respects_ask_exn; [typeclasses eauto | ]
  | |- respects _ (ask_unit _ _) => apply respects_ask_unit; [typeclasses eauto | ]
  | |- respects _ (if ?b then _ else _) => destruct b
  | |- respects _ (match ?x with _ => _ end) => destruct x
  end.

Ltac respects_tac := repeat respects_step.

(** ** The handoff *)

Section HandoffFacts.
Variable L : PyLib.
Variable E : Env.

(** The cookie restoration does not touch the client. *)
Lemma restore_cookies_same_client cs start_url original_url :
  respects same_client (ClientMethods.restore_cookies L E cs start_url original_url).
Proof.
  unfold ClientMethods.restore_cookies, ClientMethods.origin_of,
    ClientMethods.page_get, ClientMethods.page.
  respects_tac; apply same_client_call.
Qed.

(** A browser start that returns leaves the browser just launched, in
    the configured mode. *)
Lemma _init_browser_returns s s' :
  ClientMethods._init_browser E s = (Return tt, s') ->
  headless (fst s') = headless (fst s)
  /\ exists ua, _page (fst s') = Some {| page_headless := headless (fst s);
                                        page_user_agent := ua |}.
Proof.
  destruct s as [cl w]. unfold ClientMethods._init_browser, bind, get_client, ask. simpl.
  destruct (env_launch E (tick w)) as [e|].
  - destruct (is_Exception e); discriminate.
  - unfold modify_client. simpl. intros H. injection H as <-. simpl. eauto.
Qed.

(** A restart that returns leaves the client in the requested mode. *)
Lemma _restart_browser_returns h s s' :
  ClientMethods._restart_browser E h s = (Return tt, s') ->
  headless (fst s') = h
  /\ exists ua, _page (fst s') = Some {| page_headless := h; page_user_agent := ua |}.
Proof.
  unfold ClientMethods._restart_browser. intros H.
  apply bind_Return_inv in H as (cl & s1 & _ & H).
  apply bind_Return_inv in H as (u1 & s2 & _ & H).
  apply bind_Return_inv in H as (u2 & s3 & _ & H).
  apply bind_Return_inv in H as (u3 & s4 & Hm & H).
  unfold modify_client in Hm. injection Hm as _ <-.
  apply _init_browser_returns in H. simpl in H. exact H.
Qed.

(** The [finally] block, when it returns, leaves the session automated. *)
Lemma resume_headless_returns start_url original_url captured s s' :
  ClientMethods.resume_headless L E start_url original_url captured s = (Return tt, s') ->
  automated (fst s').
Proof.
  unfold ClientMethods.resume_headless. intros H.
  apply bind_Return_inv in H as (u & s1 & Hr & H).
  destruct u. apply _restart_browser_returns in Hr as (Hh & ua & Hp).
  assert (Hsame : fst s' = fst s1).
  { destruct captured as [[|c cs]|].
    - injection H as <-. reflexivity.
    - assert (Hr : respects same_client
                     (try_except
                        (ClientMethods.restore_cookies L E (c :: cs) start_url original_url)
                        (fun _ => ret tt))).
      { respects_tac. apply restore_cookies_same_client. }
      exact (Hr _ _ _ H).
    - injection H as <-. reflexivity. }
  unfold automated. rewrite Hsame. split; [exact Hh|].
  eexists. split; [exact Hp | reflexivity].
Qed.
End HandoffFacts.

(** C1.  Whenever [wait_for_login] returns, the session is in automated
    mode: the client is headless again and holds a browser launched
    headless.  The pattern may have matched, the timeout may have elapsed,
    polling or the cookie capture may have raised. *)
Theorem wait_for_login_resumes_headless
    (L : PyLib) (E : Env) (fuel : nat) (success_pattern : string) (timeout : Z)
    (start_url : option string) (s : state) (cl' : Client) (w' : World) :
  ClientMethods.wait_for_login L E fuel success_pattern timeout start_url s
    = (Return tt, (cl', w')) ->
  automated cl' /\ ~ interactive cl'.
Proof.
  unfold ClientMethods.wait_for_login. intros H.
  apply bind_Return_inv in H as (original_url & s1 & _ & H).
  apply bind_Return_inv in H as (u & s2 & _ & H).
  apply try_finally_Return_inv in H as (captured & s3 & _ & H).
  apply resume_headless_returns in H. simpl in H.
  split; [exact H|].
  destruct H as (_ & p & Hp & Hh). intros (p' & Hp' & Hh'). congruence.
Qed.

Lemma wait_for_login_resumes_headless_witness :
  let run := ClientMethods.wait_for_login Ref.lib
               (Sample.env (Sample.at_url "https://example.com/dashboard")
                  (inr [Sample.session_cookie; Sample.persistent_cookie]) Sample.no_fetch)
               20 "dashboard" 300 (Some "https://example.com/login")
               (Sample.client ∅, Sample.world) in
  fst run = Return tt /\ automated (fst (snd run)) /\ ~ interactive (fst (snd run)).
Proof.
  intros run. split; [vm_compute; reflexivity|].
  apply (wait_for_login_resumes_headless Ref.lib
           (Sample.env (Sample.at_url "https://example.com/dashboard")
              (inr [Sample.session_cookie; Sample.persistent_cookie]) Sample.no_fetch)
           20 "dashboard" 300 (Some "https://example.com/login")
           (Sample.client ∅, Sample.world) (fst (snd run)) (snd (snd run))).
  vm_compute. reflexivity.
Defined.

(** The timeout elapses without a match: the call returns, headless. *)
Example wait_for_login_timeout :
  let run := ClientMethods.wait_for_login Ref.lib
               (Sample.env (Sample.at_url "https://example.com/login") (inr []) Sample.no_fetch)
               20 "dashboard" 3 None (Sample.client ∅, Sample.world) in
  fst run = Return tt
  /\ headless (fst (snd run)) = true
  /\ _page (fst (snd run)) = Some {| page_headless := true; page_user_agent := None |}.
Proof. vm_compute. repeat split; reflexivity. Qed.

(** Every poll raises: the errors are swallowed until the timeout; the call
    returns, headless. *)
Example wait_for_login_polling_errors :
  let run := ClientMethods.wait_for_login Ref.lib
               (Sample.env (Sample.busy_after_first "https://example.com/login")
                  (inr []) Sample.no_fetch)
               20 "dashboard" 3 None (Sample.client ∅, Sample.world) in
  fst run = Return tt
  /\ headless (fst (snd run)) = true
  /\ _page (fst (snd run)) = Some {| page_headless := true; page_user_agent := None |}.
Proof. vm_compute. repeat split; reflexivity. Qed.

(** The cookie capture raises after the match: polling goes on until the
    timeout; the call returns, headless. *)
Example wait_for_login_capture_error :
  let run := ClientMethods.wait_for_login Ref.lib
               (Sample.env (Sample.at_url "https://example.com/dashboard")
                  (inl (Exn OtherException "The page is busy.")) Sample.no_fetch)
               20 "dashboard" 3 None (Sample.client ∅, Sample.world) in
  fst run = Return tt
  /\ headless (fst (snd run)) = true
  /\ exists ua, _page (fst (snd run)) = Some {| page_headless := true; page_user_agent := ua |}.
Proof. vm_compute. repeat split; try reflexivity. eexists; reflexivity. Qed.

(** ** Cookie sanitisation *)

Lemma get_filter (f : string -> bool) k (d : JSONDict) :
  PyDict.get k (List.filter (fun kv => f (fst kv)) d) = if f k then PyDict.get k d else None.
Proof.
  induction d as [|[k' v] d IH]; simpl; [destruct (f k); reflexivity|].
  destruct (String.eqb_spec k k') as [->|Hne].
  - destruct (f k') eqn:Hf; simpl.
    + rewrite String.eqb_refl. reflexivity.
    + rewrite IH. reflexivity.
  - destruct (f k'); simpl.
    + destruct (String.eqb_spec k k'); [contradiction|]. exact IH.
    + exact IH.
Qed.

Lemma mem_get k (d : JSONDict) :
  PyDict.mem k d = match PyDict.get k d with Some _ => true | None => false end.
Proof.
  induction d as [|[k' v] d IH]; simpl; [reflexivity|].
  destruct (String.eqb k k'); simpl; [reflexivity|exact IH].
Qed.

Lemma existsb_eqb_In k (l : list string) : existsb (String.eqb k) l = true <-> In k l.
Proof.
  rewrite existsb_exists. split.
  - intros (x & Hin & Heq). apply String.eqb_eq in Heq. subst. exact Hin.
  - intros Hin. exists k. split; [exact Hin | apply String.eqb_refl].
Qed.

Lemma get_pop k k' (d : JSONDict) :
  PyDict.get k' (PyDict.pop k d) = if String.eqb k k' then None else PyDict.get k' d.
Proof.
  unfold PyDict.pop.
  rewrite (get_filter (fun x => negb (String.eqb k x)) k' d).
  destruct (String.eqb k k'); reflexivity.
Qed.

Lemma allowed_In k :
  existsb (String.eqb k) ClientMethods.allowed_keys = true <-> In k ClientMethods.allowed_keys.
Proof. apply existsb_eqb_In. Qed.

(** The attributes of a sanitised cookie. *)
Lemma sanitize_cookie_get c c' :
  ClientMethods.sanitize_cookie c = inr c' ->
  forall k,
    PyDict.get k c' =
      if String.eqb "expires" k then
        match PyDict.get "expires" c with
        | Some v => match ClientMethods.le_zero v with
                    | inr false => Some v
                    | _ => None
                    end
        | None => None
        end
      else if existsb (String.eqb k) ClientMethods.allowed_keys then PyDict.get k c
           else None.
Proof.
  unfold ClientMethods.sanitize_cookie.
  set (allowed := fun k => existsb (String.eqb k) ClientMethods.allowed_keys).
  set (clean := List.filter _ c).
  assert (Hclean : forall k, PyDict.get k clean = if allowed k then PyDict.get k c else None)
    by (intros k; apply (get_filter allowed)).
  assert (Hexp : PyDict.get "expires" clean = PyDict.get "expires" c)
    by (rewrite Hclean; reflexivity).
  unfold PyDict.get_default. rewrite Hexp.
  destruct (PyDict.get "expires" c) as [v|] eqn:Hv.
  - destruct (ClientMethods.le_zero v) as [e|[|]] eqn:Hle; [discriminate| |];
      intros H k; injection H as <-.
    + rewrite get_pop, Hclean. destruct (String.eqb "expires" k); reflexivity.
    + rewrite Hclean. destruct (String.eqb_spec "expires" k) as [<-|_]; [|reflexivity].
      exact Hv.
  - replace (ClientMethods.le_zero (VInt 0)) with (@inr exn bool true) by reflexivity.
    intros H k. injection H as <-.
    rewrite get_pop, Hclean. destruct (String.eqb "expires" k); reflexivity.
Qed.

Lemma sanitize_cookie_sanitized c c' :
  ClientMethods.sanitize_cookie c = inr c' -> sanitized c c'.
Proof.
  intros H. pose proof (sanitize_cookie_get c c' H) as G.
  unfold sanitized. split; [|split; [|split; [|split]]].
  - intros k. rewrite mem_get, G.
    destruct (String.eqb_spec "expires" k) as [<-|_].
    + intros _. apply allowed_In. reflexivity.
    + destruct (existsb (String.eqb k) ClientMethods.allowed_keys) eqn:Ha;
        [intros _; apply allowed_In, Ha | discriminate].
  - intros k Hin Hne. rewrite G.
    destruct (String.eqb_spec "expires" k) as [<-|_]; [contradiction|].
    apply allowed_In in Hin. rewrite Hin. reflexivity.
  - intros v. rewrite G, String.eqb_refl.
    destruct (PyDict.get "expires" c) as [v0|]; [|discriminate].
    destruct (ClientMethods.le_zero v0) as [e|[|]] eqn:Hle; try discriminate.
    intros Hv. injection Hv as <-. split; [reflexivity | exact Hle].
  - intros v Hv Hle. rewrite mem_get, G, String.eqb_refl, Hv, Hle. split; reflexivity.
  - intros v Hv Hle. rewrite G, String.eqb_refl, Hv, Hle. reflexivity.
Qed.

Lemma sanitize_cookies_sanitized cs out :
  ClientMethods.sanitize_cookies cs = inr out -> Forall2 sanitized cs out.
Proof.
  revert out. induction cs as [|c cs IH]; intros out H; simpl in H.
  - injection H as <-. constructor.
  - destruct (ClientMethods.sanitize_cookie c) as [e|c'] eqn:Hc; [discriminate|].
    destruct (ClientMethods.sanitize_cookies cs) as [e|r'] eqn:Hr; [discriminate|].
    injection H as <-. constructor; [apply sanitize_cookie_sanitized, Hc | apply IH; reflexivity].
Qed.

(** The calls of the restore phase: every [page.set.cookies] carries the
    sanitised list. *)
Lemma restore_cookies_emits L E captured start_url original_url :
  respects
    (emits (fun c => forall restored, c = CallSetCookies restored ->
                     Forall2 sanitized captured restored))
    (ClientMethods.restore_cookies L E captured start_url original_url).
Proof.
  unfold ClientMethods.restore_cookies, ClientMethods.origin_of,
    ClientMethods.page_get, ClientMethods.page.
  respects_tac; apply emits_call; intros restored Heq; try discriminate.
  injection Heq as <-. apply sanitize_cookies_sanitized. assumption.
Qed.

(** C6.  Every list of cookies that the restore phase of the handoff hands
    to [page.set.cookies] is the captured list, cookie by cookie, with every
    attribute outside the allowed set dropped, the allowed attributes other
    than [expires] unchanged, and [expires] removed when its value is [<= 0]
    (kept, with its value, when positive). *)
Theorem restored_cookies_sanitized
    (L : PyLib) (E : Env) (captured : list JSONDict) (start_url : option string)
    (original_url : string) (s s' : state) (o : outcome unit)
    (restored : list JSONDict) :
  ClientMethods.restore_cookies L E captured start_url original_url s = (o, s') ->
  restored_by restored (snd s') ->
  restored_by restored (snd s) \/ Forall2 sanitized captured restored.
Proof.
  intros Hrun Hin.
  destruct (restore_cookies_emits L E captured start_url original_url s o s' Hrun)
    as (l & Htr & Hl).
  unfold restored_by in *. rewrite Htr in Hin.
  apply in_app_or in Hin as [Hold|Hnew]; [left; exact Hold | right].
  rewrite Forall_forall in Hl. exact (Hl _ Hnew restored eq_refl).
Qed.

Lemma restored_cookies_sanitized_witness :
  let captured := [Sample.session_cookie; Sample.persistent_cookie] in
  let restored :=
    [[("name", VStr "sid"); ("value", VStr "abc"); ("domain", VStr "example.com");
      ("path", VStr "/")];
     [("name", VStr "pref"); ("value", VStr "dark"); ("domain", VStr "example.com");
      ("expires", VFloat (float_frac 3471379201 2))]] in
  let run := ClientMethods.restore_cookies Ref.lib
               (Sample.env (Sample.at_url "about:blank") (inr []) Sample.no_fetch)
               captured (Some "https://example.com/login") ""
               (Sample.client ∅, Sample.world) in
  restored_by restored (snd (snd run))
  /\ (restored_by restored Sample.world \/ Forall2 sanitized captured restored).
Proof.
  intros captured restored run.
  assert (Hin : restored_by restored (snd (snd run))).
  { unfold restored_by. vm_compute. right. left. reflexivity. }
  split; [exact Hin|].
  apply (restored_cookies_sanitized Ref.lib
           (Sample.env (Sample.at_url "about:blank") (inr []) Sample.no_fetch)
           captured (Some "https://example.com/login") ""
           (Sample.client ∅, Sample.world) (snd run) (fst run) restored).
  - apply surjective_pairing.
  - exact Hin.
Defined.

(** The cookie of the specification: an extraneous attribute and
    [expires = 0]; it is restored without either. *)
Example sanitize_session_cookie :
  ClientMethods.sanitize_cookie Sample.session_cookie
  = inr [("name", VStr "sid"); ("value", VStr "abc"); ("domain", VStr "example.com");
         ("path", VStr "/")].
Proof. reflexivity. Qed.

(** A non-numeric [expires] makes the comparison raise: no cookie is restored. *)
Example sanitize_bad_expires :
  exists e, ClientMethods.sanitize_cookies
              [Sample.session_cookie; [("name", VStr "x"); ("expires", VStr "never")]]
            = inl e /\ exn_kind e = TypeError.
Proof. eexists. split; reflexivity. Qed.

(** ** The fetch *)

Section FetchFacts.
Variable L : PyLib.
Variable E : Env.

(** [_exec_fetch] after the answer [cdp_res] of the browser. *)
Lemma _exec_fetch_answer url options timeout cl w p cdp_res :
  _page cl = Some p ->
  env_run_cdp E (tick w) = inr cdp_res ->
  exists c,
    ClientMethods._exec_fetch L E url options timeout (cl, w) =
      (match PyDict.get "exceptionDetails" cdp_res with
       | Some details =>
           raise (Exn RuntimeError ("JS Execution Error: " ++ py_str L details))
       | None =>
           match result_value cdp_res with
           | Some rv =>
               match PyDict.get "error" rv with
               | Some err_msg =>
                   a <- lift (ClientMethods.abort_in err_msg) ;;
                   if (a : bool)
                   then raise (Exn TimeoutError
                                 ("Request timed out after " ++ float_repr L timeout
                                    ++ " seconds"))
                   else raise (Exn RuntimeError ("Fetch failed: " ++ py_str L err_msg))
               | None =>
                   match ClientMethods._validate_fetch_response (VDict rv) with
                   | Some d => lift (Response.init d)
                   | None =>
                       raise (Exn RuntimeError
                                ("Invalid fetch response structure. Keys found: "
                                   ++ py_str L (VList (List.map VStr (PyDict.keys rv)))))
                   end
               end
           | None =>
               match PyDict.get_default "result" (VDict []) cdp_res with
               | VDict res =>
                   raise (Exn RuntimeError
                            ("Unexpected JS result type: "
                               ++ type_name (PyDict.get "value" res)))
               | _ => raise (Exn AttributeError "object has no attribute 'get'")
               end
           end
       end) (cl, step c w)
    /\ (exists u o t, c = CallRunCdp u o t).
Proof.
  intros Hp Hans. eexists. split; [|do 3 eexists; reflexivity].
  unfold ClientMethods._exec_fetch, ClientMethods.page, ask_exn, ask, bind, get_client.
  cbn [fst snd]. rewrite Hp. unfold ret. cbn [fst snd]. rewrite Hans. unfold lift, ret.
  cbn beta iota.
  unfold result_value.
  destruct (PyDict.get "exceptionDetails" cdp_res) as [details|]; [reflexivity|].
  destruct (PyDict.get_default "result" (VDict []) cdp_res) as [| | | | | |res]; try reflexivity.
  destruct (PyDict.get "value" res) as [[| | | | | |rv]|]; try reflexivity.
  destruct (PyDict.get "error" rv) as [err_msg|]; [reflexivity|].
  destruct (ClientMethods._validate_fetch_response (VDict rv)) as [d|] eqn:Hv; [|reflexivity].
  unfold ClientMethods._validate_fetch_response in Hv.
  destruct (forallb (fun k => PyDict.mem k rv) ClientMethods.required_keys) eqn:Hk;
    [|discriminate].
  injection Hv as <-.
  destruct rv as [|kv rv]; [discriminate Hk|]. reflexivity.
Qed.
End FetchFacts.

(** C7, as stated, fails: a response without [statusText] and a JavaScript
    exception both surface as [RuntimeError]; the kind of the error does not
    tell them apart. *)
Lemma structural_mismatch_not_distinct :
  exists e1 e2,
    fst (ClientMethods._exec_fetch Ref.lib
           (Sample.env (Sample.at_url "about:blank") (inr []) (inr Sample.cdp_partial))
           "http://example.com" [("method", VStr "GET"); ("headers", VDict [])]
           (float_of_Z 30) (Sample.client ∅, Sample.world)) = Raise e1
    /\ fst (ClientMethods._exec_fetch Ref.lib
              (Sample.env (Sample.at_url "about:blank") (inr []) (inr Sample.cdp_exception))
              "http://example.com" [("method", VStr "GET"); ("headers", VDict [])]
              (float_of_Z 30) (Sample.client ∅, Sample.world)) = Raise e2
    /\ structural_mismatch Sample.cdp_partial
         [("status", VInt 200); ("url", VStr "http://example.com");
          ("headers", VDict [("Content-Type", VStr "application/json")]);
          ("text", VStr "{}"); ("redirected", VBool false); ("type", VStr "basic")]
    /\ script_error Sample.cdp_exception (VDict [("text", VStr "Uncaught")])
    /\ exn_kind e1 = exn_kind e2.
Proof.
  do 2 eexists. split; [vm_compute; reflexivity|]. split; [vm_compute; reflexivity|].
  split; [|split; reflexivity].
  split; [reflexivity|]. split; [reflexivity|].
  exists "statusText". split; [right; left; reflexivity | reflexivity].
Qed.

(** C7, amended.  A fetch answer that lacks a required field raises
    [RuntimeError], the class that a script error and a rejected fetch also
    raise; the three differ in their message only.  An aborted fetch raises
    [TimeoutError], which is another class. *)
Theorem exec_fetch_failure_kinds
    (L : PyLib) (E : Env) (url : string) (options : JSONDict) (timeout : Qc)
    (cl : Client) (w : World) (p : ChromiumPage) (cdp_res : JSONDict)
    (Hpage : _page cl = Some p)
    (Hanswer : env_run_cdp E (tick w) = inr cdp_res) :
  let outcome := fst (ClientMethods._exec_fetch L E url options timeout (cl, w)) in
  (forall rv, structural_mismatch cdp_res rv ->
      outcome = Raise (Exn RuntimeError
                         ("Invalid fetch response structure. Keys found: "
                            ++ py_str L (VList (List.map VStr (PyDict.keys rv))))))
  /\ (forall details, script_error cdp_res details ->
      outcome = Raise (Exn RuntimeError ("JS Execution Error: " ++ py_str L details)))
  /\ (forall err_msg, fetch_error cdp_res err_msg ->
      outcome = Raise (Exn RuntimeError ("Fetch failed: " ++ py_str L err_msg)))
  /\ (deadline_exceeded cdp_res ->
      outcome = Raise (Exn TimeoutError
                         ("Request timed out after " ++ float_repr L timeout ++ " seconds")))
  /\ RuntimeError <> TimeoutError.
Proof.
  intros outcome. subst outcome.
  destruct (_exec_fetch_answer L E url options timeout cl w p cdp_res Hpage Hanswer)
    as (c & -> & _).
  split; [|split; [|split; [|split]]].
  - intros rv (Hrv & Herr & k & Hin & Hk).
    assert (Hd : PyDict.get "exceptionDetails" cdp_res = None).
    { unfold result_value in Hrv.
      destruct (PyDict.get "exceptionDetails" cdp_res); [discriminate|reflexivity]. }
    rewrite Hd, Hrv, Herr.
    assert (Hv : ClientMethods._validate_fetch_response (VDict rv) = None).
    { unfold ClientMethods._validate_fetch_response.
      destruct (forallb (fun k => PyDict.mem k rv) ClientMethods.required_keys) eqn:Hall;
        [|reflexivity].
      rewrite forallb_forall in Hall. specialize (Hall k Hin). congruence. }
    rewrite Hv. reflexivity.
  - intros details Hd. unfold script_error in Hd. rewrite Hd. reflexivity.
  - intros err_msg (rv & Hrv & Herr & Hab).
    assert (Hd : PyDict.get "exceptionDetails" cdp_res = None).
    { unfold result_value in Hrv.
      destruct (PyDict.get "exceptionDetails" cdp_res); [discriminate|reflexivity]. }
    rewrite Hd, Hrv, Herr, Hab. reflexivity.
  - intros (rv & err_msg & Hrv & Herr & Hab).
    assert (Hd : PyDict.get "exceptionDetails" cdp_res = None).
    { unfold result_value in Hrv.
      destruct (PyDict.get "exceptionDetails" cdp_res); [discriminate|reflexivity]. }
    rewrite Hd, Hrv, Herr, Hab. reflexivity.
  - discriminate.
Qed.

Lemma exec_fetch_failure_kinds_witness :
  fst (ClientMethods._exec_fetch Ref.lib
         (Sample.env (Sample.at_url "about:blank") (inr []) (inr Sample.cdp_partial))
         "http://example.com" [("method", VStr "GET"); ("headers", VDict [])]
         (float_of_Z 30) (Sample.client ∅, Sample.world))
  = Raise (Exn RuntimeError
             ("Invalid fetch response structure. Keys found: "
                ++ py_str Ref.lib
                     (VList (List.map VStr
                               ["status"; "url"; "headers"; "text"; "redirected"; "type"])))).
Proof.
  destruct (exec_fetch_failure_kinds Ref.lib
              (Sample.env (Sample.at_url "about:blank") (inr []) (inr Sample.cdp_partial))
              "http://example.com" [("method", VStr "GET"); ("headers", VDict [])]
              (float_of_Z 30) (Sample.client ∅) Sample.world
              {| page_headless := true; page_user_agent := None |}
              Sample.cdp_partial eq_refl eq_refl) as (H & _).
  apply (H [("status", VInt 200); ("url", VStr "http://example.com");
            ("headers", VDict [("Content-Type", VStr "application/json")]);
            ("text", VStr "{}"); ("redirected", VBool false); ("type", VStr "basic")]).
  split; [reflexivity|]. split; [reflexivity|].
  exists "statusText". split; [right; left; reflexivity | reflexivity].
Defined.

(** An aborted fetch is the only failure with its own class. *)
Example exec_fetch_timeout :
  exists msg,
    fst (ClientMethods._exec_fetch Ref.lib
           (Sample.env (Sample.at_url "about:blank") (inr []) (inr Sample.cdp_abort))
           "http://example.com" [("method", VStr "GET"); ("headers", VDict [])]
           (float_of_Z 30) (Sample.client ∅, Sample.world))
    = Raise (Exn TimeoutError msg).
Proof. eexists. vm_compute. reflexivity. Qed.

(** ** The request pipeline *)

Section RequestFacts.
Variable L : PyLib.
Variable E : Env.

Lemma _ensure_cors_context_same_client url :
  respects same_client (ClientMethods._ensure_cors_context L E url).
Proof.
  unfold ClientMethods._ensure_cors_context, ClientMethods.current_url,
    ClientMethods.page_get, ClientMethods.page.
  respects_tac; apply same_client_call.
Qed.

Lemma _ensure_cors_context_no_fetch url :
  respects (emits not_fetch) (ClientMethods._ensure_cors_context L E url).
Proof.
  unfold ClientMethods._ensure_cors_context, ClientMethods.current_url,
    ClientMethods.page_get, ClientMethods.page.
  respects_tac; apply emits_call; intros u o t; discriminate.
Qed.

Lemma _exec_fetch_same_client url options timeout :
  respects same_client (ClientMethods._exec_fetch L E url options timeout).
Proof.
  unfold ClientMethods._exec_fetch, ClientMethods.page.
  respects_tac; apply same_client_call.
Qed.

(** [cache.get] inside the client: the clock is read, two ticks are
    reserved for the statements, the table is updated. *)
Lemma cache_get_eval key cl w :
  ClientMethods.cache_get L E key (cl, w) =
    let r := RequestCache.get L (env_time E (tick w)) (env_sqlite_err E (S (tick w)))
               (env_sqlite_err E (S (S (tick w)))) key (cache cl) in
    (Return (fst r),
     (set_cache (snd r) cl,
      {| tick := 3 + tick w; trace := (trace w ++ [CallTime])%list |})).
Proof. reflexivity. Qed.

(** [cache.set] inside the client. *)
Lemma cache_set_eval key v ttl cl w :
  ClientMethods.cache_set L E key v ttl (cl, w) =
    (Return tt,
     (set_cache (RequestCache.set L (env_time E (tick w)) (env_sqlite_err E (S (tick w)))
                   key v ttl (cache cl)) cl,
      {| tick := 2 + tick w; trace := (trace w ++ [CallTime])%list |})).
Proof. reflexivity. Qed.

(** A validated record is a non-empty dictionary. *)
Lemma validated_truthy data :
  RequestCache._validate_data data = Some data ->
  ClientMethods.truthy_data (Some data) = true.
Proof.
  destruct data as [| | | | | |d]; try discriminate. simpl.
  destruct d as [|kv d]; [discriminate|reflexivity].
Qed.

Lemma init_raw_data record r :
  Response.init record = inr r -> Response.raw_data r = record.
Proof.
  unfold Response.init. destruct record as [| | | | | |d]; try discriminate.
  destruct (PyDict.get_default "headers" (VDict []) d); try discriminate.
  intros H. injection H as <-. reflexivity.
Qed.
End RequestFacts.

(** [request] on a cache hit, step by step. *)
Lemma request_hit_eval (L : PyLib) (E : Env) method endpoint params data json_data
    headers timeout ttl cl w w1 record conn' :
  let full_url := ClientMethods.final_url L cl endpoint params in
  let key := RequestCache.generate_key L method full_url None data json_data in
  ClientMethods._ensure_cors_context L E full_url (cl, w) = (Return tt, (cl, w1)) ->
  RequestCache.get L (env_time E (tick w1)) (env_sqlite_err E (S (tick w1)))
    (env_sqlite_err E (S (S (tick w1)))) key (cache cl) = (Some record, conn') ->
  ClientMethods.request L E method endpoint params data json_data headers timeout
    (Some ttl) (cl, w)
  = (outcome_of (Response.init record),
     (set_cache conn' cl,
      {| tick := 3 + tick w1; trace := (trace w1 ++ [CallTime])%list |})).
Proof.
  intros full_url key Hcors Hget.
  assert (Hval : RequestCache._validate_data record = Some record).
  { eapply get_validated. rewrite Hget. reflexivity. }
  unfold ClientMethods.request. unfold bind at 1. unfold get_client. cbn [fst].
  fold full_url. rewrite (bind_Return _ _ _ _ _ Hcors).
  fold key.
  assert (Hc : ClientMethods.cache_get L E key (cl, w1)
               = (Return (Some record),
                  (set_cache conn' cl,
                   {| tick := 3 + tick w1; trace := (trace w1 ++ [CallTime])%list |}))).
  { rewrite cache_get_eval. cbn zeta. rewrite Hget. reflexivity. }
  rewrite (bind_Return _ _ _ _ _ Hc).
  rewrite (validated_truthy record Hval).
  destruct (Response.init record); reflexivity.
Qed.

(** C5.  With [cache_ttl] given, [request] looks the cache up under the
    fingerprint of the method, the final URL (the resolved endpoint with the
    query string of [params] appended), the form body and the json body,
    the [params] argument of [generate_key] being [None]; when that lookup
    hits, the result is the response built from the stored record, and no
    fetch is sent to the browser. *)
Theorem request_cache_hit
    (L : PyLib) (E : Env) (method endpoint : string)
    (params data json_data headers : option JSONDict) (timeout : Qc)
    (ttl : cache_ttl_t) (cl : Client) (w : World) (s1 : state)
    (record : JSONValue) (conn' : gmap string RequestCache.row) :
  let full_url := ClientMethods.final_url L cl endpoint params in
  let key := RequestCache.generate_key L method full_url None data json_data in
  let run := ClientMethods.request L E method endpoint params data json_data headers
               timeout (Some ttl) (cl, w) in
  ClientMethods._ensure_cors_context L E full_url (cl, w) = (Return tt, s1) ->
  RequestCache.get L (env_time E (tick (snd s1))) (env_sqlite_err E (S (tick (snd s1))))
    (env_sqlite_err E (S (S (tick (snd s1))))) key (cache cl) = (Some record, conn') ->
  fst run = outcome_of (Response.init record)
  /\ (forall r, fst run = Return r -> Response.raw_data r = record)
  /\ (forall d h, record = VDict d -> PyDict.get "headers" d = Some (VDict h) ->
       exists r, fst run = Return r /\ Response.raw_data r = record)
  /\ cache (fst (snd run)) = conn'
  /\ exists calls, trace (snd (snd run)) = (trace w ++ calls)%list /\ Forall not_fetch calls.
Proof.
  intros full_url key run Hcors Hget.
  destruct s1 as [cl1 w1].
  pose proof (_ensure_cors_context_same_client L E full_url _ _ _ Hcors) as Hcl.
  unfold same_client in Hcl. simpl in Hcl. subst cl1.
  destruct (_ensure_cors_context_no_fetch L E full_url _ _ _ Hcors) as (l & Htr & Hl).
  simpl in Htr, Hget.
  subst run.
  rewrite (request_hit_eval L E method endpoint params data json_data headers timeout ttl
             cl w w1 record conn' Hcors Hget).
  cbn [fst snd]. split; [reflexivity|]. split; [|split; [|split; [reflexivity|]]].
  - intros r Hr. apply init_raw_data.
    destruct (Response.init record) as [e|r']; [discriminate|].
    simpl in Hr. injection Hr as ->. reflexivity.
  - intros d h -> Hh. unfold Response.init, PyDict.get_default. rewrite Hh.
    eexists. split; reflexivity.
  - exists (l ++ [CallTime])%list. cbn [trace]. split.
    + rewrite Htr. symmetry. apply app_assoc.
    + apply Forall_app. split; [exact Hl|].
      constructor; [|constructor]. intros u o t. discriminate.
Qed.

Lemma request_cache_hit_witness :
  let cl := Sample.client
              (RequestCache.set Ref.lib (float_of_Z 0) false
                 (RequestCache.generate_key Ref.lib "get"
                    "https://example.com/api/items?page=2" None None None)
                 Sample.ok_record (float_of_Z 60) ∅) in
  let run := ClientMethods.request Ref.lib
               (Sample.env (Sample.at_url "about:blank") (inr []) Sample.no_fetch)
               "get" "/api/items" (Some [("page", VInt 2)]) None None None
               (float_of_Z 30) (Some (TtlInt 60)) (cl, Sample.world) in
  fst run = outcome_of (Response.init Sample.ok_record)
  /\ exists calls, trace (snd (snd run)) = (trace Sample.world ++ calls)%list
                   /\ Forall not_fetch calls.
Proof.
  intros cl run.
  destruct (request_cache_hit Ref.lib
              (Sample.env (Sample.at_url "about:blank") (inr []) Sample.no_fetch)
              "get" "/api/items" (Some [("page", VInt 2)]) None None None
              (float_of_Z 30) (TtlInt 60) cl Sample.world (cl, Sample.world)
              Sample.ok_record (cache cl))
    as (H1 & _ & _ & _ & H4).
  - reflexivity.
  - vm_compute. reflexivity.
  - split; [exact H1 | exact H4].
Defined.




(** A response outside 200..299 is not stored. *)
Example request_does_not_store_404 :
  let E := Sample.env (Sample.at_url "about:blank") (inr []) (inr (Sample.cdp_status 404)) in
  let run := ClientMethods.request Ref.lib E "GET" "/api/items" None None None None
               (float_of_Z 30) (Some (TtlInt 60)) (Sample.client ∅, Sample.world) in
  (exists resp, fst run = Return resp /\ Response.status_code resp = VInt 404)
  /\ cache (fst (snd run)) = ∅.
Proof. split; [eexists; split; vm_compute; reflexivity | vm_compute; reflexivity]. Qed.

(** ** Termination of the handoff *)

Lemma total_ret {A} (a : A) : total (ret a).
Proof. intros s. discriminate. Qed.

Lemma total_raise {A} e : total (@raise A e).
Proof. intros s. discriminate. Qed.

Lemma total_lift {A} (r : exn + A) : total (lift r).
Proof. destruct r; [apply total_raise | apply total_ret]. Qed.

Lemma total_get_client : total get_client.
Proof. intros s. discriminate. Qed.

Lemma total_modify_client f : total (modify_client f).
Proof. intros s. discriminate. Qed.

Lemma total_ask {A} c (answer : nat -> A) : total (ask c answer).
Proof. intros s. discriminate. Qed.

Lemma total_bind {A B} (m : M A) (k : A -> M B) :
  total m -> (forall a, total (k a)) -> total (bind m k).
Proof.
  intros Hm Hk s. unfold bind. specialize (Hm s).
  destruct (m s) as [[a|e|] s1]; [apply Hk | discriminate | contradiction].
Qed.

Lemma total_ask_exn {A} c (answer : nat -> exn + A) : total (ask_exn c answer).
Proof. apply total_bind; [apply total_ask | intros r; apply total_lift]. Qed.

Lemma total_ask_unit c (answer : nat -> option exn) : total (ask_unit c answer).
Proof.
  apply total_bind; [apply total_ask |].
  intros [e|]; [apply total_raise | apply total_ret].
Qed.

Lemma total_try_except {A} (m : M A) (h : exn -> M A) :
  total m -> (forall e, total (h e)) -> total (try_except m h).
Proof.
  intros Hm Hh s. unfold try_except. specialize (Hm s).
  destruct (m s) as [[a|e|] s1]; [discriminate | | contradiction].
  destruct (is_Exception e); [apply Hh | discriminate].
Qed.

Lemma total_try_finally {A} (body : M (option A)) (fin : option A -> M unit) :
  total body -> (forall v, total (fin v)) -> total (try_finally body fin).
Proof.
  intros Hb Hf s. unfold try_finally. specialize (Hb s).
  destruct (body s) as [[v|e|] s1]; [apply Hf | | contradiction].
  specialize (Hf None s1). destruct (fin None s1) as [[x|e'|] s2];
    [discriminate | discriminate | contradiction].
Qed.

Ltac total_step :=
  lazymatch goal with
  | |- total (bind _ _) => apply total_bind; [|intros ?]
  | |- total (try_except _ _) => apply total_try_except; [|intros ?]
  | |- total (ret _) => apply total_ret
  | |- total (raise _) => apply total_raise
  | |- total (lift _) => apply total_lift
  | |- total get_client => apply total_get_client
  | |- total (modify_client _) => apply total_modify_client
  | |- total (ask _ _) => apply total_ask
  | |- total (ask_exn _ _) => apply total_ask_exn
  | |- total (ask_unit _ _) => apply total_ask_unit
  | |- total (if ?b then _ else _) => destruct b
  | |- total (match ?x with _ => _ end) => destruct x
  end.

Ltac total_tac := repeat total_step.

Section Termination.
Variable L : PyLib.
Variable E : Env.

Lemma _restart_browser_total h : total (ClientMethods._restart_browser E h).
Proof.
  unfold ClientMethods._restart_browser, ClientMethods._init_browser,
    ClientMethods.time_sleep.
  total_tac.
Qed.

Lemma resume_headless_total start_url original_url captured :
  total (ClientMethods.resume_headless L E start_url original_url captured).
Proof.
  unfold ClientMethods.resume_headless. apply total_bind;
    [apply _restart_browser_total | intros _].
  unfold ClientMethods.restore_cookies, ClientMethods.origin_of,
    ClientMethods.page_get, ClientMethods.page.
  total_tac.
Qed.

Lemma current_url_total : total (ClientMethods.current_url E).
Proof. unfold ClientMethods.current_url, ClientMethods.page. total_tac. Qed.

Lemma poll_once_total pat : total (ClientMethods.poll_once L E pat).
Proof.
  unfold ClientMethods.poll_once, ClientMethods.page, ClientMethods.time_sleep. total_tac.
Qed.

Lemma respects_modify_client_tick f : respects tick_le (modify_client f).
Proof. intros s o s' H. injection H as _ <-. unfold tick_le. simpl. lia. Qed.

Lemma poll_once_tick_le pat : respects tick_le (ClientMethods.poll_once L E pat).
Proof.
  unfold ClientMethods.poll_once, ClientMethods.page, ClientMethods.time_sleep.
  respects_tac; try apply tick_le_call. apply respects_modify_client_tick.
Qed.

(** The loop, one iteration unfolded. *)
Lemma poll_unfold fuel pat timeout start_time :
  ClientMethods.poll L E (S fuel) pat timeout start_time =
    (now <- ClientMethods.time_time E ;;
     if bool_decide (float_of_Z timeout < now - start_time)%Qc
     then ret None
     else
       captured <- ClientMethods.poll_once L E pat ;;
       match captured with
       | Some cookies => ret (Some cookies)
       | None => ClientMethods.time_sleep E (float_of_Z 1) ;;;
                 ClientMethods.poll L E fuel pat timeout start_time
       end).
Proof. reflexivity. Qed.

(** Once the clock has passed the deadline for good, the loop ends: one
    unit of fuel more than the number of ticks left until then is enough. *)
Lemma poll_terminates pat timeout start_time (N : nat) :
  (forall n, (N <= n)%nat -> (float_of_Z timeout < env_time E n - start_time)%Qc) ->
  forall fuel s, (N <= tick (snd s) + fuel)%nat ->
    fst (ClientMethods.poll L E (S fuel) pat timeout start_time s) <> Diverge.
Proof.
  intros Hclock. induction fuel as [|fuel IH]; intros [cl w] Hfuel;
    rewrite poll_unfold; unfold bind at 1;
    unfold ClientMethods.time_time, ask; cbn [fst snd];
    destruct (bool_decide (float_of_Z timeout < env_time E (tick w) - start_time)%Qc) eqn:Hd;
    try discriminate;
    assert (Hlt : (tick w < N)%nat)
      by (destruct (le_lt_dec N (tick w)) as [Hge|Hlt]; [|exact Hlt];
          apply Hclock in Hge; apply bool_decide_eq_false in Hd; contradiction).
  - simpl in Hfuel. lia.
  - unfold bind at 1.
    pose proof (poll_once_total pat (cl, step CallTime w)) as Htot.
    pose proof (poll_once_tick_le pat (cl, step CallTime w)) as Htick.
    destruct (ClientMethods.poll_once L E pat (cl, step CallTime w)) as [[captured|e|] s2];
      [|discriminate|contradiction].
    specialize (Htick _ _ eq_refl). unfold tick_le in Htick. simpl in Htick.
    destruct captured as [cookies|]; [discriminate|].
    unfold bind at 1. unfold ClientMethods.time_sleep, ask_unit, bind, ask. cbn [fst snd].
    destruct (env_sleep E (tick (snd s2))); [discriminate|].
    cbn [ret]. apply IH. simpl. simpl in Hfuel. lia.
Qed.
Lemma bind_Raise {A B} (m : M A) (k : A -> M B) s e s1 :
  m s = (Raise e, s1) -> bind m k s = (Raise e, s1).
Proof. unfold bind. intros ->. reflexivity. Qed.

Lemma try_finally_not_diverge {A} (body : M (option A)) fin s :
  fst (body s) <> Diverge -> (forall v, total (fin v)) ->
  fst (try_finally body fin s) <> Diverge.
Proof.
  intros Hb Hf. unfold try_finally.
  destruct (body s) as [[v|e|] s1]; [apply Hf | | contradiction].
  specialize (Hf None s1). destruct (fin None s1) as [[x|e'|] s2];
    [discriminate | discriminate | contradiction].
Qed.

Lemma Qclt_minus_r (a b c : Qc) : (a + b < c)%Qc -> (a < c - b)%Qc.
Proof.
  intros H. apply (Qcplus_lt_mono_r a (c - b) b).
  replace (c - b + b)%Qc with c by ring. exact H.
Qed.

Lemma page_get_total url : total (ClientMethods.page_get E url).
Proof. unfold ClientMethods.page_get, ClientMethods.page. total_tac. Qed.
End Termination.

(** X15.  [wait_for_login] returns or raises, provided the clock eventually
    passes every instant: some amount of fuel is enough, and so is any
    larger amount. *)
Theorem wait_for_login_terminates
    (L : PyLib) (E : Env) (success_pattern : string) (timeout : Z)
    (start_url : option string) (s : state)
    (Hclock : forall t : Qc, exists N, forall n, (N <= n)%nat -> (t < env_time E n)%Qc) :
  exists fuel0, forall fuel, (fuel0 <= fuel)%nat ->
    fst (ClientMethods.wait_for_login L E fuel success_pattern timeout start_url s)
    <> Diverge.
Proof.
  unfold ClientMethods.wait_for_login.
  pose proof (current_url_total E s) as T1.
  destruct (ClientMethods.current_url E s) as [[original_url|e|] s1] eqn:H1;
    [| exists 0%nat; intros fuel _; rewrite (bind_Raise _ _ _ _ _ H1); discriminate
     | contradiction].
  pose proof (_restart_browser_total E false s1) as T2.
  destruct (ClientMethods._restart_browser E false s1) as [[u|e|] s2] eqn:H2;
    [| exists 0%nat; intros fuel _; rewrite (bind_Return _ _ _ _ _ H1),
         (bind_Raise _ _ _ _ _ H2); discriminate
     | contradiction].
  set (target_url := if truthy_str start_url
                     then match start_url with Some x => x | None => "" end
                     else original_url).
  set (pre := if PyStr.truthy target_url && negb (String.eqb target_url "about:blank")
              then ClientMethods.page_get E target_url else ret tt).
  assert (T3 : total pre)
    by (subst pre; destruct (_ && _); [apply page_get_total | apply total_ret]).
  specialize (T3 s2).
  destruct (pre s2) as [[u'|e|] s3] eqn:H3; [| | contradiction].
  - destruct (Hclock (float_of_Z timeout + env_time E (tick (snd s3)))%Qc) as (N & HN).
    exists (S N). intros fuel Hfuel. destruct fuel as [|fuel]; [lia|].
    rewrite (bind_Return _ _ _ _ _ H1), (bind_Return _ _ _ _ _ H2).
    apply try_finally_not_diverge; [|intros v; apply resume_headless_total].
    fold target_url. fold pre. rewrite (bind_Return _ _ _ _ _ H3).
    unfold bind at 1. unfold ClientMethods.time_time, ask. cbn [fst snd].
    apply poll_terminates with (N := N).
    + intros n Hn. apply Qclt_minus_r. apply HN, Hn.
    + simpl. lia.
  - exists 0%nat. intros fuel _.
    rewrite (bind_Return _ _ _ _ _ H1), (bind_Return _ _ _ _ _ H2).
    apply try_finally_not_diverge; [|intros v; apply resume_headless_total].
    fold target_url. fold pre. rewrite (bind_Raise _ _ _ _ _ H3). discriminate.
Qed.

(** The sample clock advances by one second per call: it passes every instant. *)
Lemma sample_clock_unbounded (t : Qc) :
  exists N, forall n, (N <= n)%nat -> (t < Sample.clock n)%Qc.
Proof.
  exists (S (Z.to_nat (Qnum t))). intros n Hn.
  unfold Sample.clock, float_of_Z. unfold Qclt. cbn [this Q2Qc].
  rewrite Qred_correct. destruct t as [[num den] Hc]. cbn [this Qnum] in *.
  unfold Qlt, inject_Z. cbn [Qnum Qden]. nia.
Qed.

Lemma wait_for_login_terminates_witness :
  let E := Sample.env (Sample.at_url "https://example.com/login") (inr []) Sample.no_fetch in
  (forall t : Qc, exists N, forall n, (N <= n)%nat -> (t < env_time E n)%Qc)
  /\ exists fuel0, forall fuel, (fuel0 <= fuel)%nat ->
       fst (ClientMethods.wait_for_login Ref.lib E fuel "dashboard" 3 None
              (Sample.client ∅, Sample.world)) <> Diverge.
Proof.
  intros E. split; [exact sample_clock_unbounded|].
  exact (wait_for_login_terminates Ref.lib E "dashboard" 3 None
           (Sample.client ∅, Sample.world) sample_clock_unbounded).
Defined.

(** ** The cookies of the whole handoff *)

Lemma emits_weaken (P Q : call -> Prop) s s' :
  (forall c, P c -> Q c) -> emits P s s' -> emits Q s s'.
Proof.
  intros HPQ (l & Htr & Hl). exists l. split; [exact Htr|].
  rewrite Forall_forall in *. intros c Hc. apply HPQ, Hl, Hc.
Qed.

Lemma ask_exn_Return_inv {A} c (answer : nat -> exn + A) s a s' :
  ask_exn c answer s = (Return a, s') -> answer (tick (snd s)) = inr a.
Proof.
  unfold ask_exn, bind, ask. cbn [fst snd].
  destruct (answer (tick (snd s))) as [e|x]; [discriminate|].
  intros H. injection H as -> _. reflexivity.
Qed.

Lemma try_except_Return_inv {A} (m : M A) (h : exn -> M A) s a s' :
  try_except m h s = (Return a, s') ->
  m s = (Return a, s') \/ exists e s1, m s = (Raise e, s1) /\ h e s1 = (Return a, s').
Proof.
  unfold try_except. destruct (m s) as [[x|e|] s1]; intros H.
  - left. exact H.
  - right. destruct (is_Exception e); [eauto | discriminate].
  - discriminate.
Qed.

Lemma emits_modify_client (P : call -> Prop) f : respects (emits P) (modify_client f).
Proof.
  intros s o s' H. injection H as _ <-. exists []. split.
  - symmetry. apply app_nil_r.
  - constructor.
Qed.

Section CookieProvenance.
Variable L : PyLib.
Variable E : Env.

(** The cookies captured by one poll come from [page.cookies]. *)
Lemma poll_once_captured pat s cs s' :
  ClientMethods.poll_once L E pat s = (Return (Some cs), s') -> exists n, env_cookies E n = inr cs.
Proof.
  unfold ClientMethods.poll_once. intros H.
  apply try_except_Return_inv in H as [H|(e & s1 & _ & H)]; [|discriminate].
  apply bind_Return_inv in H as (p & s1 & _ & H).
  apply bind_Return_inv in H as (current & s2 & _ & H).
  apply bind_Return_inv in H as (found & s3 & _ & H).
  destruct found; [|discriminate].
  apply bind_Return_inv in H as (u1 & s4 & _ & H).
  apply bind_Return_inv in H as (u2 & s5 & _ & H).
  apply bind_Return_inv in H as (p' & s6 & _ & H).
  apply bind_Return_inv in H as (cookies & s7 & Hc & H).
  injection H as -> _. apply ask_exn_Return_inv in Hc. eauto.
Qed.

(** So do the cookies with which the loop is left. *)
Lemma poll_captured fuel pat timeout start_time s cs s' :
  ClientMethods.poll L E fuel pat timeout start_time s = (Return (Some cs), s') ->
  exists n, env_cookies E n = inr cs.
Proof.
  revert s. induction fuel as [|fuel IH]; intros s H; [discriminate|].
  rewrite poll_unfold in H.
  apply bind_Return_inv in H as (now & s1 & _ & H).
  destruct (bool_decide _); [discriminate|].
  apply bind_Return_inv in H as (captured & s2 & Hc & H).
  destruct captured as [cookies|].
  - injection H as -> _. apply poll_once_captured in Hc. exact Hc.
  - apply bind_Return_inv in H as (u & s3 & _ & H). apply IH in H. exact H.
Qed.

Lemma poll_no_set_cookies fuel pat timeout start_time :
  respects (emits not_set_cookies) (ClientMethods.poll L E fuel pat timeout start_time).
Proof.
  induction fuel as [|fuel IH].
  - simpl. apply respects_diverge. typeclasses eauto.
  - rewrite poll_unfold. unfold ClientMethods.poll_once, ClientMethods.page, ClientMethods.time_time,
      ClientMethods.time_sleep.
    respects_tac; try exact IH; try (apply emits_call; intros cs; discriminate).
    apply emits_modify_client.
Qed.

Lemma _restart_browser_no_set_cookies h :
  respects (emits not_set_cookies) (ClientMethods._restart_browser E h).
Proof.
  unfold ClientMethods._restart_browser, ClientMethods._init_browser,
    ClientMethods.time_sleep.
  respects_tac; try (apply emits_call; intros cs; discriminate);
    apply emits_modify_client.
Qed.

Lemma not_set_cookies_from_browser c : not_set_cookies c -> from_browser E c.
Proof. intros H restored Heq. exfalso. exact (H restored Heq). Qed.

Lemma resume_headless_from_browser start_url original_url captured :
  (forall cs, captured = Some cs -> exists n, env_cookies E n = inr cs) ->
  respects (emits (from_browser E))
    (ClientMethods.resume_headless L E start_url original_url captured).
Proof.
  intros Hcap. unfold ClientMethods.resume_headless.
  apply respects_bind; [typeclasses eauto | | intros _].
  - intros s o s' H. eapply emits_weaken; [exact not_set_cookies_from_browser|].
    exact (_restart_browser_no_set_cookies true _ _ _ H).
  - destruct captured as [[|c cs]|]; respects_tac.
    intros s o s' H. destruct (Hcap _ eq_refl) as (n & Hn).
    eapply emits_weaken; [|exact (restore_cookies_emits L E _ _ _ _ _ _ H)].
    intros c0 Hc0 restored Heq. exists (c :: cs), n. split; [exact Hn | exact (Hc0 _ Heq)].
Qed.

Lemma wait_for_login_from_browser fuel pat timeout start_url :
  respects (emits (from_browser E))
    (ClientMethods.wait_for_login L E fuel pat timeout start_url).
Proof.
  unfold ClientMethods.wait_for_login.
  apply respects_bind; [typeclasses eauto | | intros original_url].
  { unfold ClientMethods.current_url, ClientMethods.page.
    respects_tac; apply emits_call; intros restored Heq; discriminate. }
  apply respects_bind; [typeclasses eauto | | intros _].
  { intros s o s' H. eapply emits_weaken; [exact not_set_cookies_from_browser|].
    exact (_restart_browser_no_set_cookies false _ _ _ H). }
  set (body := bind _ _).
  assert (Hbody : respects (emits (from_browser E)) body).
  { subst body. unfold ClientMethods.page_get, ClientMethods.page, ClientMethods.time_time.
    respects_tac; try (apply emits_call; intros restored Heq; discriminate).
    intros s o s' H. eapply emits_weaken; [exact not_set_cookies_from_browser|].
    exact (poll_no_set_cookies fuel pat timeout _ _ _ _ H). }
  assert (Hcap : forall s cs s', body s = (Return (Some cs), s') ->
                                 exists n, env_cookies E n = inr cs).
  { subst body. intros s cs s' H.
    apply bind_Return_inv in H as (u & s1 & _ & H).
    apply bind_Return_inv in H as (st & s2 & _ & H).
    exact (poll_captured _ _ _ _ _ _ _ H). }
  intros s o s' H. unfold try_finally in H.
  destruct (body s) as [[v|e|] s1] eqn:Hb.
  - transitivity s1; [exact (Hbody _ _ _ Hb)|].
    refine (resume_headless_from_browser start_url original_url v _ _ _ _ H).
    intros cs ->. exact (Hcap _ _ _ Hb).
  - transitivity s1; [exact (Hbody _ _ _ Hb)|].
    destruct (ClientMethods.resume_headless L E start_url original_url None s1)
      as [[x|e'|] s2] eqn:Hf; injection H as _ <-;
      (refine (resume_headless_from_browser start_url original_url None _ _ _ _ Hf);
       intros cs Hcs; discriminate Hcs).
  - injection H as _ <-. exact (Hbody _ _ _ Hb).
Qed.
End CookieProvenance.

(** X16.  Every list of cookies that a handoff hands to [page.set.cookies] is the
    sanitised form of a list that [page.cookies] returned. *)
Corollary wait_for_login_restores_sanitized
    (L : PyLib) (E : Env) (fuel : nat) (pat : string) (timeout : Z)
    (start_url : option string) (s s' : state) (o : outcome unit)
    (restored : list JSONDict) :
  ClientMethods.wait_for_login L E fuel pat timeout start_url s = (o, s') ->
  restored_by restored (snd s') ->
  restored_by restored (snd s)
  \/ exists captured n, env_cookies E n = inr captured /\ Forall2 sanitized captured restored.
Proof.
  intros Hrun Hin.
  destruct (wait_for_login_from_browser L E fuel pat timeout start_url s o s' Hrun)
    as (l & Htr & Hl).
  unfold restored_by in *. rewrite Htr in Hin.
  apply in_app_or in Hin as [Hold|Hnew]; [left; exact Hold | right].
  rewrite Forall_forall in Hl. exact (Hl _ Hnew restored eq_refl).
Qed.

Lemma wait_for_login_restores_sanitized_witness :
  let E := Sample.env (Sample.at_url "https://example.com/dashboard")
             (inr [Sample.session_cookie; Sample.persistent_cookie]) Sample.no_fetch in
  let restored :=
    [[("name", VStr "sid"); ("value", VStr "abc"); ("domain", VStr "example.com");
      ("path", VStr "/")];
     [("name", VStr "pref"); ("value", VStr "dark"); ("domain", VStr "example.com");
      ("expires", VFloat (float_frac 3471379201 2))]] in
  let run := ClientMethods.wait_for_login Ref.lib E 20 "dashboard" 300
               (Some "https://example.com/login") (Sample.client ∅, Sample.world) in
  restored_by restored (snd (snd run))
  /\ exists captured n, env_cookies E n = inr captured /\ Forall2 sanitized captured restored.
Proof.
  intros E restored run.
  assert (Hin : restored_by restored (snd (snd run))).
  { unfold restored_by. vm_compute. repeat (first [left; reflexivity | right]). }
  split; [exact Hin|].
  destruct (wait_for_login_restores_sanitized Ref.lib E 20 "dashboard" 300
              (Some "https://example.com/login") (Sample.client ∅, Sample.world)
              (snd run) (fst run) restored) as [Hold|H].
  - apply surjective_pairing.
  - exact Hin.
  - destruct Hold.
  - exact H.
Defined.

(** ** The tests of [tests/test_cache.py], replayed on the model *)

Example test_validate_data_valid :
  RequestCache._validate_data Sample.ok_record = Some Sample.ok_record.
Proof. reflexivity. Qed.

Example test_validate_data_invalid_missing_key :
  RequestCache._validate_data Sample.partial_record = None.
Proof. reflexivity. Qed.

Example test_validate_data_not_dict :
  RequestCache._validate_data (VStr "not a dict") = None.
Proof. reflexivity. Qed.

Example test_generate_key :
  RequestCache.generate_key Ref.lib "GET" "http://example.com" None None None
  = "072966cb3b9c87f9fc06735297f7fa687d80ad072253c9b1799cb1cba6661f7c"
  /\ RequestCache.generate_key Ref.lib "GET" "http://example.com"
       (Some [("q", VInt 1)]) None None
     = "9f2799efa185b993c67412af7b7f90caad37c32afe1e2ae9dce83c27cf92861f".
Proof. split; vm_compute; reflexivity. Qed.

Example test_set_and_get :
  fst (RequestCache.get Ref.lib (Sample.clock 1) false false Sample.key
         (RequestCache.set Ref.lib (Sample.clock 0) false Sample.key Sample.ok_record
            (float_of_Z 60) ∅))
  = Some Sample.ok_record.
Proof. vm_compute. reflexivity. Qed.

Example test_expired_cache :
  RequestCache.get Ref.lib (Sample.clock 1) false false Sample.key
    (RequestCache.set Ref.lib (Sample.clock 0) false Sample.key Sample.ok_record
       (float_of_Z (-1)) ∅)
  = (None, ∅).
Proof. vm_compute. reflexivity. Qed.

(** The write is lost when SQLite raises: [set] swallows the error. *)
Example set_swallows_sqlite_error :
  RequestCache.set Ref.lib (Sample.clock 0) true Sample.key Sample.ok_record
    (float_of_Z 60) ∅ = ∅.
Proof. reflexivity. Qed.

(* ===================================================================== *)
(** * Part III: further properties of the code                            *)
(* ===================================================================== *)

(** ** The cache store: writes, reads and sweeps together *)



(** X2.  [set] on one key leaves the rows of every other key as they are, and so
    what [get] returns for them. *)
Theorem set_other_key
    (L : PyLib) (k k' : string) (v : JSONValue) (t0 now ttl : Qc)
    (err select_err delete_err : bool) (conn : gmap string RequestCache.row)
    (Hne : k <> k') :
  RequestCache.set L t0 err k v ttl conn !! k' = conn !! k'
  /\ fst (RequestCache.get L now select_err delete_err k'
            (RequestCache.set L t0 err k v ttl conn))
     = fst (RequestCache.get L now select_err delete_err k' conn).
Proof.
  assert (Hl : RequestCache.set L t0 err k v ttl conn !! k' = conn !! k').
  { unfold RequestCache.set. destruct err; [reflexivity|]. apply lookup_insert_ne, Hne. }
  split; [exact Hl|].
  unfold RequestCache.get. destruct select_err; [reflexivity|]. rewrite Hl.
  destruct (conn !! k') as [r|]; [|reflexivity].
  destruct (decide (now < RequestCache.expires_at r)%Qc).
  - destruct (json_loads L (RequestCache.value r)); reflexivity.
  - destruct delete_err; reflexivity.
Qed.

Lemma set_other_key_witness :
  fst (RequestCache.get Ref.lib (Sample.clock 1) false false Sample.key
         (RequestCache.set Ref.lib (Sample.clock 0) false "another key"
            Sample.partial_record (float_of_Z 60)
            (RequestCache.set Ref.lib (Sample.clock 0) false Sample.key Sample.ok_record
               (float_of_Z 60) ∅)))
  = Some Sample.ok_record.
Proof.
  destruct (set_other_key Ref.lib "another key" Sample.key Sample.partial_record
              (Sample.clock 0) (Sample.clock 1) (float_of_Z 60) false false false
              (RequestCache.set Ref.lib (Sample.clock 0) false Sample.key Sample.ok_record
                 (float_of_Z 60) ∅)) as (_ & H).
  - vm_compute. discriminate.
  - rewrite H. vm_compute. reflexivity.
Defined.

(** X3.  What [get] does to the table: the row of another key is never touched;
    the row of the key itself stays when it is unexpired or when a statement
    raises, and is deleted when it is expired (the lazy purge). *)
Theorem get_table_effect
    (L : PyLib) (now : Qc) (select_err delete_err : bool) (k k' : string)
    (conn : gmap string RequestCache.row) :
  snd (RequestCache.get L now select_err delete_err k conn) !! k' =
    if decide (k' = k)
    then match conn !! k with
         | Some r =>
             if decide (now < RequestCache.expires_at r)%Qc then Some r
             else if select_err || delete_err then Some r else None
         | None => None
         end
    else conn !! k'.
Proof.
  unfold RequestCache.get. destruct (decide (k' = k)) as [->|Hne].
  - destruct select_err; cbn [orb].
    + cbn [snd]. destruct (conn !! k) as [r|]; [|reflexivity].
      destruct (decide (now < RequestCache.expires_at r)%Qc); reflexivity.
    + destruct (conn !! k) as [r|] eqn:Hk; [|cbn [snd]; exact Hk].
      destruct (decide (now < RequestCache.expires_at r)%Qc).
      * destruct (json_loads L (RequestCache.value r)); cbn [snd]; exact Hk.
      * destruct delete_err; cbn [snd]; [exact Hk | apply lookup_delete_eq].
  - destruct select_err; [reflexivity|].
    destruct (conn !! k) as [r|]; [|reflexivity].
    destruct (decide (now < RequestCache.expires_at r)%Qc).
    + destruct (json_loads L (RequestCache.value r)); reflexivity.
    + destruct delete_err; cbn [snd]; [reflexivity|]. apply lookup_delete_ne. congruence.
Qed.

(** X4.  A sweep never changes what a later [get] returns: the rows that
    [clear_expired] deletes at time [now] are rows that [get] treats as
    expired at any time from [now] on. *)
Theorem clear_expired_invisible_to_get
    (L : PyLib) (now now' : Qc) (err select_err delete_err : bool) (k : string)
    (conn : gmap string RequestCache.row)
    (Hclock : (now <= now')%Qc) :
  fst (RequestCache.get L now' select_err delete_err k
         (RequestCache.clear_expired now err conn))
  = fst (RequestCache.get L now' select_err delete_err k conn).
Proof.
  unfold RequestCache.clear_expired. destruct err; [reflexivity|].
  unfold RequestCache.get. destruct select_err; [reflexivity|].
  destruct (conn !! k) as [r|] eqn:Hk.
  - destruct (decide (RequestCache.expires_at r < now)%Qc) as [Hexp|Hkeep].
    + assert (Hnone : filter (fun kr => ¬ (RequestCache.expires_at (snd kr) < now)%Qc)
                        conn !! k = None).
      { apply map_lookup_filter_None. right. intros r' Hr' Hc.
        rewrite Hk in Hr'. injection Hr' as <-. simpl in Hc. contradiction. }
      rewrite Hnone.
      destruct (decide (now' < RequestCache.expires_at r)%Qc) as [Hlt|Hge].
      * exfalso. apply (Qclt_not_le _ _ Hexp).
        apply Qclt_le_weak. apply Qcle_lt_trans with now'; assumption.
      * destruct delete_err; reflexivity.
    + assert (Hsome : filter (fun kr => ¬ (RequestCache.expires_at (snd kr) < now)%Qc)
                        conn !! k = Some r).
      { apply map_lookup_filter_Some. split; [exact Hk | exact Hkeep]. }
      rewrite Hsome.
      destruct (decide (now' < RequestCache.expires_at r)%Qc).
      * destruct (json_loads L (RequestCache.value r)); reflexivity.
      * destruct delete_err; reflexivity.
  - assert (Hnone : filter (fun kr => ¬ (RequestCache.expires_at (snd kr) < now)%Qc)
                      conn !! k = None).
    { apply map_lookup_filter_None. left. exact Hk. }
    rewrite Hnone. reflexivity.
Qed.

Lemma clear_expired_invisible_to_get_witness :
  let conn := RequestCache.set Ref.lib (Sample.clock 0) false "stale" Sample.ok_record
                (float_of_Z 1)
                (RequestCache.set Ref.lib (Sample.clock 0) false Sample.key
                   Sample.ok_record (float_of_Z 60) ∅) in
  fst (RequestCache.get Ref.lib (Sample.clock 6) false false Sample.key
         (RequestCache.clear_expired (Sample.clock 5) false conn))
  = Some Sample.ok_record
  /\ RequestCache.clear_expired (Sample.clock 5) false conn !! "stale" = None.
Proof.
  intros conn. split; [|vm_compute; reflexivity].
  rewrite (clear_expired_invisible_to_get Ref.lib (Sample.clock 5) (Sample.clock 6)
             false false false Sample.key conn).
  - vm_compute. reflexivity.
  - intros H. discriminate H.
Defined.

(** X5.  Two sweeps in a row are one sweep at the later time. *)
Theorem clear_expired_twice
    (t1 t2 : Qc) (conn : gmap string RequestCache.row) (Hclock : (t1 <= t2)%Qc) :
  RequestCache.clear_expired t2 false (RequestCache.clear_expired t1 false conn)
  = RequestCache.clear_expired t2 false conn.
Proof.
  unfold RequestCache.clear_expired. apply map_eq. intros k.
  destruct (conn !! k) as [r|] eqn:Hk.
  - destruct (decide (RequestCache.expires_at r < t2)%Qc) as [H2|H2].
    + transitivity (@None RequestCache.row); [|symmetry].
      * apply map_lookup_filter_None. right. intros r' Hr' Hc.
        apply map_lookup_filter_Some in Hr' as [Hr' _].
        rewrite Hk in Hr'. injection Hr' as <-. simpl in Hc. contradiction.
      * apply map_lookup_filter_None. right. intros r' Hr' Hc.
        rewrite Hk in Hr'. injection Hr' as <-. simpl in Hc. contradiction.
    + transitivity (Some r); [|symmetry].
      * apply map_lookup_filter_Some. split; [|exact H2].
        apply map_lookup_filter_Some. split; [exact Hk|]. simpl. intros H1.
        apply H2. apply Qclt_le_trans with t1; assumption.
      * apply map_lookup_filter_Some. split; [exact Hk | exact H2].
  - transitivity (@None RequestCache.row); [|symmetry].
    + apply map_lookup_filter_None. left. apply map_lookup_filter_None. left. exact Hk.
    + apply map_lookup_filter_None. left. exact Hk.
Qed.

Lemma clear_expired_twice_witness :
  let conn := RequestCache.set Ref.lib (Sample.clock 0) false "stale" Sample.ok_record
                (float_of_Z 1)
                (RequestCache.set Ref.lib (Sample.clock 0) false Sample.key
                   Sample.ok_record (float_of_Z 60) ∅) in
  RequestCache.clear_expired (Sample.clock 5) false
    (RequestCache.clear_expired (Sample.clock 3) false conn)
  = RequestCache.clear_expired (Sample.clock 5) false conn.
Proof.
  intros conn. apply (clear_expired_twice (Sample.clock 3) (Sample.clock 5) conn).
  intros H. discriminate H.
Defined.

(** ** The fingerprint: shape and limits *)

Lemma length_string_of_list_ascii (l : list ascii) :
  String.length (string_of_list_ascii l) = length l.
Proof. induction l as [|c l IH]; simpl; congruence. Qed.

Lemma string_forall_of_list (f : ascii -> bool) (l : list ascii) :
  string_forall f (string_of_list_ascii l) = forallb f l.
Proof. induction l as [|c l IH]; simpl; congruence. Qed.

Lemma hex_digit_lower (n : Z) : 0 <= n < 16 -> is_lower_hex (Sha256.hex_digit n) = true.
Proof.
  intros H. rewrite <- (Z2Nat.id n) by lia.
  assert (Hk : (Z.to_nat n < 16)%nat) by lia.
  revert Hk. generalize (Z.to_nat n). intros k Hk.
  do 16 (destruct k as [|k]; [reflexivity|]). lia.
Qed.

Lemma land_15_range (x : Z) : 0 <= Z.land x 0xf < 16.
Proof.
  change 0xf with (Z.ones 4). rewrite Z.land_ones by lia.
  apply Z.mod_pos_bound. reflexivity.
Qed.

Lemma hex_word_shape (x : Z) :
  length (Sha256.hex_word x) = 8%nat /\ forallb is_lower_hex (Sha256.hex_word x) = true.
Proof.
  unfold Sha256.hex_word. split.
  - rewrite length_map. reflexivity.
  - rewrite forallb_forall. intros c Hc. apply in_map_iff in Hc as (i & <- & _).
    apply hex_digit_lower, land_15_range.
Qed.

Lemma compress_length h blk : length h = 8%nat -> length (Sha256.compress h blk) = 8%nat.
Proof.
  intros Hh. unfold Sha256.compress. rewrite length_map, length_combine, Hh. reflexivity.
Qed.

Lemma digest_words_length msg : length (Sha256.digest_words msg) = 8%nat.
Proof.
  unfold Sha256.digest_words.
  generalize (Sha256.chunks (length (Sha256.pad msg)) 64 (Sha256.pad msg)).
  assert (H0 : length Sha256.H0 = 8%nat) by reflexivity.
  revert H0. generalize Sha256.H0.
  intros h Hh blocks. revert h Hh.
  induction blocks as [|b blocks IH]; intros h Hh; cbn [fold_left]; [exact Hh|].
  apply IH. apply compress_length, Hh.
Qed.

Lemma concat_hex_words (ws : list Z) :
  length (List.concat (List.map Sha256.hex_word ws)) = (8 * length ws)%nat
  /\ forallb is_lower_hex (List.concat (List.map Sha256.hex_word ws)) = true.
Proof.
  induction ws as [|x ws [IHl IHf]]; [split; reflexivity|].
  destruct (hex_word_shape x) as [Hl Hf]. cbn [List.map List.concat]. split.
  - rewrite length_app, Hl, IHl. cbn [length]. lia.
  - rewrite forallb_app, Hf, IHf. reflexivity.
Qed.

(** X6.  The fingerprint has a fixed width: 64 lower-case hexadecimal digits,
    whatever the request. *)
Theorem generate_key_shape
    (L : PyLib) (method url : string) (params data json_data : option JSONDict) :
  String.length (RequestCache.generate_key L method url params data json_data) = 64%nat
  /\ string_forall is_lower_hex
       (RequestCache.generate_key L method url params data json_data) = true.
Proof.
  unfold RequestCache.generate_key, Sha256.hexdigest.
  rewrite length_string_of_list_ascii, string_forall_of_list.
  destruct (concat_hex_words
              (Sha256.digest_words
                 (Sha256.bytes_of_string
                    (RequestCache.raw_key L method url params data json_data))))
    as [Hl Hf].
  rewrite Hl, Hf, digest_words_length. split; reflexivity.
Qed.

Lemma upper_app (a b : string) : PyStr.upper (a ++ b) = (PyStr.upper a ++ PyStr.upper b)%string.
Proof.
  induction a as [|c a IH]; [reflexivity|].
  rewrite append_cons. simpl. rewrite IH, append_cons. reflexivity.
Qed.

(** X7.  The delimiter is not escaped: a [|] can move between the method and the
    url without changing the fingerprint.  Sensitivity holds for a change of
    one component only. *)
Theorem generate_key_delimiter_ambiguity
    (L : PyLib) (m x u : string) (params data json_data : option JSONDict) :
  RequestCache.generate_key L (m ++ "|" ++ x) u params data json_data
  = RequestCache.generate_key L m (PyStr.upper x ++ "|" ++ u) params data json_data.
Proof.
  unfold RequestCache.generate_key. f_equal. unfold RequestCache.raw_key.
  rewrite !upper_app. change (PyStr.upper "|") with "|".
  repeat rewrite string_app_assoc. reflexivity.
Qed.

(** ** The response: its headers *)

Lemma lower_ascii_idem c : PyStr.lower_ascii (PyStr.lower_ascii c) = PyStr.lower_ascii c.
Proof.
  destruct c as [[] [] [] [] [] [] [] []]; vm_compute; reflexivity.
Qed.

Lemma lower_idem s : PyStr.lower (PyStr.lower s) = PyStr.lower s.
Proof.
  induction s as [|c s IH]; simpl; [reflexivity|].
  rewrite lower_ascii_idem, IH. reflexivity.
Qed.

Lemma get_dict_set k k' v (d : JSONDict) :
  PyDict.get k' (PyDict.dict_set k v d) = if String.eqb k' k then Some v else PyDict.get k' d.
Proof.
  induction d as [|[k0 v0] d IH]; simpl.
  - destruct (String.eqb k' k); reflexivity.
  - destruct (String.eqb_spec k k0) as [->|Hne]; simpl.
    + destruct (String.eqb k' k0); reflexivity.
    + destruct (String.eqb_spec k' k0) as [->|Hne'].
      * destruct (String.eqb_spec k0 k); [congruence|reflexivity].
      * exact IH.
Qed.

Lemma keys_dict_set k v (d : JSONDict) :
  PyDict.keys (PyDict.dict_set k v d) =
    if PyDict.mem k d then PyDict.keys d else (PyDict.keys d ++ [k])%list.
Proof.
  unfold PyDict.keys, PyDict.mem. induction d as [|[k0 v0] d IH]; simpl; [reflexivity|].
  destruct (String.eqb_spec k k0) as [->|Hne]; simpl; [reflexivity|].
  rewrite IH. destruct (existsb _ d); reflexivity.
Qed.

Lemma mem_In_keys k (d : JSONDict) : PyDict.mem k d = true <-> In k (PyDict.keys d).
Proof.
  unfold PyDict.mem, PyDict.keys. rewrite existsb_exists, in_map_iff. split.
  - intros (kv & Hin & Heq). apply String.eqb_eq in Heq. exists kv. split; [congruence|exact Hin].
  - intros (kv & Heq & Hin). exists kv. split; [exact Hin|]. apply String.eqb_eq. congruence.
Qed.

Lemma get_app_last k (l : JSONDict) (p : string * JSONValue) :
  PyDict.get k (l ++ [p])%list =
    match PyDict.get k l with
    | Some v => Some v
    | None => if String.eqb k (fst p) then Some (snd p) else None
    end.
Proof.
  induction l as [|[k0 v0] l IH]; simpl.
  - destruct p as [kp vp]. simpl. destruct (String.eqb k kp); reflexivity.
  - destruct (String.eqb k k0); [reflexivity|exact IH].
Qed.

(** The dictionary built by the comprehension, from any starting point. *)
Lemma lower_keys_fold (h acc : JSONDict) :
  let out := fold_left (fun a kv => PyDict.dict_set (PyStr.lower (fst kv)) (snd kv) a) h acc in
  (Forall (fun k => PyStr.lower k = k) (PyDict.keys acc) ->
   Forall (fun k => PyStr.lower k = k) (PyDict.keys out))
  /\ (List.NoDup (PyDict.keys acc) -> List.NoDup (PyDict.keys out))
  /\ (forall k, PyDict.get k out =
                match PyDict.get k (List.rev (List.map lower_item h)) with
                | Some v => Some v
                | None => PyDict.get k acc
                end).
Proof.
  revert acc. induction h as [|[k0 v0] h IH]; intros acc; cbn zeta.
  - repeat split; auto.
  - cbn [fold_left fst snd].
    destruct (IH (PyDict.dict_set (PyStr.lower k0) v0 acc)) as (IHl & IHn & IHg).
    cbn zeta in IHl, IHn, IHg. split; [|split].
    + intros Hacc. apply IHl. rewrite keys_dict_set.
      destruct (PyDict.mem (PyStr.lower k0) acc); [exact Hacc|].
      apply Forall_app. split; [exact Hacc|]. constructor; [apply lower_idem|constructor].
    + intros Hacc. apply IHn. rewrite keys_dict_set.
      destruct (PyDict.mem (PyStr.lower k0) acc) eqn:Hm; [exact Hacc|].
      apply List.NoDup_app; [exact Hacc | |].
      * constructor; [intros [] | constructor].
      * intros x Hx [<-|[]]. apply mem_In_keys in Hx. congruence.
    + intros k. rewrite IHg. cbn [List.map List.rev]. rewrite get_app_last, get_dict_set.
      change (lower_item (k0, v0)) with (PyStr.lower k0, v0). cbn [fst snd].
      destruct (PyDict.get k (List.rev (List.map lower_item h))); [reflexivity|].
      destruct (String.eqb k (PyStr.lower k0)); reflexivity.
Qed.

(** X9.  The headers of a response have lower-case names only, each name once;
    looking a name up finds the last raw header whose name, in lower case,
    is that name. *)
Theorem response_headers_lowercase
    (raw : JSONValue) (r : Response.t) (Hinit : Response.init raw = inr r) :
  exists d h,
    raw = VDict d
    /\ PyDict.get_default "headers" (VDict []) d = VDict h
    /\ Forall (fun k => PyStr.lower k = k) (PyDict.keys (Response.headers r))
    /\ List.NoDup (PyDict.keys (Response.headers r))
    /\ (forall k, PyDict.get k (Response.headers r)
                  = PyDict.get k (List.rev (List.map lower_item h))).
Proof.
  unfold Response.init in Hinit. destruct raw as [| | | | | |d]; try discriminate.
  destruct (PyDict.get_default "headers" (VDict []) d) as [| | | | | |h] eqn:Hh;
    try discriminate.
  injection Hinit as <-. exists d, h. split; [reflexivity|]. split; [exact Hh|].
  cbn [Response.headers]. unfold Response.lower_keys.
  destruct (lower_keys_fold h []) as (Hl & Hn & Hg). cbn zeta in Hl, Hn, Hg.
  split; [apply Hl; constructor|]. split; [apply Hn; constructor|].
  intros k. rewrite Hg. destruct (PyDict.get k (List.rev (List.map lower_item h))); reflexivity.
Qed.

Lemma response_headers_lowercase_witness :
  exists r,
    Response.init (VDict [("status", VInt 200);
                          ("headers", VDict [("Content-Type", VStr "text/html");
                                             ("X-Id", VStr "1");
                                             ("content-type", VStr "application/json")])])
    = inr r
    /\ Response.headers r = [("content-type", VStr "application/json"); ("x-id", VStr "1")]
    /\ List.NoDup (PyDict.keys (Response.headers r)).
Proof.
  eexists. split; [reflexivity|]. split; [reflexivity|].
  destruct (response_headers_lowercase
              (VDict [("status", VInt 200);
                      ("headers", VDict [("Content-Type", VStr "text/html");
                                         ("X-Id", VStr "1");
                                         ("content-type", VStr "application/json")])])
              _ eq_refl) as (d & h & _ & _ & _ & Hn & _).
  exact Hn.
Defined.

(** ** The constructor *)

Lemma rev_rev (s : string) : PyStr.rev (PyStr.rev s) = s.
Proof.
  unfold PyStr.rev. rewrite list_ascii_of_string_of_list_ascii, List.rev_involutive.
  apply string_of_list_ascii_of_string.
Qed.

Lemma lstrip_no_slash (s : string) : PyStr.startswith "/" (PyStr.lstrip_slash s) = false.
Proof.
  induction s as [|c s IH]; [reflexivity|]. cbn [PyStr.lstrip_slash].
  destruct (Ascii.eqb c "/") eqn:Hc; [exact IH|]. cbn [PyStr.startswith].
  destruct (Ascii.eqb "/" c) eqn:Hc'; [|reflexivity].
  apply Ascii.eqb_eq in Hc'. subst c. rewrite Ascii.eqb_refl in Hc. discriminate Hc.
Qed.

Lemma rstrip_no_slash (s : string) : endswith_slash (PyStr.rstrip_slash s) = false.
Proof.
  unfold endswith_slash, PyStr.rstrip_slash. rewrite rev_rev. apply lstrip_no_slash.
Qed.

Lemma lstrip_split (s : string) :
  exists t, s = (t ++ PyStr.lstrip_slash s)%string /\ all_slashes t = true.
Proof.
  induction s as [|c s (t & Hs & Ht)]; [exists ""; split; reflexivity|].
  cbn [PyStr.lstrip_slash]. destruct (Ascii.eqb c "/") eqn:Hc.
  - apply Ascii.eqb_eq in Hc. subst c. exists (String "/" t). split.
    + rewrite append_cons. congruence.
    + unfold all_slashes in *. cbn [string_forall]. rewrite Ascii.eqb_refl. exact Ht.
  - exists "". split; reflexivity.
Qed.

Lemma rev_string_app (a b : string) : PyStr.rev (a ++ b) = (PyStr.rev b ++ PyStr.rev a)%string.
Proof.
  unfold PyStr.rev.
  assert (Hl : forall x y, list_ascii_of_string (x ++ y)
                           = (list_ascii_of_string x ++ list_ascii_of_string y)%list).
  { induction x as [|c x IH]; intros y; [reflexivity|].
    rewrite append_cons. simpl. rewrite IH. reflexivity. }
  assert (Hs : forall l m, string_of_list_ascii (l ++ m)%list
                           = (string_of_list_ascii l ++ string_of_list_ascii m)%string).
  { induction l as [|c l IH]; intros m; [reflexivity|].
    simpl. rewrite IH, append_cons. reflexivity. }
  rewrite Hl, List.rev_app_distr, Hs. reflexivity.
Qed.

Lemma all_slashes_rev (t : string) : all_slashes t = true -> all_slashes (PyStr.rev t) = true.
Proof.
  unfold all_slashes, PyStr.rev. intros H. rewrite string_forall_of_list.
  rewrite forallb_forall. intros c Hc. apply in_rev in Hc.
  rewrite <- (string_of_list_ascii_of_string t), string_forall_of_list in H.
  rewrite forallb_forall in H. apply H, Hc.
Qed.

(** [rstrip("/")] removes trailing slashes and nothing else. *)
Lemma rstrip_split (s : string) :
  exists t, s = (PyStr.rstrip_slash s ++ t)%string /\ all_slashes t = true.
Proof.
  destruct (lstrip_split (PyStr.rev s)) as (t & Hs & Ht).
  exists (PyStr.rev t). split; [|apply all_slashes_rev, Ht].
  unfold PyStr.rstrip_slash. rewrite <- rev_string_app, <- Hs. symmetry. apply rev_rev.
Qed.

(** X10.  [Client.__init__] makes exactly one call, the launch of a browser in
    the requested mode with no user agent override.  When it returns, the
    client holds that browser and the given cache, and its [base_url] is the
    given one without its trailing slashes.  A failure of the launch that is
    an [Exception] surfaces as [BrowserInitError]. *)
Theorem client_init_contract
    (E : Env) (base : option string) (headless_ auto : bool)
    (conn : gmap string RequestCache.row) (w : World) :
  let run := ClientApi.__init__ E base headless_ auto conn w in
  trace (snd run) = (trace w ++ [CallLaunch headless_ None])%list
  /\ match fst run with
     | Return cl =>
         headless cl = headless_
         /\ _page cl = Some {| page_headless := headless_; page_user_agent := None |}
         /\ _user_agent cl = None
         /\ cache cl = conn
         /\ auto_navigate_for_cors cl = auto
         /\ match base_url cl with
            | Some b =>
                endswith_slash b = false
                /\ exists b0 t, base = Some b0 /\ b0 = (b ++ t)%string /\ all_slashes t = true
            | None => truthy_str base = false
            end
     | Raise e => is_Exception e = true -> exn_kind e = BrowserInitError
     | Diverge => False
     end.
Proof.
  unfold ClientApi.__init__, ClientMethods._init_browser, bind, get_client, ask.
  cbn [fst snd]. cbn [ClientApi.new_client _user_agent truthy_str headless].
  destruct (env_launch E (tick w)) as [e|].
  - destruct (is_Exception e) eqn:He; cbn [raise fst snd step trace].
    + split; [reflexivity|]. intros _. reflexivity.
    + split; [reflexivity|]. congruence.
  - cbn [modify_client fst snd step trace set_page headless _page _user_agent cache
         auto_navigate_for_cors base_url].
    split; [reflexivity|]. repeat (split; [reflexivity|]).
    unfold ClientApi.new_client. cbn [base_url].
    destruct base as [b0|]; cbn [truthy_str option_map]; [|reflexivity].
    destruct (PyStr.truthy b0) eqn:Hb; [|reflexivity].
    split; [apply rstrip_no_slash|].
    destruct (rstrip_split b0) as (t & Hs & Ht). exists b0, t. auto.
Qed.

Lemma client_init_contract_witness :
  let run := ClientApi.__init__
               (Sample.env (Sample.at_url "about:blank") (inr []) Sample.no_fetch)
               (Some "https://example.com//") true false ∅ Sample.world in
  exists cl, fst run = Return cl
             /\ base_url cl = Some "https://example.com"
             /\ automated cl
             /\ trace (snd run) = [CallLaunch true None].
Proof.
  intros run.
  pose proof (client_init_contract
                (Sample.env (Sample.at_url "about:blank") (inr []) Sample.no_fetch)
                (Some "https://example.com//") true false ∅ Sample.world) as H.
  cbn zeta in H. fold run in H. destruct H as (Htr & H).
  destruct (fst run) as [cl| |] eqn:Hrun; try (vm_compute in Hrun; discriminate Hrun).
  exists cl. destruct H as (Hh & Hp & _ & _ & _ & _).
  split; [reflexivity|]. split; [vm_compute in Hrun; injection Hrun as <-; reflexivity|].
  split; [|exact Htr].
  split; [exact Hh|]. eexists. split; [exact Hp | reflexivity].
Defined.

(** ** The fetch: what it touches, what it returns *)


(** The state after a fetch on a client that holds a browser: one call
    more, whatever the answer. *)
Lemma _exec_fetch_state (L : PyLib) (E : Env) url options timeout cl w p :
  _page cl = Some p ->
  snd (ClientMethods._exec_fetch L E url options timeout (cl, w)) =
    (cl, step (CallRunCdp (json_dumps L false (VStr url)) (json_dumps L false (VDict options))
                 (int_of_float (timeout * float_of_Z 1000)%Qc)) w).
Proof.
  intros Hp.
  assert (Hcl : fst (snd (ClientMethods._exec_fetch L E url options timeout (cl, w))) = cl)
    by exact (_exec_fetch_same_client L E url options timeout (cl, w) _ _
                (surjective_pairing _)).
  destruct (ClientMethods._exec_fetch L E url options timeout (cl, w)) as [o [cl' w']] eqn:Hrun.
  cbn [fst snd] in *. subst cl'. f_equal.
  revert Hrun.
  unfold ClientMethods._exec_fetch, ClientMethods.page, ask_exn, ask, bind, get_client.
  cbn [fst snd]. rewrite Hp. unfold ret. cbn [fst snd].
  destruct (env_run_cdp E (tick w)) as [e|cdp_res].
  - intros H. injection H as _ <-. reflexivity.
  - unfold lift, ret, raise. cbn beta iota.
    intros H. apply (f_equal (fun r => snd (snd r))) in H. cbn [snd] in H. rewrite <- H.
    clear H.
    destruct (PyDict.get "exceptionDetails" cdp_res); [reflexivity|].
    destruct (PyDict.get_default "result" (VDict []) cdp_res); try reflexivity.
    destruct (PyDict.get "value" d) as [[| | | | | |rv]|]; try reflexivity.
    destruct (PyDict.get "error" rv) as [err|].
    + destruct (ClientMethods.abort_in err) as [e|[|]]; reflexivity.
    + destruct (ClientMethods._validate_fetch_response (VDict rv)) as [d'|];
        [|reflexivity].
      destruct (ClientMethods.truthy_data (Some d')); [|reflexivity].
      destruct (Response.init d'); reflexivity.
Qed.




(** ** The navigation before a request *)

Ltac cors_leaf :=
  let H := fresh "H" in
  intros H; injection H as <- <- <-; cbn [trace step];
  split;
  [ first [ left; reflexivity
          | right; eexists; split; [reflexivity | assumption] ]
  | split;
    [ reflexivity
    | first [ reflexivity
            | left; reflexivity
            | right; left; reflexivity
            | right; left; rewrite <- app_assoc; reflexivity ] ] ].

(** X12.  [_ensure_cors_context] never lets an [Exception] escape, leaves the
    client as it was, and asks the browser for nothing when
    [auto_navigate_for_cors] is off; otherwise it reads the current URL and,
    at most, navigates once, to the origin [scheme://netloc] of the target
    (scheme [https] when the target has none). *)
Theorem ensure_cors_context_contract (L : PyLib) (E : Env) (url : string) (cl : Client) (w : World) :
  let run := ClientMethods._ensure_cors_context L E url (cl, w) in
  (fst run = Return tt \/ exists e, fst run = Raise e /\ is_Exception e = false)
  /\ fst (snd run) = cl
  /\ (if negb (auto_navigate_for_cors cl) then trace (snd (snd run)) = trace w
      else
      trace (snd (snd run)) = trace w
      \/ trace (snd (snd run)) = (trace w ++ [CallUrl])%list
      \/ exists scheme netloc,
           urlparse L url = inr (scheme, netloc)
           /\ trace (snd (snd run)) =
                (trace w ++ [CallUrl;
                             CallGet ((if PyStr.truthy scheme then scheme else "https")
                                        ++ "://" ++ netloc)])%list).
Proof.
  cbn zeta.
  destruct (ClientMethods._ensure_cors_context L E url (cl, w)) as [o [cl' w']] eqn:Hrun.
  cbn [fst snd]. revert Hrun.
  unfold ClientMethods._ensure_cors_context. unfold bind at 1. unfold get_client.
  cbn [fst snd].
  destruct (auto_navigate_for_cors cl); cbn [negb];
    [|cbn [ret fst snd]; cors_leaf].
  unfold try_except. unfold bind at 1.
  destruct (urlparse L url) as [e|[scheme netloc]] eqn:Hu; cbn [lift raise ret fst snd].
  { destruct (is_Exception e) eqn:He; cbn [ret fst snd];
      cors_leaf. }
  unfold bind at 1. unfold ClientMethods.current_url. unfold bind at 1. unfold get_client.
  cbn [fst snd].
  destruct (_page cl) as [p|] eqn:Hp.
  - unfold bind at 1. unfold ClientMethods.page at 1. unfold bind at 1. unfold get_client.
    cbn [fst snd]. rewrite Hp. cbn [ret]. unfold ask_exn at 1. unfold bind at 1.
    unfold ask at 1. cbn [fst snd].
    destruct (env_url E (tick w)) as [e|cur]; cbn [lift raise ret fst snd].
    { destruct (is_Exception e) eqn:He; cbn [ret fst snd step trace];
      cors_leaf. }
    unfold bind at 1.
    destruct (urlparse L cur) as [e|[cscheme cnetloc]]; cbn [lift raise ret fst snd].
    { destruct (is_Exception e) eqn:He; cbn [ret fst snd step trace];
      cors_leaf. }
    destruct (negb (PyStr.truthy netloc) || String.eqb netloc cnetloc);
      [cbn [ret fst snd step trace]; cors_leaf|].
    unfold bind at 1. cbn [lift ret fst snd].
    unfold ClientMethods.page_get. unfold bind at 1. unfold ClientMethods.page.
    unfold bind at 1. unfold get_client. cbn [fst snd]. rewrite Hp. cbn [ret].
    unfold ask_unit. unfold bind at 1. unfold ask. cbn [fst snd].
    cbn [step tick].
    destruct (env_get E (S (tick w))) as [e|]; cbn [raise ret fst snd step trace tick].
    + destruct (is_Exception e) eqn:He; cbn [ret fst snd step trace];
        intros H; injection H as <- <- <-; cbn [trace step];
        (split; [eauto|]; split; [reflexivity|]; right; right;
         exists scheme, netloc; split; [reflexivity|]; rewrite <- app_assoc; reflexivity).
    + intros H; injection H as <- <- <-; cbn [trace step].
      split; [auto|]. split; [reflexivity|]. right. right.
      exists scheme, netloc. split; [reflexivity|]. rewrite <- app_assoc. reflexivity.
  - cbn [ret]. unfold bind at 1.
    destruct (urlparse L "") as [e|[cscheme cnetloc]]; cbn [lift raise ret fst snd].
    { destruct (is_Exception e) eqn:He; cbn [ret fst snd step trace];
      cors_leaf. }
    destruct (negb (PyStr.truthy netloc) || String.eqb netloc cnetloc);
      [cbn [ret fst snd step trace]; cors_leaf|].
    unfold bind at 1. cbn [lift ret fst snd].
    unfold ClientMethods.page_get. unfold bind at 1. unfold ClientMethods.page.
    unfold bind at 1. unfold get_client. cbn [fst snd]. rewrite Hp.
    cbn [raise is_Exception exn_kind ret fst snd]. cors_leaf.
Qed.

(** ** The request as a whole *)

#[local] Instance same_session_preorder : PreOrder same_session.
Proof.
  split.
  - intros s. repeat split.
  - intros a b c (H1 & H2 & H3 & H4 & H5) (G1 & G2 & G3 & G4 & G5).
    unfold same_session. repeat split; congruence.
Qed.

Lemma same_session_call c : call_ok same_session c.
Proof. intros cl w. repeat split. Qed.

Lemma same_session_of_same_client {A} (m : M A) :
  respects same_client m -> respects same_session m.
Proof.
  intros H s o s' Hr. specialize (H s o s' Hr). unfold same_client in H.
  unfold same_session. rewrite H. repeat split.
Qed.

Lemma count_fetch_app l1 l2 :
  count_fetch (l1 ++ l2) = (count_fetch l1 + count_fetch l2)%nat.
Proof. unfold count_fetch. rewrite List.filter_app. apply List.length_app. Qed.

Lemma count_fetch_not_fetch l : Forall not_fetch l -> count_fetch l = 0%nat.
Proof.
  induction 1 as [|c l Hc _ IH]; [reflexivity|].
  unfold count_fetch in *. cbn [List.filter].
  destruct c; cbn [is_fetch]; try exact IH.
  exfalso. exact (Hc _ _ _ eq_refl).
Qed.

Lemma fetch_bound_mono {A} a b (m : M A) :
  (a <= b)%nat -> respects (fetch_bound a) m -> respects (fetch_bound b) m.
Proof.
  intros Hab H s o s' Hr. destruct (H s o s' Hr) as (l & Hl & Hn).
  exists l. split; [exact Hl | lia].
Qed.

Lemma fetch_bound_emits {A} (m : M A) :
  respects (emits not_fetch) m -> respects (fetch_bound 0) m.
Proof.
  intros H s o s' Hr. destruct (H s o s' Hr) as (l & Hl & Hn).
  exists l. split; [exact Hl | rewrite (count_fetch_not_fetch l Hn); lia].
Qed.

Lemma fetch_bound_bind {A B} a b (m : M A) (k : A -> M B) :
  respects (fetch_bound a) m -> (forall x, respects (fetch_bound b) (k x)) ->
  respects (fetch_bound (a + b)) (bind m k).
Proof.
  intros Hm Hk s o s'. unfold bind.
  destruct (m s) as [[x|e|] s1] eqn:E; intros H.
  - destruct (Hm _ _ _ E) as (l1 & E1 & N1). destruct (Hk _ _ _ _ H) as (l2 & E2 & N2).
    exists (l1 ++ l2)%list. split.
    + rewrite E2, E1. symmetry. apply app_assoc.
    + rewrite count_fetch_app. lia.
  - injection H as _ <-. destruct (Hm _ _ _ E) as (l1 & E1 & N1).
    exists l1. split; [exact E1 | lia].
  - injection H as _ <-. destruct (Hm _ _ _ E) as (l1 & E1 & N1).
    exists l1. split; [exact E1 | lia].
Qed.

Section RequestContract.
Variable L : PyLib.
Variable E : Env.

Lemma cache_get_same_session key : respects same_session (ClientMethods.cache_get L E key).
Proof.
  intros [cl w] o s' H. rewrite cache_get_eval in H. cbn zeta in H.
  injection H as _ <-. repeat split.
Qed.

Lemma cache_set_same_session key v ttl :
  respects same_session (ClientMethods.cache_set L E key v ttl).
Proof.
  intros [cl w] o s' H. rewrite cache_set_eval in H.
  injection H as _ <-. repeat split.
Qed.

Lemma cache_get_no_fetch key : respects (emits not_fetch) (ClientMethods.cache_get L E key).
Proof.
  intros [cl w] o s' H. rewrite cache_get_eval in H. cbn zeta in H.
  injection H as _ <-. exists [CallTime]. split; [reflexivity|].
  repeat constructor. intros u op t. discriminate.
Qed.

Lemma cache_set_no_fetch key v ttl :
  respects (emits not_fetch) (ClientMethods.cache_set L E key v ttl).
Proof.
  intros [cl w] o s' H. rewrite cache_set_eval in H.
  injection H as _ <-. exists [CallTime]. split; [reflexivity|].
  repeat constructor. intros u op t. discriminate.
Qed.

Lemma _exec_fetch_fetch_bound url options timeout :
  respects (fetch_bound 1) (ClientMethods._exec_fetch L E url options timeout).
Proof.
  intros [cl w] o s' H.
  destruct (_page cl) as [p|] eqn:Hp.
  - pose proof (_exec_fetch_state L E url options timeout cl w p Hp) as Hs.
    rewrite H in Hs. cbn [snd] in Hs. subst s'.
    eexists. split; [reflexivity|]. cbn. lia.
  - revert H.
    unfold ClientMethods._exec_fetch, ClientMethods.page, ask_exn, ask, bind, get_client.
    cbn [fst snd]. rewrite Hp. intros H. injection H as _ <-.
    exists []. split; [symmetry; apply app_nil_r | cbn; lia].
Qed.

Lemma request_same_session method endpoint params data json_data headers timeout cache_ttl :
  respects same_session
    (ClientMethods.request L E method endpoint params data json_data headers timeout cache_ttl).
Proof.
  unfold ClientMethods.request. cbn zeta.
  respects_tac;
    first [ apply same_session_of_same_client, _ensure_cors_context_same_client
          | apply same_session_of_same_client, _exec_fetch_same_client
          | apply cache_get_same_session
          | apply cache_set_same_session ].
Qed.

Lemma request_uncached_same_client method endpoint params data json_data headers timeout :
  respects same_client
    (ClientMethods.request L E method endpoint params data json_data headers timeout None).
Proof.
  unfold ClientMethods.request. cbn zeta.
  respects_tac;
    first [ apply _ensure_cors_context_same_client | apply _exec_fetch_same_client ].
Qed.

Lemma request_fetch_bound method endpoint params data json_data headers timeout cache_ttl :
  respects (fetch_bound 1)
    (ClientMethods.request L E method endpoint params data json_data headers timeout cache_ttl).
Proof.
  unfold ClientMethods.request. cbn zeta.
  apply (fetch_bound_bind 0 1);
    [apply fetch_bound_emits, respects_get_client; typeclasses eauto | intros cl].
  apply (fetch_bound_bind 0 1);
    [apply fetch_bound_emits, _ensure_cors_context_no_fetch | intros _].
  apply (fetch_bound_bind 0 1).
  { destruct cache_ttl; apply fetch_bound_emits;
      [apply cache_get_no_fetch | apply respects_ret; typeclasses eauto]. }
  intros cached.
  assert (Hfetch : forall key,
    respects (fetch_bound 1)
      (response <- ClientMethods._exec_fetch L E (ClientMethods.final_url L cl endpoint params)
                     (ClientMethods.build_options L method data json_data headers) timeout ;;
       match cache_ttl with
       | Some ttl =>
           if Response.ok response
           then ClientMethods.cache_set L E key (Response.raw_data response) (ttl_seconds ttl) ;;;
                ret response
           else ret response
       | None => ret response
       end)).
  { intros key. apply (fetch_bound_bind 1 0); [apply _exec_fetch_fetch_bound | intros r].
    apply fetch_bound_emits.
    respects_tac. apply cache_set_no_fetch. }
  destruct cached as [d|]; [destruct (ClientMethods.truthy_data (Some d))|]; try apply Hfetch.
  apply (fetch_bound_mono 0 1); [lia|]. apply fetch_bound_emits.
  apply respects_lift. typeclasses eauto.
Qed.
End RequestContract.

(** X13.  Whatever its outcome, [request] makes at most one fetch and keeps the
    browser session and the configuration of the client: mode, page, user
    agent, base URL and CORS switch.  Without [cache_ttl] it does not touch
    the client at all, the cache included. *)
Theorem request_contract (L : PyLib) (E : Env) (method endpoint : string)
    (params data json_data headers : option JSONDict) (timeout : Qc)
    (cache_ttl : option cache_ttl_t) (s : state) :
  let run := ClientMethods.request L E method endpoint params data json_data headers
               timeout cache_ttl s in
  fetch_bound 1 s (snd run)
  /\ match cache_ttl with
     | Some _ => same_session s (snd run)
     | None => fst (snd run) = fst s
     end.
Proof.
  cbn zeta. split.
  - exact (request_fetch_bound L E _ _ _ _ _ _ _ _ s _ _ (surjective_pairing _)).
  - destruct cache_ttl as [ttl|].
    + exact (request_same_session L E _ _ _ _ _ _ _ _ s _ _ (surjective_pairing _)).
    + exact (request_uncached_same_client L E _ _ _ _ _ _ _ s _ _ (surjective_pairing _)).
Qed.

(** ** A repeated request *)





(** ** What the handoff leaves alone *)

#[local] Instance same_config_preorder : PreOrder same_config.
Proof.
  split.
  - intros s. repeat split.
  - intros a b c (H1 & H2 & H3) (G1 & G2 & G3).
    unfold same_config. repeat split; congruence.
Qed.

#[local] Instance keeps_mode_preorder : PreOrder keeps_mode.
Proof.
  split.
  - intros s H. exact H.
  - intros a b c H1 H2 H. exact (H2 (H1 H)).
Qed.

Lemma same_config_call c : call_ok same_config c.
Proof. intros cl w. repeat split. Qed.

Lemma keeps_mode_call c : call_ok keeps_mode c.
Proof. intros cl w H. exact H. Qed.

Lemma same_config_modify_client f :
  (forall cl, cache (f cl) = cache cl /\ base_url (f cl) = base_url cl
              /\ auto_navigate_for_cors (f cl) = auto_navigate_for_cors cl) ->
  respects same_config (modify_client f).
Proof. intros Hf [cl w] o s' H. injection H as _ <-. exact (Hf cl). Qed.

Lemma same_config_of_same_client {A} (m : M A) :
  respects same_client m -> respects same_config m.
Proof.
  intros H s o s' Hr. specialize (H s o s' Hr). unfold same_client in H.
  unfold same_config. rewrite H. repeat split.
Qed.

Lemma keeps_mode_of_same_client {A} (m : M A) :
  respects same_client m -> respects keeps_mode m.
Proof.
  intros H s o s' Hr. specialize (H s o s' Hr). unfold same_client in H.
  unfold keeps_mode. rewrite H. exact (fun x => x).
Qed.

(** The three ways in which [bind] ends. *)
Lemma bind_cases {A B} (m : M A) (k : A -> M B) s o s' :
  bind m k s = (o, s') ->
  (exists a s1, m s = (Return a, s1) /\ k a s1 = (o, s'))
  \/ (exists e, m s = (Raise e, s') /\ o = Raise e)
  \/ (m s = (Diverge, s') /\ o = Diverge).
Proof.
  unfold bind. destruct (m s) as [[a|e|] s1]; intros H.
  - left. eauto.
  - right. left. injection H as <- <-. eauto.
  - right. right. injection H as <- <-. eauto.
Qed.

(** Recording the user agent changes neither the page nor the mode. *)
Lemma keeps_mode_set_user_agent ua :
  respects keeps_mode (modify_client (set_user_agent ua)).
Proof. intros [cl w] o s' Hrun Hinv. injection Hrun as _ <-. exact Hinv. Qed.

Section HandoffFrame.
Variable L : PyLib.
Variable E : Env.

Lemma _init_browser_same_config : respects same_config (ClientMethods._init_browser E).
Proof.
  unfold ClientMethods._init_browser.
  respects_tac; first [apply same_config_call | apply same_config_modify_client; intros; repeat split].
Qed.

Lemma _restart_browser_same_config h :
  respects same_config (ClientMethods._restart_browser E h).
Proof.
  unfold ClientMethods._restart_browser, ClientMethods.time_sleep.
  respects_tac;
    first [ apply same_config_call
          | apply same_config_modify_client; intros; repeat split
          | apply _init_browser_same_config ].
Qed.

Lemma poll_once_same_config pat : respects same_config (ClientMethods.poll_once L E pat).
Proof.
  unfold ClientMethods.poll_once, ClientMethods.page, ClientMethods.time_sleep.
  respects_tac;
    first [ apply same_config_call | apply same_config_modify_client; intros; repeat split ].
Qed.

Lemma poll_same_config fuel pat timeout start :
  respects same_config (ClientMethods.poll L E fuel pat timeout start).
Proof.
  induction fuel as [|fuel IH]; cbn [ClientMethods.poll].
  - apply respects_diverge. typeclasses eauto.
  - unfold ClientMethods.time_time, ClientMethods.time_sleep.
    respects_tac;
      first [ apply same_config_call | apply poll_once_same_config | exact IH ].
Qed.

Lemma wait_for_login_same_config fuel pat timeout start_url :
  respects same_config (ClientMethods.wait_for_login L E fuel pat timeout start_url).
Proof.
  unfold ClientMethods.wait_for_login, ClientMethods.resume_headless,
    ClientMethods.current_url, ClientMethods.page_get, ClientMethods.page,
    ClientMethods.time_time.
  respects_tac;
    first [ apply same_config_call
          | apply _restart_browser_same_config
          | apply poll_same_config
          | apply same_config_of_same_client, restore_cookies_same_client ].
Qed.

Lemma mode_consistent_no_page cl : _page cl = None -> mode_consistent cl.
Proof. intros H p Hp. congruence. Qed.

(** A browser start from a client without a page. *)
Lemma _init_browser_mode s :
  _page (fst s) = None -> mode_consistent (fst (snd (ClientMethods._init_browser E s))).
Proof.
  destruct s as [cl w]. cbn [fst]. intros Hp.
  unfold ClientMethods._init_browser, bind, get_client, ask, modify_client. cbn [fst snd].
  destruct (env_launch E (tick w)) as [e|].
  - destruct (is_Exception e); cbn [raise fst snd]; apply mode_consistent_no_page, Hp.
  - cbn [fst snd]. intros p H. cbn in H. injection H as <-. reflexivity.
Qed.

Lemma quit_same_client :
  respects same_client (try_except (ask_unit CallQuit (env_quit E)) (fun _ => ret tt)).
Proof. respects_tac. apply same_client_call. Qed.

Lemma _restart_browser_keeps_mode h : respects keeps_mode (ClientMethods._restart_browser E h).
Proof.
  intros [cl w] o s' H Hinv. unfold ClientMethods._restart_browser in H.
  apply bind_cases in H as [(cl0 & s0 & Hg & H)|[(e & Hg & _)|(Hg & _)]];
    try discriminate Hg.
  injection Hg as <- <-.
  apply bind_cases in H as [(u & s1 & H1 & H)|[(e & H1 & _)|(H1 & _)]].
  - assert (Hp1 : _page (fst s1) = None).
    { destruct (_page cl) eqn:Hp.
      - apply bind_Return_inv in H1 as (u1 & s2 & _ & H1).
        injection H1 as _ <-. reflexivity.
      - injection H1 as _ <-. exact Hp. }
    apply bind_cases in H as [(u2 & s2 & H2 & H)|[(e & H2 & _)|(H2 & _)]].
    + assert (Hs2 : fst s2 = fst s1).
      { refine (_ : same_client s1 s2). revert H2. unfold ClientMethods.time_sleep.
        apply respects_ask_unit; [typeclasses eauto | apply same_client_call]. }
      unfold bind, modify_client in H. cbn [fst snd] in H.
      pose proof (_init_browser_mode (set_headless h (fst s2), snd s2)) as Hm.
      rewrite H in Hm. cbn [fst snd] in Hm. apply Hm. cbn [fst _page set_headless].
      rewrite Hs2. exact Hp1.
    + apply mode_consistent_no_page.
      assert (Hs : same_client s1 s').
      { revert H2. unfold ClientMethods.time_sleep.
        apply respects_ask_unit; [typeclasses eauto | apply same_client_call]. }
      unfold same_client in Hs. rewrite Hs. exact Hp1.
    + apply mode_consistent_no_page.
      assert (Hs : same_client s1 s').
      { revert H2. unfold ClientMethods.time_sleep.
        apply respects_ask_unit; [typeclasses eauto | apply same_client_call]. }
      unfold same_client in Hs. rewrite Hs. exact Hp1.
  - assert (Hs : fst s' = cl); [|rewrite Hs; exact Hinv].
    destruct (_page cl).
    + apply bind_cases in H1 as [(u1 & s2 & _ & H1)|[(e1 & H1 & _)|(H1 & _)]];
        [discriminate H1 | exact (quit_same_client _ _ _ H1) | exact (quit_same_client _ _ _ H1)].
    + discriminate H1.
  - assert (Hs : fst s' = cl); [|rewrite Hs; exact Hinv].
    destruct (_page cl).
    + apply bind_cases in H1 as [(u1 & s2 & _ & H1)|[(e1 & H1 & _)|(H1 & _)]];
        [discriminate H1 | exact (quit_same_client _ _ _ H1) | exact (quit_same_client _ _ _ H1)].
    + discriminate H1.
Qed.

Lemma poll_once_keeps_mode pat : respects keeps_mode (ClientMethods.poll_once L E pat).
Proof.
  unfold ClientMethods.poll_once, ClientMethods.page, ClientMethods.time_sleep.
  respects_tac;
    first [ apply keeps_mode_call
          | apply keeps_mode_set_user_agent ].
Qed.

Lemma poll_keeps_mode fuel pat timeout start :
  respects keeps_mode (ClientMethods.poll L E fuel pat timeout start).
Proof.
  induction fuel as [|fuel IH]; cbn [ClientMethods.poll].
  - apply respects_diverge. typeclasses eauto.
  - unfold ClientMethods.time_time, ClientMethods.time_sleep.
    respects_tac;
      first [ apply keeps_mode_call | apply poll_once_keeps_mode | exact IH ].
Qed.

Lemma wait_for_login_keeps_mode fuel pat timeout start_url :
  respects keeps_mode (ClientMethods.wait_for_login L E fuel pat timeout start_url).
Proof.
  unfold ClientMethods.wait_for_login, ClientMethods.resume_headless,
    ClientMethods.current_url, ClientMethods.page_get, ClientMethods.page,
    ClientMethods.time_time.
  respects_tac;
    first [ apply keeps_mode_call
          | apply _restart_browser_keeps_mode
          | apply poll_keeps_mode
          | apply keeps_mode_of_same_client, restore_cookies_same_client ].
Qed.
End HandoffFrame.

(** X17.  Whatever its outcome, [wait_for_login] leaves the cache, the base URL
    and the CORS switch of the client as they were. *)
Theorem wait_for_login_keeps_config
    (L : PyLib) (E : Env) (fuel : nat) (success_pattern : string) (timeout : Z)
    (start_url : option string) (s : state) :
  let run := ClientMethods.wait_for_login L E fuel success_pattern timeout start_url s in
  cache (fst (snd run)) = cache (fst s)
  /\ base_url (fst (snd run)) = base_url (fst s)
  /\ auto_navigate_for_cors (fst (snd run)) = auto_navigate_for_cors (fst s).
Proof.
  exact (wait_for_login_same_config L E fuel success_pattern timeout start_url s _ _
           (surjective_pairing _)).
Qed.

(** X18.  A handoff that starts with a client whose browser runs in the recorded
    mode ends with such a client, also when it raises: the client never
    holds a browser of the other mode. *)
Theorem wait_for_login_mode_consistent
    (L : PyLib) (E : Env) (fuel : nat) (success_pattern : string) (timeout : Z)
    (start_url : option string) (s : state) :
  mode_consistent (fst s) ->
  mode_consistent
    (fst (snd (ClientMethods.wait_for_login L E fuel success_pattern timeout start_url s))).
Proof.
  exact (wait_for_login_keeps_mode L E fuel success_pattern timeout start_url s _ _
           (surjective_pairing _)).
Qed.

Lemma wait_for_login_mode_consistent_witness :
  let E := Sample.env (Sample.at_url "https://example.com/login") (inr []) Sample.no_fetch in
  let s := (Sample.client ∅, Sample.world) in
  mode_consistent (fst s)
  /\ mode_consistent
       (fst (snd (ClientMethods.wait_for_login Ref.lib E 20 "dashboard" 3 None s))).
Proof.
  intros E s.
  assert (H0 : mode_consistent (fst s)).
  { intros p Hp. cbn in Hp. injection Hp as <-. reflexivity. }
  split; [exact H0|].
  exact (wait_for_login_mode_consistent Ref.lib E 20 "dashboard" 3 None s H0).
Defined.

(** ** The user agent across the handoff *)

#[local] Instance same_user_agent_preorder : PreOrder same_user_agent.
Proof.
  split; [intros s; reflexivity|].
  intros a b c H1 H2. unfold same_user_agent in *. congruence.
Qed.

#[local] Instance user_agent_from_browser_preorder E : PreOrder (user_agent_from_browser E).
Proof.
  split.
  - intros s. left. reflexivity.
  - intros a b c [H1|H1] [H2|(n & ua & Hn & H2)].
    + left. congruence.
    + right. eauto.
    + right. destruct H1 as (n & ua & Hn & H1). exists n, ua. split; [exact Hn | congruence].
    + right. eauto.
Qed.

Lemma same_user_agent_call c : call_ok same_user_agent c.
Proof. intros cl w. reflexivity. Qed.

Lemma user_agent_from_browser_call E c : call_ok (user_agent_from_browser E) c.
Proof. intros cl w. left. reflexivity. Qed.

Lemma same_user_agent_modify_client f :
  (forall cl, _user_agent (f cl) = _user_agent cl) ->
  respects same_user_agent (modify_client f).
Proof. intros Hf [cl w] o s' H. injection H as _ <-. exact (Hf cl). Qed.

Lemma user_agent_from_browser_weaken E {A} (m : M A) :
  respects same_user_agent m -> respects (user_agent_from_browser E) m.
Proof. intros H s o s' Hr. left. exact (H s o s' Hr). Qed.

Lemma same_user_agent_of_same_client {A} (m : M A) :
  respects same_client m -> respects same_user_agent m.
Proof.
  intros H s o s' Hr. specialize (H s o s' Hr). unfold same_client in H.
  unfold same_user_agent. rewrite H. reflexivity.
Qed.

Section UserAgent.
Variable L : PyLib.
Variable E : Env.

Lemma _init_browser_same_user_agent : respects same_user_agent (ClientMethods._init_browser E).
Proof.
  unfold ClientMethods._init_browser.
  respects_tac;
    first [ apply same_user_agent_call
          | apply same_user_agent_modify_client; intros; reflexivity ].
Qed.

Lemma _restart_browser_same_user_agent h :
  respects same_user_agent (ClientMethods._restart_browser E h).
Proof.
  unfold ClientMethods._restart_browser, ClientMethods.time_sleep.
  respects_tac;
    first [ apply same_user_agent_call
          | apply same_user_agent_modify_client; intros; reflexivity
          | apply _init_browser_same_user_agent ].
Qed.

(** A browser start that returns leaves the browser launched with the
    recorded user agent. *)
Lemma _init_browser_page s s' :
  ClientMethods._init_browser E s = (Return tt, s') ->
  _page (fst s') = Some {| page_headless := headless (fst s);
                           page_user_agent := launch_user_agent (fst s) |}.
Proof.
  destruct s as [cl w]. unfold ClientMethods._init_browser, bind, get_client, ask. simpl.
  destruct (env_launch E (tick w)) as [e|].
  - destruct (is_Exception e); discriminate.
  - unfold modify_client. simpl. intros H. injection H as <-. reflexivity.
Qed.

Lemma _restart_browser_page h s s' :
  ClientMethods._restart_browser E h s = (Return tt, s') ->
  _page (fst s') = Some {| page_headless := h;
                           page_user_agent := launch_user_agent (fst s') |}.
Proof.
  intros Hrun.
  pose proof (_restart_browser_same_user_agent h s _ _ Hrun) as Hua.
  unfold same_user_agent in Hua.
  unfold ClientMethods._restart_browser in Hrun.
  apply bind_Return_inv in Hrun as (cl & s1 & _ & H).
  apply bind_Return_inv in H as (u1 & s2 & H1 & H).
  apply bind_Return_inv in H as (u2 & s3 & H2 & H).
  apply bind_Return_inv in H as (u3 & s4 & Hm & H).
  unfold modify_client in Hm. injection Hm as _ <-.
  pose proof (_init_browser_same_user_agent _ _ _ H) as Hua4.
  apply _init_browser_page in H. cbn [fst headless set_headless] in H.
  rewrite H. unfold launch_user_agent. unfold same_user_agent in Hua4.
  cbn [fst _user_agent set_headless] in Hua4 |- *. rewrite Hua4. reflexivity.
Qed.

(** The capture of the user agent during a poll. *)
Lemma capture_user_agent :
  respects (user_agent_from_browser E)
    (ua <- ask_exn CallUserAgent (env_user_agent E) ;; modify_client (set_user_agent (Some ua))).
Proof.
  intros [cl w] o s' H. unfold ask_exn, ask, bind in H. cbn [fst snd] in H.
  destruct (env_user_agent E (tick w)) as [e|ua] eqn:Hans; cbn [lift raise ret] in H.
  - injection H as _ <-. left. reflexivity.
  - unfold modify_client in H. injection H as _ <-. right. exists (tick w), ua.
    split; [exact Hans | reflexivity].
Qed.

Ltac ua_step :=
  lazymatch goal with
  | |- respects _ (bind (ask_exn CallUserAgent _) _) => apply capture_user_agent
  | _ => respects_step
  end.

Lemma poll_once_user_agent pat :
  respects (user_agent_from_browser E) (ClientMethods.poll_once L E pat).
Proof.
  unfold ClientMethods.poll_once, ClientMethods.page, ClientMethods.time_sleep.
  repeat ua_step; apply user_agent_from_browser_call.
Qed.

Lemma poll_user_agent fuel pat timeout start :
  respects (user_agent_from_browser E) (ClientMethods.poll L E fuel pat timeout start).
Proof.
  induction fuel as [|fuel IH]; cbn [ClientMethods.poll].
  - apply respects_diverge. typeclasses eauto.
  - unfold ClientMethods.time_time, ClientMethods.time_sleep.
    respects_tac;
      first [ apply user_agent_from_browser_call | apply poll_once_user_agent | exact IH ].
Qed.

Lemma handoff_user_agent_from_browser fuel pat timeout start_url :
  respects (user_agent_from_browser E)
    (ClientMethods.wait_for_login L E fuel pat timeout start_url).
Proof.
  unfold ClientMethods.wait_for_login, ClientMethods.resume_headless,
    ClientMethods.current_url, ClientMethods.page_get, ClientMethods.page,
    ClientMethods.time_time.
  respects_tac;
    first [ apply user_agent_from_browser_call
          | apply user_agent_from_browser_weaken, _restart_browser_same_user_agent
          | apply poll_user_agent
          | apply user_agent_from_browser_weaken, same_user_agent_of_same_client,
              restore_cookies_same_client ].
Qed.

(** The [finally] block, when it returns, leaves a headless browser
    launched with the recorded user agent. *)
Lemma resume_headless_page start_url original_url captured s s' :
  ClientMethods.resume_headless L E start_url original_url captured s = (Return tt, s') ->
  _page (fst s') = Some {| page_headless := true;
                           page_user_agent := launch_user_agent (fst s') |}.
Proof.
  unfold ClientMethods.resume_headless. intros H.
  apply bind_Return_inv in H as (u & s1 & Hr & H).
  destruct u. apply _restart_browser_page in Hr.
  assert (Hsame : fst s' = fst s1).
  { destruct captured as [[|c cs]|].
    - injection H as <-. reflexivity.
    - assert (Hr' : respects same_client
                      (try_except
                         (ClientMethods.restore_cookies L E (c :: cs) start_url original_url)
                         (fun _ => ret tt))).
      { respects_tac. apply restore_cookies_same_client. }
      exact (Hr' _ _ _ H).
    - injection H as <-. reflexivity. }
  rewrite Hsame. exact Hr.
Qed.
End UserAgent.

(** X19.  When [wait_for_login] returns, the headless browser that the client
    holds was launched with the user agent that the client records (none
    when that is empty), and this user agent is the one recorded before the
    call or one that [page.user_agent] returned during it. *)
Theorem wait_for_login_user_agent
    (L : PyLib) (E : Env) (fuel : nat) (success_pattern : string) (timeout : Z)
    (start_url : option string) (s : state) (cl' : Client) (w' : World) :
  ClientMethods.wait_for_login L E fuel success_pattern timeout start_url s
    = (Return tt, (cl', w')) ->
  _page cl' = Some {| page_headless := true; page_user_agent := launch_user_agent cl' |}
  /\ (_user_agent cl' = _user_agent (fst s)
      \/ exists n ua, env_user_agent E n = inr ua /\ _user_agent cl' = Some ua).
Proof.
  intros Hrun. split.
  - unfold ClientMethods.wait_for_login in Hrun.
    apply bind_Return_inv in Hrun as (original_url & s1 & _ & H).
    apply bind_Return_inv in H as (u & s2 & _ & H).
    apply try_finally_Return_inv in H as (captured & s3 & _ & H).
    exact (resume_headless_page L E _ _ _ _ _ H).
  - exact (handoff_user_agent_from_browser L E _ _ _ _ _ _ _ Hrun).
Qed.

Lemma wait_for_login_user_agent_witness :
  let run := ClientMethods.wait_for_login Ref.lib
               (Sample.env (Sample.at_url "https://example.com/dashboard")
                  (inr [Sample.session_cookie; Sample.persistent_cookie]) Sample.no_fetch)
               20 "dashboard" 300 (Some "https://example.com/login")
               (Sample.client ∅, Sample.world) in
  fst run = Return tt
  /\ _user_agent (fst (snd run)) = Some "Mozilla/5.0"
  /\ _page (fst (snd run)) = Some {| page_headless := true;
                                     page_user_agent := Some "Mozilla/5.0" |}.
Proof.
  intros run.
  assert (Hret : fst run = Return tt) by (vm_compute; reflexivity).
  assert (Hua : _user_agent (fst (snd run)) = Some "Mozilla/5.0") by (vm_compute; reflexivity).
  split; [exact Hret|]. split; [exact Hua|].
  destruct (wait_for_login_user_agent Ref.lib
              (Sample.env (Sample.at_url "https://example.com/dashboard")
                 (inr [Sample.session_cookie; Sample.persistent_cookie]) Sample.no_fetch)
              20 "dashboard" 300 (Some "https://example.com/login")
              (Sample.client ∅, Sample.world) (fst (snd run)) (snd (snd run)))
    as (Hp & _).
  - vm_compute. reflexivity.
  - rewrite Hp. unfold launch_user_agent. rewrite Hua. reflexivity.
Defined.

(** ** A handoff without a match *)

#[local] Instance session_untouched_preorder : PreOrder session_untouched.
Proof.
  split.
  - intros s. split; reflexivity.
  - intros a b c (H1 & H2) (G1 & G2). split; etransitivity; eassumption.
Qed.

Lemma session_untouched_call c : not_session_call c -> call_ok session_untouched c.
Proof.
  intros Hc cl w. split; [reflexivity|]. exact (emits_call not_session_call c Hc cl w).
Qed.

Lemma session_untouched_modify_client f :
  (forall cl, _user_agent (f cl) = _user_agent cl) ->
  respects session_untouched (modify_client f).
Proof.
  intros Hf s o s' H. split.
  - exact (same_user_agent_modify_client f Hf s o s' H).
  - exact (emits_modify_client not_session_call f s o s' H).
Qed.

(** The continuation of an external call only runs on an answer of the
    environment. *)
Lemma respects_bind_ask_exn (R : relation state) `{!PreOrder R} {A B} c
    (answer : nat -> exn + A) (k : A -> M B) :
  call_ok R c -> (forall n a, answer n = inr a -> respects R (k a)) ->
  respects R (bind (ask_exn c answer) k).
Proof.
  intros Hc Hk [cl w] o s'. unfold ask_exn, ask, bind. cbn [fst snd].
  destruct (answer (tick w)) as [e|a] eqn:Hans; cbn [lift raise ret]; intros H.
  - injection H as _ <-. apply Hc.
  - transitivity (cl, step c w); [apply Hc | exact (Hk _ _ Hans _ _ _ H)].
Qed.

(** A [finally] block that depends on the result of the body, when the body
    can only return [None]. *)
Lemma respects_try_finally_none (R : relation state) `{!PreOrder R} {A}
    (body : M (option A)) (fin : option A -> M unit) :
  respects R body -> (forall s v s', body s = (Return v, s') -> v = None) ->
  respects R (fin None) -> respects R (try_finally body fin).
Proof.
  intros Hb Hv Hf s o s'. unfold try_finally.
  destruct (body s) as [[v|e|] s1] eqn:Hrun; intros H.
  - rewrite (Hv _ _ _ Hrun) in H.
    etransitivity; [exact (Hb _ _ _ Hrun) | exact (Hf _ _ _ H)].
  - destruct (fin None s1) as [[x|e'|] s2] eqn:F; injection H as _ <-;
      (etransitivity; [exact (Hb _ _ _ Hrun) | exact (Hf _ _ _ F)]).
  - injection H as _ <-. exact (Hb _ _ _ Hrun).
Qed.

Ltac session_call :=
  apply session_untouched_call; repeat split; intros; discriminate.

Section NoMatch.
Variable L : PyLib.
Variable E : Env.
Variable pat : string.
Hypothesis Hno : never_matches L E pat.

Lemma _restart_browser_session_untouched h :
  respects session_untouched (ClientMethods._restart_browser E h).
Proof.
  unfold ClientMethods._restart_browser, ClientMethods._init_browser, ClientMethods.time_sleep.
  respects_tac;
    first [ session_call | apply session_untouched_modify_client; intros; reflexivity ].
Qed.

Lemma poll_once_no_match : respects session_untouched (ClientMethods.poll_once L E pat).
Proof.
  unfold ClientMethods.poll_once, ClientMethods.page.
  apply respects_try_except; [typeclasses eauto | | intros e; apply respects_ret; typeclasses eauto].
  apply respects_bind; [typeclasses eauto | respects_tac | intros p].
  apply respects_bind_ask_exn; [typeclasses eauto | session_call | intros n current Hcur].
  apply respects_bind_lift; [typeclasses eauto | intros found Hfound].
  destruct found.
  - exfalso. exact (Hno n current Hcur Hfound).
  - apply respects_ret. typeclasses eauto.
Qed.

Lemma poll_once_returns_none s v s' :
  ClientMethods.poll_once L E pat s = (Return v, s') -> v = None.
Proof.
  destruct v as [cs|]; [|reflexivity]. intros H. exfalso.
  unfold ClientMethods.poll_once in H.
  apply try_except_Return_inv in H as [H|(e & s1 & _ & H)]; [|discriminate].
  apply bind_Return_inv in H as (p & s1 & _ & H).
  apply bind_Return_inv in H as (current & s2 & Hcur & H).
  apply bind_Return_inv in H as (found & s3 & Hfound & H).
  apply ask_exn_Return_inv in Hcur.
  destruct (re_search L pat current) as [e|b] eqn:Hre; [discriminate|].
  injection Hfound as <- _.
  destruct b; [exact (Hno _ _ Hcur Hre) | discriminate].
Qed.

Lemma poll_no_match fuel timeout start :
  respects session_untouched (ClientMethods.poll L E fuel pat timeout start).
Proof.
  induction fuel as [|fuel IH]; cbn [ClientMethods.poll].
  - apply respects_diverge. typeclasses eauto.
  - unfold ClientMethods.time_time, ClientMethods.time_sleep.
    respects_tac; first [ session_call | apply poll_once_no_match | exact IH ].
Qed.

Lemma poll_returns_none fuel timeout start s v s' :
  ClientMethods.poll L E fuel pat timeout start s = (Return v, s') -> v = None.
Proof.
  revert s. induction fuel as [|fuel IH]; intros s H; [discriminate|].
  rewrite poll_unfold in H.
  apply bind_Return_inv in H as (now & s1 & _ & H).
  destruct (bool_decide _); [injection H as <- _; reflexivity|].
  apply bind_Return_inv in H as (captured & s2 & Hc & H).
  apply poll_once_returns_none in Hc. subst captured.
  apply bind_Return_inv in H as (u & s3 & _ & H). exact (IH _ H).
Qed.

Lemma wait_for_login_no_match fuel timeout start_url :
  respects session_untouched (ClientMethods.wait_for_login L E fuel pat timeout start_url).
Proof.
  unfold ClientMethods.wait_for_login.
  apply respects_bind; [typeclasses eauto | | intros original_url].
  { unfold ClientMethods.current_url, ClientMethods.page. respects_tac; session_call. }
  apply respects_bind; [typeclasses eauto | apply _restart_browser_session_untouched | intros _].
  apply respects_try_finally_none; [typeclasses eauto | | |].
  - unfold ClientMethods.page_get, ClientMethods.page, ClientMethods.time_time.
    respects_tac; first [ session_call | apply poll_no_match ].
  - intros s v s' H.
    apply bind_Return_inv in H as (u & s1 & _ & H).
    apply bind_Return_inv in H as (st & s2 & _ & H).
    exact (poll_returns_none _ _ _ _ _ _ H).
  - unfold ClientMethods.resume_headless.
    respects_tac. apply _restart_browser_session_untouched.
Qed.
End NoMatch.

(** X20.  When no address that the browser reports matches the pattern, the
    handoff, whatever its outcome, reads no cookies and no user agent from
    the browser, restores no cookies, and leaves the recorded user agent
    as it was. *)
Theorem wait_for_login_without_match
    (L : PyLib) (E : Env) (fuel : nat) (success_pattern : string) (timeout : Z)
    (start_url : option string) (s : state) :
  never_matches L E success_pattern ->
  let run := ClientMethods.wait_for_login L E fuel success_pattern timeout start_url s in
  _user_agent (fst (snd run)) = _user_agent (fst s)
  /\ exists calls,
       trace (snd (snd run)) = (trace (snd s) ++ calls)%list
       /\ Forall not_session_call calls.
Proof.
  intros Hno run.
  exact (wait_for_login_no_match L E success_pattern Hno fuel timeout start_url s _ _
           (surjective_pairing _)).
Qed.

Lemma wait_for_login_without_match_witness :
  let E := Sample.env (Sample.at_url "https://example.com/login")
             (inr [Sample.session_cookie]) Sample.no_fetch in
  let run := ClientMethods.wait_for_login Ref.lib E 20 "dashboard" 3 None
               (Sample.client ∅, Sample.world) in
  never_matches Ref.lib E "dashboard"
  /\ fst run = Return tt
  /\ _user_agent (fst (snd run)) = None
  /\ exists calls, trace (snd (snd run)) = calls /\ Forall not_session_call calls.
Proof.
  intros E run.
  assert (Hno : never_matches Ref.lib E "dashboard").
  { intros n u Hu. injection Hu as <-. vm_compute. discriminate. }
  split; [exact Hno|]. split; [vm_compute; reflexivity|].
  destruct (wait_for_login_without_match Ref.lib E 20 "dashboard" 3 None
              (Sample.client ∅, Sample.world) Hno) as (Hua & calls & Htr & Hcalls).
  split; [exact Hua|]. exists calls. split; [exact Htr | exact Hcalls].
Defined.

(** ** Sanitising twice *)

Lemma filter_all {A} (f : A -> bool) (l : list A) :
  (forall x, In x l -> f x = true) -> List.filter f l = l.
Proof.
  induction l as [|x l IH]; intros H; [reflexivity|]. cbn [List.filter].
  rewrite (H x (or_introl eq_refl)). f_equal. apply IH.
  intros y Hy. apply H. right. exact Hy.
Qed.

Lemma sanitize_cookie_idempotent c c' :
  ClientMethods.sanitize_cookie c = inr c' -> ClientMethods.sanitize_cookie c' = inr c'.
Proof.
  unfold ClientMethods.sanitize_cookie.
  set (allowed := fun kv : string * JSONValue =>
                    existsb (String.eqb (fst kv)) ClientMethods.allowed_keys).
  set (clean := List.filter allowed c).
  assert (Hclean : forall l, (forall x, In x l -> In x clean) -> List.filter allowed l = l).
  { intros l Hl. apply filter_all. intros x Hx.
    apply Hl in Hx. subst clean. apply List.filter_In in Hx. exact (proj2 Hx). }
  destruct (ClientMethods.le_zero (PyDict.get_default "expires" (VInt 0) clean))
    as [e|[|]] eqn:Hle; [discriminate| |]; intros H; injection H as <-.
  - rewrite (Hclean (PyDict.pop "expires" clean)).
    + unfold PyDict.get_default. rewrite get_pop, String.eqb_refl. cbn [ClientMethods.le_zero].
      change (0 <=? 0) with true. cbn iota. f_equal.
      unfold PyDict.pop. apply filter_all. intros x Hx.
      apply List.filter_In in Hx. exact (proj2 Hx).
    + intros x Hx. unfold PyDict.pop in Hx. apply List.filter_In in Hx. exact (proj1 Hx).
  - rewrite (Hclean clean (fun x Hx => Hx)). rewrite Hle. reflexivity.
Qed.

(** X21.  Sanitising is a projection that keeps every cookie: the list that
    [wait_for_login] restores has as many cookies as the captured one, and
    sanitising it again changes nothing. *)
Theorem sanitize_cookies_idempotent (captured restored : list JSONDict) :
  ClientMethods.sanitize_cookies captured = inr restored ->
  length restored = length captured
  /\ ClientMethods.sanitize_cookies restored = inr restored.
Proof.
  revert restored. induction captured as [|c r IH]; intros restored H.
  - injection H as <-. split; reflexivity.
  - cbn [ClientMethods.sanitize_cookies] in H.
    destruct (ClientMethods.sanitize_cookie c) as [e|c'] eqn:Hc; [discriminate|].
    destruct (ClientMethods.sanitize_cookies r) as [e|r'] eqn:Hr; [discriminate|].
    injection H as <-. destruct (IH r' eq_refl) as (Hlen & Hidem).
    split; [cbn [length]; rewrite Hlen; reflexivity|].
    cbn [ClientMethods.sanitize_cookies].
    rewrite (sanitize_cookie_idempotent c c' Hc), Hidem. reflexivity.
Qed.

Lemma sanitize_cookies_idempotent_witness :
  let captured := [Sample.session_cookie; Sample.persistent_cookie] in
  exists restored,
    ClientMethods.sanitize_cookies captured = inr restored
    /\ length restored = 2%nat
    /\ ClientMethods.sanitize_cookies restored = inr restored.
Proof.
  intros captured.
  destruct (ClientMethods.sanitize_cookies captured) as [e|restored] eqn:H;
    [vm_compute in H; discriminate H|].
  exists restored. split; [reflexivity|].
  exact (sanitize_cookies_idempotent captured restored H).
Defined.

(** ** The order of the keys of a body *)

Lemma string_compare_trans (s1 s2 s3 : string) :
  String.compare s1 s2 <> Gt -> String.compare s2 s3 <> Gt -> String.compare s1 s3 <> Gt.
Proof.
  revert s2 s3. induction s1 as [|c1 s1 IH]; intros [|c2 s2] [|c3 s3];
    cbn [String.compare]; try congruence.
  unfold Ascii.compare.
  destruct (N.compare_spec (N_of_ascii c1) (N_of_ascii c2)) as [H12|H12|H12];
    destruct (N.compare_spec (N_of_ascii c2) (N_of_ascii c3)) as [H23|H23|H23];
    destruct (N.compare_spec (N_of_ascii c1) (N_of_ascii c3)) as [H13|H13|H13];
    try congruence; try lia.
  apply IH.
Qed.

Lemma string_leb_trans (s1 s2 s3 : string) :
  String.leb s1 s2 = true -> String.leb s2 s3 = true -> String.leb s1 s3 = true.
Proof.
  unfold String.leb. intros H12 H23.
  pose proof (string_compare_trans s1 s2 s3) as H.
  destruct (String.compare s1 s2); destruct (String.compare s2 s3);
    destruct (String.compare s1 s3); try reflexivity; try discriminate;
    exfalso; apply H; congruence.
Qed.

Lemma string_leb_false (s1 s2 : string) :
  String.leb s1 s2 = false -> String.leb s2 s1 = true.
Proof. intros H. destruct (String.leb_total s1 s2) as [H'|H']; congruence. Qed.

(** Insertions of items with distinct keys commute. *)
Lemma insert_item_comm (a b : string * string) (l : list (string * string)) :
  fst a <> fst b ->
  Json.insert_item a (Json.insert_item b l) = Json.insert_item b (Json.insert_item a l).
Proof.
  intros Hne.
  assert (Hab : String.leb (fst a) (fst b) = negb (String.leb (fst b) (fst a))).
  { destruct (String.leb (fst a) (fst b)) eqn:H1, (String.leb (fst b) (fst a)) eqn:H2;
      try reflexivity.
    - exfalso. exact (Hne (String.leb_antisym _ _ H1 H2)).
    - apply string_leb_false in H1. congruence. }
  induction l as [|h t IH]; cbn [Json.insert_item].
  - rewrite Hab. destruct (String.leb (fst b) (fst a)); reflexivity.
  - destruct (String.leb (fst h) (fst b)) eqn:Hhb, (String.leb (fst h) (fst a)) eqn:Hha;
      cbn [Json.insert_item]; rewrite ?Hhb, ?Hha.
    + rewrite IH. reflexivity.
    + rewrite (string_leb_trans _ _ _ (string_leb_false _ _ Hha) Hhb). reflexivity.
    + rewrite (string_leb_trans _ _ _ (string_leb_false _ _ Hhb) Hha). reflexivity.
    + rewrite Hab. destruct (String.leb (fst b) (fst a)); reflexivity.
Qed.

Lemma sort_items_perm (l l' : list (string * string)) :
  Permutation l l' -> List.NoDup (List.map fst l) ->
  forall acc, fold_left (fun acc it => Json.insert_item it acc) l acc
              = fold_left (fun acc it => Json.insert_item it acc) l' acc.
Proof.
  induction 1 as [|x l l' Hp IH|x y l|l l' l'' Hp1 IH1 Hp2 IH2]; intros Hnd acc.
  - reflexivity.
  - cbn [fold_left]. apply IH. cbn [List.map] in Hnd.
    apply List.NoDup_cons_iff in Hnd. exact (proj2 Hnd).
  - cbn [fold_left]. f_equal. apply insert_item_comm.
    cbn [List.map] in Hnd. apply List.NoDup_cons_iff in Hnd. destruct Hnd as (Hin & _).
    intros Heq. apply Hin. left. exact Heq.
  - rewrite (IH1 Hnd acc). apply IH2.
    exact (Permutation_NoDup (Permutation_map fst Hp1) Hnd).
Qed.

Section KeyOrder.
Variable L : PyLib.

Lemma normalize_perm (d d' : JSONDict) :
  Permutation d d' -> List.NoDup (PyDict.keys d) ->
  RequestCache.normalize L (Some d) = RequestCache.normalize L (Some d').
Proof.
  intros Hp Hnd. unfold RequestCache.normalize.
  destruct d as [|kv d]; destruct d' as [|kv' d'].
  - reflexivity.
  - apply Permutation_nil_cons in Hp. contradiction.
  - apply Permutation_sym, Permutation_nil_cons in Hp. contradiction.
  - unfold json_dumps. cbn [Json.dumps]. unfold Json.sort_items.
    rewrite (sort_items_perm _ _
               (Permutation_map (fun kv => (fst kv, Json.dumps (float_repr L) true (snd kv))) Hp)).
    + reflexivity.
    + rewrite List.map_map. exact Hnd.
Qed.
End KeyOrder.

(** X8.  The fingerprint does not depend on the order in which the keys of the
    query parameters, the form body and the json body are listed: bodies
    that are permutations of each other, with no key repeated, have the
    same fingerprint. *)
Theorem generate_key_key_order
    (L : PyLib) (method url : string) (params params' data data' json_data json_data' : JSONDict) :
  Permutation params params' -> List.NoDup (PyDict.keys params) ->
  Permutation data data' -> List.NoDup (PyDict.keys data) ->
  Permutation json_data json_data' -> List.NoDup (PyDict.keys json_data) ->
  RequestCache.generate_key L method url (Some params) (Some data) (Some json_data)
  = RequestCache.generate_key L method url (Some params') (Some data') (Some json_data').
Proof.
  intros Hp1 Hn1 Hp2 Hn2 Hp3 Hn3.
  unfold RequestCache.generate_key, RequestCache.raw_key.
  rewrite (normalize_perm L _ _ Hp1 Hn1), (normalize_perm L _ _ Hp2 Hn2),
    (normalize_perm L _ _ Hp3 Hn3).
  reflexivity.
Qed.

Lemma generate_key_key_order_witness :
  let a := [("page", VInt 2); ("q", VStr "rocq")] in
  let a' := [("q", VStr "rocq"); ("page", VInt 2)] in
  let b := [("user", VStr "neko"); ("remember", VBool true); ("n", VInt 1)] in
  let b' := [("n", VInt 1); ("user", VStr "neko"); ("remember", VBool true)] in
  RequestCache.generate_key Ref.lib "post" "https://example.com/login" (Some a) (Some b) (Some [])
  = RequestCache.generate_key Ref.lib "post" "https://example.com/login" (Some a') (Some b')
      (Some []).
Proof.
  intros a a' b b'.
  apply generate_key_key_order.
  - apply perm_swap.
  - repeat constructor; cbn; intuition discriminate.
  - apply Permutation_sym. apply (Permutation_cons_app [_; _] [] _). apply Permutation_refl.
  - repeat constructor; cbn; intuition discriminate.
  - apply perm_nil.
  - constructor.
Defined.

(** ** The rows that a request touches *)

#[local] Instance cache_frame_preorder key : PreOrder (cache_frame key).
Proof.
  split.
  - intros s k Hk. reflexivity.
  - intros a b c H1 H2 k Hk. rewrite (H2 k Hk). exact (H1 k Hk).
Qed.

#[local] Instance cache_shrinks_preorder : PreOrder cache_shrinks.
Proof.
  split.
  - intros s k r H. exact H.
  - intros a b c H1 H2 k r H. exact (H1 k r (H2 k r H)).
Qed.

Lemma cache_frame_of_same_client key {A} (m : M A) :
  respects same_client m -> respects (cache_frame key) m.
Proof.
  intros H s o s' Hr. specialize (H s o s' Hr). unfold same_client in H.
  intros k Hk. rewrite H. reflexivity.
Qed.

Lemma cache_shrinks_of_same_client {A} (m : M A) :
  respects same_client m -> respects cache_shrinks m.
Proof.
  intros H s o s' Hr. specialize (H s o s' Hr). unfold same_client in H.
  intros k r. rewrite H. exact (fun x => x).
Qed.

Lemma get_frame (L : PyLib) now se de k k' conn :
  k' <> k -> snd (RequestCache.get L now se de k conn) !! k' = conn !! k'.
Proof.
  intros Hne. unfold RequestCache.get. destruct se; [reflexivity|].
  destruct (conn !! k) as [r|]; [|reflexivity].
  destruct (decide (now < RequestCache.expires_at r)%Qc).
  - destruct (json_loads L (RequestCache.value r)); reflexivity.
  - destruct de; cbn [snd]; [reflexivity|]. apply lookup_delete_ne. congruence.
Qed.

Lemma get_shrinks (L : PyLib) now se de k k' conn r :
  snd (RequestCache.get L now se de k conn) !! k' = Some r -> conn !! k' = Some r.
Proof.
  unfold RequestCache.get. destruct se; [exact (fun x => x)|].
  destruct (conn !! k) as [r0|]; [|exact (fun x => x)].
  destruct (decide (now < RequestCache.expires_at r0)%Qc).
  - destruct (json_loads L (RequestCache.value r0)); exact (fun x => x).
  - destruct de; cbn [snd]; [exact (fun x => x)|].
    intros H. apply lookup_delete_Some in H. exact (proj2 H).
Qed.

Lemma set_frame (L : PyLib) t err k k' v ttl conn :
  k' <> k -> RequestCache.set L t err k v ttl conn !! k' = conn !! k'.
Proof.
  intros Hne. unfold RequestCache.set. destruct err; [reflexivity|].
  apply lookup_insert_ne. congruence.
Qed.

Section RequestRows.
Variable L : PyLib.
Variable E : Env.

Lemma cache_get_frame key : respects (cache_frame key) (ClientMethods.cache_get L E key).
Proof.
  intros [cl w] o s' H. rewrite cache_get_eval in H. cbn zeta in H.
  injection H as _ <-. intros k Hk. cbn [fst cache set_cache]. apply get_frame, Hk.
Qed.

Lemma cache_set_frame key v ttl :
  respects (cache_frame key) (ClientMethods.cache_set L E key v ttl).
Proof.
  intros [cl w] o s' H. rewrite cache_set_eval in H.
  injection H as _ <-. intros k Hk. cbn [fst cache set_cache]. apply set_frame, Hk.
Qed.

Lemma cache_get_shrinks key : respects cache_shrinks (ClientMethods.cache_get L E key).
Proof.
  intros [cl w] o s' H. rewrite cache_get_eval in H. cbn zeta in H.
  injection H as _ <-. intros k r. cbn [fst cache set_cache]. apply get_shrinks.
Qed.

(** The part of [request] that follows the reading of the client. *)
Lemma request_unfold method endpoint params data json_data headers timeout cache_ttl cl w :
  ClientMethods.request L E method endpoint params data json_data headers timeout cache_ttl
    (cl, w)
  = (let full_url := ClientMethods.final_url L cl endpoint params in
     ClientMethods._ensure_cors_context L E full_url ;;;
     let cache_key :=
       match cache_ttl with
       | Some _ => RequestCache.generate_key L method full_url None data json_data
       | None => ""
       end in
     cached_data <- match cache_ttl with
                    | Some _ => ClientMethods.cache_get L E cache_key
                    | None => ret None
                    end ;;
     let fetch : M Response.t :=
       let options := ClientMethods.build_options L method data json_data headers in
       response <- ClientMethods._exec_fetch L E full_url options timeout ;;
       match cache_ttl with
       | Some ttl =>
           if Response.ok response
           then ClientMethods.cache_set L E cache_key (Response.raw_data response)
                  (ttl_seconds ttl) ;;;
                ret response
           else ret response
       | None => ret response
       end in
     match cached_data with
     | Some d => if ClientMethods.truthy_data cached_data then lift (Response.init d) else fetch
     | None => fetch
     end) (cl, w).
Proof. reflexivity. Qed.

Lemma request_cache_frame_rel method endpoint params data json_data headers timeout ttl cl w :
  let key := RequestCache.generate_key L method (ClientMethods.final_url L cl endpoint params)
               None data json_data in
  forall o s',
    ClientMethods.request L E method endpoint params data json_data headers timeout
      (Some ttl) (cl, w) = (o, s') ->
    cache_frame key (cl, w) s'.
Proof.
  intros key o s' H. rewrite request_unfold in H. cbn zeta in H. fold key in H.
  revert H.
  match goal with
  | |- ?m (cl, w) = _ -> _ => assert (Hr : respects (cache_frame key) m)
  end.
  { respects_tac;
      first [ apply cache_frame_of_same_client, _ensure_cors_context_same_client
            | apply cache_frame_of_same_client, _exec_fetch_same_client
            | apply cache_get_frame
            | apply cache_set_frame ]. }
  exact (Hr _ _ _).
Qed.
End RequestRows.

(** X22.  A request reads and writes the cache under its own fingerprint
    only: whatever its outcome, the row of every other key is as it was. *)
Theorem request_touches_own_row
    (L : PyLib) (E : Env) (method endpoint : string)
    (params data json_data headers : option JSONDict) (timeout : Qc)
    (cache_ttl : option cache_ttl_t) (cl : Client) (w : World) (k : string) :
  let key := RequestCache.generate_key L method (ClientMethods.final_url L cl endpoint params)
               None data json_data in
  let run := ClientMethods.request L E method endpoint params data json_data headers
               timeout cache_ttl (cl, w) in
  k <> key -> cache (fst (snd run)) !! k = cache cl !! k.
Proof.
  intros key run Hk. destruct cache_ttl as [ttl|].
  - exact (request_cache_frame_rel L E method endpoint params data json_data headers timeout
             ttl cl w _ _ (surjective_pairing _) k Hk).
  - pose proof (request_uncached_same_client L E method endpoint params data json_data headers
                  timeout (cl, w) _ _ (surjective_pairing _)) as Hs.
    unfold same_client in Hs. fold run in Hs. rewrite Hs. reflexivity.
Qed.

Lemma request_touches_own_row_witness :
  let E := Sample.env (Sample.at_url "about:blank") (inr []) (inr (Sample.cdp_status 200)) in
  let conn := RequestCache.set Ref.lib (Sample.clock 0) false Sample.key Sample.ok_record
                (float_of_Z 60) ∅ in
  let run := ClientMethods.request Ref.lib E "GET" "/api/items" None None None None
               (float_of_Z 30) (Some (TtlInt 90)) (Sample.client conn, Sample.world) in
  Sample.key <> RequestCache.generate_key Ref.lib "GET" "https://example.com/api/items"
                  None None None
  /\ cache (fst (snd run)) !! Sample.key = conn !! Sample.key.
Proof.
  intros E conn run.
  assert (Hne : Sample.key <> RequestCache.generate_key Ref.lib "GET"
                                "https://example.com/api/items" None None None).
  { vm_compute. discriminate. }
  split; [exact Hne|].
  exact (request_touches_own_row Ref.lib E "GET" "/api/items" None None None None
           (float_of_Z 30) (Some (TtlInt 90)) (Sample.client conn) Sample.world Sample.key Hne).
Defined.

(** X23.  A request that does not return an [ok] response stores nothing:
    when it raises, or returns a response that is not [ok], every row of
    the cache afterwards was there before (an expired row of its own key
    may have been purged by the lookup). *)
Theorem request_failure_stores_nothing
    (L : PyLib) (E : Env) (method endpoint : string)
    (params data json_data headers : option JSONDict) (timeout : Qc)
    (cache_ttl : option cache_ttl_t) (cl : Client) (w : World)
    (o : outcome Response.t) (s' : state) (k : string) (r : RequestCache.row) :
  ClientMethods.request L E method endpoint params data json_data headers timeout cache_ttl
    (cl, w) = (o, s') ->
  (forall resp, o = Return resp -> Response.ok resp = false) ->
  cache (fst s') !! k = Some r -> cache cl !! k = Some r.
Proof.
  intros H Hnok. revert k r. change (cache_shrinks (cl, w) s').
  rewrite request_unfold in H. cbn zeta in H.
  set (full_url := ClientMethods.final_url L cl endpoint params) in H.
  set (key := match cache_ttl with
              | Some _ => RequestCache.generate_key L method full_url None data json_data
              | None => ""
              end) in H.
  set (options := ClientMethods.build_options L method data json_data headers) in H.
  assert (Hcors : respects cache_shrinks (ClientMethods._ensure_cors_context L E full_url))
    by apply cache_shrinks_of_same_client, _ensure_cors_context_same_client.
  assert (Hexec : respects cache_shrinks (ClientMethods._exec_fetch L E full_url options timeout))
    by apply cache_shrinks_of_same_client, _exec_fetch_same_client.
  apply bind_cases in H as [(u & s1 & H1 & H)|[(e & H1 & _)|(H1 & _)]];
    [| exact (Hcors _ _ _ H1) | exact (Hcors _ _ _ H1)].
  transitivity s1; [exact (Hcors _ _ _ H1)|].
  assert (Hlookup : respects cache_shrinks
                      (match cache_ttl with
                       | Some _ => ClientMethods.cache_get L E key
                       | None => ret None
                       end)).
  { destruct cache_ttl; [apply cache_get_shrinks | apply respects_ret; typeclasses eauto]. }
  apply bind_cases in H as [(cached & s2 & H2 & H)|[(e & H2 & _)|(H2 & _)]];
    [| exact (Hlookup _ _ _ H2) | exact (Hlookup _ _ _ H2)].
  transitivity s2; [exact (Hlookup _ _ _ H2)|].
  assert (Hfetch : forall s3,
    (response <- ClientMethods._exec_fetch L E full_url options timeout ;;
     match cache_ttl with
     | Some ttl =>
         if Response.ok response
         then ClientMethods.cache_set L E key (Response.raw_data response) (ttl_seconds ttl) ;;;
              ret response
         else ret response
     | None => ret response
     end) s3 = (o, s') -> cache_shrinks s3 s').
  { intros s3 Hf.
    apply bind_cases in Hf as [(resp & s4 & H4 & Hf)|[(e & H4 & _)|(H4 & _)]];
      [| exact (Hexec _ _ _ H4) | exact (Hexec _ _ _ H4)].
    transitivity s4; [exact (Hexec _ _ _ H4)|].
    destruct cache_ttl as [ttl|].
    - destruct (Response.ok resp) eqn:Hok.
      + exfalso. destruct s4 as [cl4 w4]. unfold bind in Hf. rewrite cache_set_eval in Hf.
        injection Hf as <- _. rewrite (Hnok resp eq_refl) in Hok. discriminate.
      + injection Hf as _ <-. reflexivity.
    - injection Hf as _ <-. reflexivity. }
  destruct cached as [d|]; [|exact (Hfetch _ H)].
  destruct (ClientMethods.truthy_data (Some d)); [|exact (Hfetch _ H)].
  refine (cache_shrinks_of_same_client (lift (Response.init d)) _ _ _ _ H).
  apply respects_lift. typeclasses eauto.
Qed.

Lemma request_failure_stores_nothing_witness :
  let E := Sample.env (Sample.at_url "about:blank") (inr []) (inr Sample.cdp_abort) in
  let conn := RequestCache.set Ref.lib (Sample.clock 0) false Sample.key Sample.ok_record
                (float_of_Z 60) ∅ in
  let run := ClientMethods.request Ref.lib E "GET" "/api/items" None None None None
               (float_of_Z 30) (Some (TtlInt 90)) (Sample.client conn, Sample.world) in
  (exists e, fst run = Raise e /\ exn_kind e = TimeoutError)
  /\ forall k r, cache (fst (snd run)) !! k = Some r -> conn !! k = Some r.
Proof.
  intros E conn run.
  assert (Hrun : exists e, fst run = Raise e /\ exn_kind e = TimeoutError).
  { eexists. split; vm_compute; reflexivity. }
  split; [exact Hrun|]. intros k r.
  apply (request_failure_stores_nothing Ref.lib E "GET" "/api/items" None None None None
           (float_of_Z 30) (Some (TtlInt 90)) (Sample.client conn) Sample.world
           (fst run) (snd run)).
  - apply surjective_pairing.
  - intros resp Hresp. destruct Hrun as (e & He & _). rewrite He in Hresp. discriminate Hresp.
Defined.
